(** * Leveraged loan tracker: the FRED ingestion and recession derivation

    A shallow embedding of [fred_service.py] (class [FredDataService]) with
    the three tables of [models.py] and the SQLAlchemy session of
    [database.py] ([autocommit=False, autoflush=False]) and the endpoints
    of [main.py] that refresh and read them, followed by the properties of
    the upsert-and-derive pipeline and of these endpoints. *)

From Stdlib Require Import ZArith List String Ascii Bool Lia PrimFloat DecimalString.
From Stdlib Require Import Permutation Sorted.
Import ListNotations.
Local Open Scope string_scope.
Local Open Scope list_scope.
Local Open Scope Z_scope.

(** ** Dates and times *)

(** A Python [datetime]: calendar day plus the time of day in
    microseconds.  FRED observation dates sit at midnight. *)
Record datetime : Type := mkDatetime {
  year : Z;
  month : Z;
  day : Z;
  micros : Z
}.

Definition dt_eqb (a b : datetime) : bool :=
  (year a =? year b) && (month a =? month b) && (day a =? day b)
  && (micros a =? micros b).

Definition dt_compare (a b : datetime) : comparison :=
  match year a ?= year b with
  | Eq => match month a ?= month b with
          | Eq => match day a ?= day b with
                  | Eq => micros a ?= micros b
                  | c => c
                  end
          | c => c
          end
  | c => c
  end.

Definition dt_leb (a b : datetime) : bool :=
  match dt_compare a b with Gt => false | _ => true end.

Definition dt_ltb (a b : datetime) : bool :=
  match dt_compare a b with Lt => true | _ => false end.

(** ** Values: pandas float64 *)

(** [pd.isna(value)] on a float64 entry. *)
Definition isna (value : float) : bool := PrimFloat.is_nan value.

(** ** The tables of models.py *)

(** [MarketData], table market_data. *)
Record MarketData : Type := mkMarketData {
  md_id : Z;
  md_date : datetime;
  md_series_id : string;
  md_series_name : string;
  md_value : float;
  md_created_at : datetime;
  md_updated_at : datetime
}.

(** [RecessionPeriod], table recession_periods. *)
Record RecessionPeriod : Type := mkRecessionPeriod {
  rp_id : Z;
  rp_start_date : datetime;
  rp_end_date : option datetime;
  rp_name : string;
  rp_description : option string;
  rp_created_at : datetime
}.

(** [DataFetchLog], table data_fetch_log. *)
Record DataFetchLog : Type := mkDataFetchLog {
  log_id : Z;
  log_series_id : string;
  log_fetch_date : datetime;
  log_status : string;
  log_records_fetched : Z;
  log_error_message : option string;
  log_start_date : datetime;
  log_end_date : option datetime
}.

Record Tables : Type := mkTables {
  market_data : list MarketData;
  recession_periods : list RecessionPeriod;
  data_fetch_log : list DataFetchLog
}.

Definition empty_tables : Tables := mkTables [] [] [].

(** An object handed to [db.add] and not flushed yet: the keyword
    arguments of its constructor call.  The primary key and the columns
    with a [default] are filled in by the flush. *)
Inductive NewObject : Type :=
| NewMarketData (date : datetime) (series_id series_name : string)
                (value : float)
| NewRecessionPeriod (start_date : datetime) (end_date : option datetime)
                     (name : string)
| NewDataFetchLog (series_id status : string) (records_fetched : Z)
                  (error_message : option string) (start_date : datetime)
                  (end_date : option datetime).

(** ** The FRED client *)

(** A pandas Series indexed by date, as [data.items()] walks it. *)
Definition Series : Type := list (datetime * float).

Inductive Request : Type :=
| GetSeries (series_id start_date : string) (end_date : option string)
| GetSeriesInfo (series_id : string).

Inductive exn : Type :=
| DatabaseError
| ValueError (msg : string)
| AttributeError (msg : string)
| KeyError (key : string)
| SourceError (msg : string).

Definition exn_str (e : exn) : string :=
  match e with
  | DatabaseError => "database error"
  | ValueError msg => msg
  | AttributeError msg => msg
  | KeyError key => key
  | SourceError msg => msg
  end.

Inductive Result (A : Type) : Type :=
| Ok (a : A)
| Raise (e : exn).
Arguments Ok {A} a.
Arguments Raise {A} e.

(** ** The world a call runs in *)

(** [committed] is the database as of the last commit; [loaded] is what the
    session's queries answer from: the persistent rows, carrying the
    attribute assignments of the open transaction; [sess_new] are the
    pending objects, which no query sees since the session never
    autoflushes.  [ticks] counts the clock readings, [dbops] the round
    trips to the database, [requests] the calls made to the FRED client. *)
Record World : Type := mkWorld {
  committed : Tables;
  loaded : Tables;
  sess_new : list NewObject;
  ticks : nat;
  dbops : nat;
  requests : list Request
}.

Definition initial_world : World :=
  mkWorld empty_tables empty_tables [] 0 0 [].

Definition session_clean (w : World) : Prop :=
  sess_new w = [] /\ loaded w = committed w.

Definition set_loaded (t : Tables) (w : World) : World :=
  mkWorld (committed w) t (sess_new w) (ticks w) (dbops w) (requests w).

Definition set_sess_new (n : list NewObject) (w : World) : World :=
  mkWorld (committed w) (loaded w) n (ticks w) (dbops w) (requests w).

Definition set_market_data (rows : list MarketData) (t : Tables) : Tables :=
  mkTables rows (recession_periods t) (data_fetch_log t).

(** Computations: state passing with exceptions; the world survives a
    raise, as the session does in an [except] block. *)
Definition M (A : Type) : Type := World -> Result A * World.

Definition ret {A} (a : A) : M A := fun w => (Ok a, w).

Definition raise {A} (e : exn) : M A := fun w => (Raise e, w).

Definition bind {A B} (m : M A) (k : A -> M B) : M B :=
  fun w => match m w with
           | (Ok a, w') => k a w'
           | (Raise e, w') => (Raise e, w')
           end.

Definition try_except {A} (body : M A) (handler : exn -> M A) : M A :=
  fun w => match body w with
           | (Ok a, w') => (Ok a, w')
           | (Raise e, w') => handler e w'
           end.

Notation "x <- m ;; k" := (bind m (fun x => k))
  (at level 61, m at next level, right associativity).
Notation "m ;;; k" := (bind m (fun _ => k))
  (at level 61, right associativity).

(** ** Row helpers *)

(** The filter [MarketData.date == date, MarketData.series_id == series_id]. *)
Definition key_is (date : datetime) (series_id : string) (r : MarketData)
  : bool :=
  dt_eqb (md_date r) date && String.eqb (md_series_id r) series_id.

(** [existing.value = ...; existing.updated_at = ...] on the object that
    [.first()] returned: the first row the filter selects. *)
Fixpoint update_first {A} (p : A -> bool) (f : A -> A) (rows : list A)
  : list A :=
  match rows with
  | [] => []
  | r :: rest => if p r then f r :: rest else r :: update_first p f rest
  end.

Definition assign_value (value : float) (now : datetime) (r : MarketData)
  : MarketData :=
  mkMarketData (md_id r) (md_date r) (md_series_id r) (md_series_name r)
               value (md_created_at r) now.

(** The serial primary key of the next row; rows are never deleted. *)
Definition next_id {A} (rows : list A) : Z := Z.of_nat (List.length rows) + 1.

(** [order_by(MarketData.date)]: a stable sort on the date column. *)
Fixpoint insert_by_date (r : MarketData) (rows : list MarketData)
  : list MarketData :=
  match rows with
  | [] => [r]
  | x :: rest =>
      if dt_ltb (md_date x) (md_date r) then x :: insert_by_date r rest
      else r :: x :: rest
  end.

Fixpoint sort_by_date (rows : list MarketData) : list MarketData :=
  match rows with
  | [] => []
  | r :: rest => insert_by_date r (sort_by_date rest)
  end.

Definition is_some {A} (o : option A) : bool :=
  match o with Some _ => true | None => false end.

(** ** Python dictionaries, in insertion order *)

Fixpoint dict_lookup {V} (k : string) (d : list (string * V)) : option V :=
  match d with
  | [] => None
  | (k', v) :: rest => if String.eqb k' k then Some v else dict_lookup k rest
  end.

(** [d.get(k, default)]. *)
Definition dict_get {V} (d : list (string * V)) (k : string) (default : V)
  : V :=
  match dict_lookup k d with Some v => v | None => default end.

(** [d[k] = v]. *)
Fixpoint dict_set {V} (k : string) (v : V) (d : list (string * V))
  : list (string * V) :=
  match d with
  | [] => [(k, v)]
  | (k', v') :: rest =>
      if String.eqb k' k then (k', v) :: rest
      else (k', v') :: dict_set k v rest
  end.

(** ** datetime.strptime(s, '%Y-%m-%d')

    The embedding follows [_strptime] on ASCII strings: there [\d] is
    [0-9] and [%r] escapes the quote, the backslash and the control
    characters.  On other strings [\d] also matches the decimal digits
    of other scripts, which this embedding does not read; whatever it
    accepts is ASCII, and the properties that rest on a refusal are
    stated for ASCII strings. *)

Definition is_ascii (s : string) : bool :=
  forallb (fun c => (N_of_ascii c <? 128)%N) (list_ascii_of_string s).

Definition digit_val (c : ascii) : option Z :=
  let n := Z.of_N (N_of_ascii c) in
  if (48 <=? n) && (n <=? 57) then Some (n - 48) else None.

(** [repr] of a [str]: in double quotes when the string holds a single
    quote and no double quote, in single quotes otherwise. *)
Definition double_quote : ascii := ascii_of_N 34.

Definition hex_digit (n : N) : ascii :=
  if (n <? 10)%N then ascii_of_N (48 + n) else ascii_of_N (87 + n).

Definition repr_char (quote c : ascii) : list ascii :=
  let n := N_of_ascii c in
  if Ascii.eqb c quote || Ascii.eqb c "\"%char then ["\"%char; c]
  else if (n =? 9)%N then ["\"%char; "t"%char]
  else if (n =? 10)%N then ["\"%char; "n"%char]
  else if (n =? 13)%N then ["\"%char; "r"%char]
  else if (n <? 32)%N || (n =? 127)%N
       then ["\"%char; "x"%char; hex_digit (n / 16); hex_digit (n mod 16)]
       else [c].

Definition repr (s : string) : string :=
  let cs := list_ascii_of_string s in
  let quote :=
    if existsb (Ascii.eqb "'"%char) cs
       && negb (existsb (Ascii.eqb double_quote) cs)
    then double_quote else "'"%char in
  string_of_list_ascii
    (quote :: flat_map (repr_char quote) cs ++ [quote]).

(** Two digits accepted by [ok], read as a number. *)
Definition two_digits (ok : Z -> Z -> bool) (cs : list ascii)
  : option (Z * list ascii) :=
  match cs with
  | c1 :: c2 :: rest =>
      match digit_val c1, digit_val c2 with
      | Some a, Some b => if ok a b then Some (10 * a + b, rest) else None
      | _, _ => None
      end
  | _ => None
  end.

Definition one_digit (ok : Z -> bool) (cs : list ascii)
  : option (Z * list ascii) :=
  match cs with
  | c :: rest =>
      match digit_val c with
      | Some a => if ok a then Some (a, rest) else None
      | None => None
      end
  | [] => None
  end.

Definition or_else {A} (x y : option A) : option A :=
  match x with Some _ => x | None => y end.

(** [%Y]: four digits. *)
Definition parse_Y (cs : list ascii) : option (Z * list ascii) :=
  match two_digits (fun _ _ => true) cs with
  | Some (hi, rest) =>
      match two_digits (fun _ _ => true) rest with
      | Some (lo, rest') => Some (100 * hi + lo, rest')
      | None => None
      end
  | None => None
  end.

(** [%m]: 1[0-2], 0[1-9] or [1-9], tried in this order. *)
Definition parse_m (cs : list ascii) : option (Z * list ascii) :=
  or_else (two_digits (fun a b => (a =? 1) && (b <=? 2)) cs)
 (or_else (two_digits (fun a b => (a =? 0) && (1 <=? b)) cs)
          (one_digit (fun a => 1 <=? a) cs)).

(** [%d]: 3[01], [12][0-9], 0[1-9], [1-9] or a blank and [1-9]. *)
Definition parse_d (cs : list ascii) : option (Z * list ascii) :=
  or_else (two_digits (fun a b => (a =? 3) && (b <=? 1)) cs)
 (or_else (two_digits (fun a _ => (a =? 1) || (a =? 2)) cs)
 (or_else (two_digits (fun a b => (a =? 0) && (1 <=? b)) cs)
 (or_else (one_digit (fun a => 1 <=? a) cs)
          (match cs with
           | " "%char :: rest => one_digit (fun a => 1 <=? a) rest
           | _ => None
           end)))).

Definition expect_dash (cs : list ascii) : option (list ascii) :=
  match cs with
  | "-"%char :: rest => Some rest
  | _ => None
  end.

Definition is_leap (y : Z) : bool :=
  ((y mod 4 =? 0) && negb (y mod 100 =? 0)) || (y mod 400 =? 0).

Definition days_in_month (y m : Z) : Z :=
  if m =? 2 then (if is_leap y then 29 else 28)
  else if (m =? 4) || (m =? 6) || (m =? 9) || (m =? 11) then 30
  else 31.

Definition strptime (s : string) : Result datetime :=
  let no_match :=
    Raise (ValueError ("time data " ++ repr s
                       ++ " does not match format '%Y-%m-%d'")) in
  match parse_Y (list_ascii_of_string s) with
  | None => no_match
  | Some (y, cs1) =>
    match expect_dash cs1 with
    | None => no_match
    | Some cs2 =>
      match parse_m cs2 with
      | None => no_match
      | Some (m, cs3) =>
        match expect_dash cs3 with
        | None => no_match
        | Some cs4 =>
          match parse_d cs4 with
          | None => no_match
          | Some (d, []) =>
              if y =? 0 then Raise (ValueError "year 0 is out of range")
              else if d <=? days_in_month y m
                   then Ok (mkDatetime y m d 0)
                   else Raise (ValueError "day is out of range for month")
          | Some (_, (_ :: _) as rest) =>
              Raise (ValueError ("unconverted data remains: "
                                 ++ string_of_list_ascii rest))
          end
        end
      end
    end
  end.

(** ** _get_recession_name *)

Definition recession_names : list (Z * string) :=
  [ (1980, "Early 1980s Recession");
    (1981, "1981-1982 Recession");
    (1990, "Early 1990s Recession");
    (2001, "Early 2000s Recession");
    (2007, "Great Recession");
    (2020, "COVID-19 Recession") ].

Definition str_of_int (z : Z) : string :=
  NilZero.string_of_int (Z.to_int z).

Definition _get_recession_name (start_date : datetime) : string :=
  let year := year start_date in
  match find (fun entry => Z.abs (year - fst entry) <=? 1) recession_names with
  | Some (_, name) => name
  | None => str_of_int year ++ " Recession"
  end.

(** ** config.py: the configured series *)

Definition fred_series : list (string * string) :=
  [ ("commercial_delinquency", "DRBLACBS");
    ("charge_off_rate", "CORBLACBS");
    ("credit_standards", "DRTSCILM");
    ("loan_demand", "DRTSCIS");
    ("bbb_yield", "BAMLC0A4CBBB");
    ("high_yield_spread", "BAMLH0A0HYM2");
    ("gdp", "GDP");
    ("unemployment", "UNRATE");
    ("fed_funds", "FEDFUNDS");
    ("recession", "USREC");
    ("nonfinancial_debt", "TCMDO") ].

(** One entry of the dictionary [fetch_and_store_all_series] returns. *)
Inductive SeriesOutcome : Type :=
| SeriesSuccess (records : Z) (series_name : string)
| SeriesFailed (error : string).

Section Service.

(** [datetime.utcnow()] at its n-th reading. *)
Variable utcnow_at : nat -> datetime.

(** Whether the n-th round trip to the database fails. *)
Variable db_fails : nat -> bool.

(** [Fred.get_series] and [Fred.get_series_info], answering the request
    that comes after [n] earlier ones. *)
Variable fred_get_series : nat -> string -> string -> option string
                           -> Result Series.
Variable fred_get_series_info : nat -> string -> Result (list (string * string)).

(** *** Session primitives *)

Definition utcnow : M datetime :=
  fun w => (Ok (utcnow_at (ticks w)),
            mkWorld (committed w) (loaded w) (sess_new w) (S (ticks w))
                    (dbops w) (requests w)).

Definition db_roundtrip : M unit :=
  fun w =>
    let w' := mkWorld (committed w) (loaded w) (sess_new w) (ticks w)
                      (S (dbops w)) (requests w) in
    if db_fails (dbops w) then (Raise DatabaseError, w') else (Ok tt, w').

Definition db_add (o : NewObject) : M unit :=
  fun w => (Ok tt, set_sess_new (sess_new w ++ [o]) w).

(** INSERT of one pending object; the column defaults read the clock. *)
Definition flush_object (k : nat) (t : Tables) (o : NewObject)
  : Tables * nat :=
  match o with
  | NewMarketData date series_id series_name value =>
      (mkTables
         (market_data t ++
          [mkMarketData (next_id (market_data t)) date series_id series_name
                        value (utcnow_at k) (utcnow_at (S k))])
         (recession_periods t) (data_fetch_log t),
       S (S k))
  | NewRecessionPeriod start_date end_date name =>
      (mkTables
         (market_data t)
         (recession_periods t ++
          [mkRecessionPeriod (next_id (recession_periods t)) start_date
                             end_date name None (utcnow_at k)])
         (data_fetch_log t),
       S k)
  | NewDataFetchLog series_id status records_fetched error_message
                    start_date end_date =>
      (mkTables
         (market_data t) (recession_periods t)
         (data_fetch_log t ++
          [mkDataFetchLog (next_id (data_fetch_log t)) series_id
                          (utcnow_at k) status records_fetched error_message
                          start_date end_date]),
       S k)
  end.

Fixpoint flush (k : nat) (t : Tables) (objs : list NewObject)
  : Tables * nat :=
  match objs with
  | [] => (t, k)
  | o :: rest => let (t', k') := flush_object k t o in flush k' t' rest
  end.

(** [db.rollback()]: pending objects are expunged, loaded rows expire. *)
Definition db_rollback : M unit :=
  fun w => (Ok tt, mkWorld (committed w) (committed w) [] (ticks w)
                           (dbops w) (requests w)).

(** [db.commit()]: flush and make durable, or fail with the transaction
    rolled back.  [store_series_data] and [process_recession_indicators]
    call [db.rollback()] in their handlers, after which the session is
    the one left here.  [fetch_and_store_all_series] commits its log rows
    without such a handler, and SQLAlchemy refuses the commit of its
    except branch until a rollback, where this embedding lets it through:
    the properties of the batch are stated for a database that answers
    these commits, or for a start date that never reaches them. *)
Definition db_commit : M unit :=
  fun w =>
    if db_fails (dbops w) then
      (Raise DatabaseError,
       mkWorld (committed w) (committed w) [] (ticks w) (S (dbops w))
               (requests w))
    else
      let (t, k) := flush (ticks w) (loaded w) (sess_new w) in
      (Ok tt, mkWorld t t [] k (S (dbops w)) (requests w)).

(** [db.query(MarketData).filter(date, series_id).first()]: one round
    trip; of the rows the filter selects, the first in table order. *)
Definition query_market_data_first (date : datetime) (series_id : string)
  : M (option MarketData) :=
  db_roundtrip ;;;
  fun w => (Ok (find (key_is date series_id) (market_data (loaded w))), w).

(** *** store_series_data *)

Fixpoint store_loop (series_id series_name : string) (items : Series)
                    (records_stored : Z) : M Z :=
  match items with
  | [] => ret records_stored
  | (date, value) :: rest =>
      if isna value then store_loop series_id series_name rest records_stored
      else
        existing <- query_market_data_first date series_id ;;
        (match existing with
         | Some _ =>
             now <- utcnow ;;
             fun w =>
               (Ok tt,
                set_loaded
                  (set_market_data
                     (update_first (key_is date series_id)
                                   (assign_value value now)
                                   (market_data (loaded w)))
                     (loaded w)) w)
         | None =>
             db_add (NewMarketData date series_id series_name value)
         end) ;;;
        store_loop series_id series_name rest (records_stored + 1)
  end.

Definition store_series_data (series_id series_name : string) (data : Series)
  : M Z :=
  try_except
    (records_stored <- store_loop series_id series_name data 0 ;;
     db_commit ;;;
     ret records_stored)
    (fun e => db_rollback ;;; raise e).

(** *** fetch_series_data and get_series_info *)

Definition log_request (r : Request) (w : World) : World :=
  mkWorld (committed w) (loaded w) (sess_new w) (ticks w) (dbops w)
          (requests w ++ [r]).

Definition fetch_series_data (series_id start_date : string)
                             (end_date : option string) : M Series :=
  try_except
    (fun w =>
       (fred_get_series (List.length (requests w)) series_id start_date
                        end_date,
        log_request (GetSeries series_id start_date end_date) w))
    (fun e => raise e).

(** [info[k]] *)
Definition getitem (info : list (string * string)) (k : string) : M string :=
  match dict_lookup k info with
  | Some v => ret v
  | None => raise (KeyError k)
  end.

Definition get_series_info (series_id : string) : M (list (string * string)) :=
  try_except
    (info <- (fun w =>
                (fred_get_series_info (List.length (requests w)) series_id,
                 log_request (GetSeriesInfo series_id) w)) ;;
     id <- getitem info "id" ;;
     title <- getitem info "title" ;;
     units <- getitem info "units" ;;
     frequency <- getitem info "frequency" ;;
     seasonal_adjustment <- getitem info "seasonal_adjustment" ;;
     last_updated <- getitem info "last_updated" ;;
     ret [ ("id", id); ("title", title); ("units", units);
           ("frequency", frequency);
           ("seasonal_adjustment", seasonal_adjustment);
           ("last_updated", last_updated) ])
    (fun _ => ret []).

(** *** fetch_and_store_all_series *)

Definition strptime_m (s : string) : M datetime :=
  fun w => (strptime s, w).

(** The body of the loop over the configured series. *)
Definition fetch_and_store_one (start_date series_key series_id : string)
                               (results : list (string * SeriesOutcome))
  : M (list (string * SeriesOutcome)) :=
  try_except
    (info <- get_series_info series_id ;;
     let series_name := dict_get info "title" series_key in
     data <- fetch_series_data series_id start_date None ;;
     records_stored <- store_series_data series_id series_name data ;;
     log_start <- strptime_m start_date ;;
     log_end <- utcnow ;;
     db_add (NewDataFetchLog series_id "success" records_stored None
                             log_start (Some log_end)) ;;;
     db_commit ;;;
     ret (dict_set series_key
                   (SeriesSuccess records_stored series_name) results))
    (fun e =>
     log_start <- strptime_m start_date ;;
     db_add (NewDataFetchLog series_id "failed" 0 (Some (exn_str e))
                             log_start None) ;;;
     db_commit ;;;
     ret (dict_set series_key (SeriesFailed (exn_str e)) results)).

Fixpoint fetch_and_store_loop (start_date : string)
                              (config : list (string * string))
                              (results : list (string * SeriesOutcome))
  : M (list (string * SeriesOutcome)) :=
  match config with
  | [] => ret results
  | (series_key, series_id) :: rest =>
      results' <- fetch_and_store_one start_date series_key series_id
                                      results ;;
      fetch_and_store_loop start_date rest results'
  end.

Definition fetch_and_store_all_series (series_config : list (string * string))
                                      (start_date : string)
  : M (list (string * SeriesOutcome)) :=
  fetch_and_store_loop start_date series_config [].

(** *** process_recession_indicators *)

(** [db.query(MarketData).filter(series_id == 'USREC')
       .order_by(MarketData.date).all()]. *)
Definition query_recession_data : M (list MarketData) :=
  db_roundtrip ;;;
  fun w =>
    (Ok (sort_by_date
           (filter (fun r => String.eqb (md_series_id r) "USREC")
                   (market_data (loaded w)))),
     w).

(** [db.query(RecessionPeriod).filter(start_date == recession_start)
       .first()]. *)
Definition query_recession_period_first (recession_start : datetime)
  : M (option RecessionPeriod) :=
  db_roundtrip ;;;
  fun w =>
    (Ok (find (fun p => dt_eqb (rp_start_date p) recession_start)
              (recession_periods (loaded w))),
     w).

(** The check-then-add of both the closing branch and the ongoing case.
    With [recession_start = None] the query selects nothing and
    [_get_recession_name] fails on [None.year]. *)
Definition add_period_unless_existing (recession_start : option datetime)
                                      (end_date : option datetime) : M unit :=
  match recession_start with
  | Some start =>
      existing <- query_recession_period_first start ;;
      match existing with
      | Some _ => ret tt
      | None =>
          db_add (NewRecessionPeriod start end_date
                                     (_get_recession_name start))
      end
  | None =>
      db_roundtrip ;;;
      raise (AttributeError "'NoneType' object has no attribute 'year'")
  end.

Fixpoint recession_scan (records : list MarketData) (in_recession : bool)
                        (recession_start : option datetime)
  : M (bool * option datetime) :=
  match records with
  | [] => ret (in_recession, recession_start)
  | record :: rest =>
      if PrimFloat.eqb (md_value record) 1%float && negb in_recession then
        recession_scan rest true (Some (md_date record))
      else if PrimFloat.eqb (md_value record) 0%float && in_recession then
        add_period_unless_existing recession_start (Some (md_date record)) ;;;
        recession_scan rest false None
      else
        recession_scan rest in_recession recession_start
  end.

Definition process_recession_indicators : M unit :=
  try_except
    (recession_data <- query_recession_data ;;
     match recession_data with
     | [] => ret tt
     | _ :: _ =>
         st <- recession_scan recession_data false None ;;
         (if fst st && is_some (snd st)
          then add_period_unless_existing (snd st) None
          else ret tt) ;;;
         db_commit
     end)
    (fun e => db_rollback ;;; raise e).

End Service.

(** * main.py: the endpoints over the pipeline *)

(** What an endpoint raises: an exception of the service, or FastAPI's
    [HTTPException], which becomes the status of the answer. *)
Inductive api_exn : Type :=
| Inner (e : exn)
| HTTPException (status_code : Z) (detail : string).

Inductive ApiResult (A : Type) : Type :=
| Respond (a : A)
| Fail (e : api_exn).
Arguments Respond {A} a.
Arguments Fail {A} e.

(** schemas.py *)
Record MarketDataPoint : Type := mkMarketDataPoint {
  point_date : datetime;
  point_value : float
}.

Record SeriesData : Type := mkSeriesData {
  sd_series_id : string;
  sd_series_name : string;
  sd_data : list MarketDataPoint;
  sd_start_date : datetime;
  sd_end_date : datetime;
  sd_total_points : Z
}.

Record DataRefreshResponse : Type := mkDataRefreshResponse {
  refresh_status : string;
  refresh_message : string;
  refresh_results : list (string * SeriesOutcome);
  refresh_timestamp : datetime
}.

(** [get_db]: every request gets a session of its own, which has loaded
    and added nothing. *)
Definition new_session (w : World) : World :=
  mkWorld (committed w) (committed w) [] (ticks w) (dbops w) (requests w).

(** The truth value of an optional string: [None] and the empty string
    are false. *)
Definition truthy (s : option string) : option string :=
  match s with
  | Some EmptyString => None
  | other => other
  end.

(** [order_by(RecessionPeriod.start_date)]: a stable sort. *)
Fixpoint insert_by_start (p : RecessionPeriod) (rows : list RecessionPeriod)
  : list RecessionPeriod :=
  match rows with
  | [] => [p]
  | x :: rest =>
      if dt_ltb (rp_start_date x) (rp_start_date p)
      then x :: insert_by_start p rest
      else p :: x :: rest
  end.

Fixpoint sort_by_start (rows : list RecessionPeriod) : list RecessionPeriod :=
  match rows with
  | [] => []
  | p :: rest => insert_by_start p (sort_by_start rest)
  end.

(** [(end_date >= start) | (end_date == None)], as SQL decides it. *)
Definition ends_from (start : datetime) (p : RecessionPeriod) : bool :=
  match rp_end_date p with
  | Some e => dt_leb start e
  | None => true
  end.

Section Api.

Variable utcnow_at : nat -> datetime.
Variable db_fails : nat -> bool.
Variable fred_get_series : nat -> string -> string -> option string
                           -> Result Series.
Variable fred_get_series_info : nat -> string -> Result (list (string * string)).

(** [str(e)] of an [HTTPException], which Starlette decides. *)
Variable str_of_http : Z -> string -> string.

Definition api_str (e : api_exn) : string :=
  match e with
  | Inner e => exn_str e
  | HTTPException status_code detail => str_of_http status_code detail
  end.

(** The two handlers of the reading endpoints: [except ValueError] gives
    400, [except Exception] gives 500. *)
Definition on_value_error_400 (e : api_exn) : api_exn :=
  match e with
  | Inner (ValueError msg) =>
      HTTPException 400 (String.append "Invalid date format: " msg)
  | other => HTTPException 500 (api_str other)
  end.

Definition lift {A} (r : Result A) : ApiResult A :=
  match r with
  | Ok a => Respond a
  | Raise e => Fail (Inner e)
  end.

(** *** get_series_data *)

Definition in_range (series_id : string) (start end_ : datetime)
                    (r : MarketData) : bool :=
  String.eqb (md_series_id r) series_id
  && dt_leb start (md_date r) && dt_leb (md_date r) end_.

(** The answer built from the records the query returned. *)
Definition series_response (series_id : string) (records : list MarketData)
  : ApiResult SeriesData :=
  match records with
  | [] =>
      Fail (HTTPException 404
              (String.append "No data found for series " series_id))
  | first :: _ =>
      let data_points :=
        map (fun r => mkMarketDataPoint (md_date r) (md_value r)) records in
      Respond (mkSeriesData series_id (md_series_name first) data_points
                 (md_date first) (md_date (last records first))
                 (Z.of_nat (List.length data_points)))
  end.

Definition get_series_data_body (series_id start_date : string)
                                (end_date : option string) (w : World)
  : ApiResult SeriesData * World :=
  match strptime start_date with
  | Raise e => (Fail (Inner e), w)
  | Ok start =>
      let (parsed_end, w1) :=
        match truthy end_date with
        | Some s => (strptime s, w)
        | None => utcnow utcnow_at w
        end in
      match parsed_end with
      | Raise e => (Fail (Inner e), w1)
      | Ok end_ =>
          match db_roundtrip db_fails w1 with
          | (Raise e, w2) => (Fail (Inner e), w2)
          | (Ok _, w2) =>
              (series_response series_id
                 (sort_by_date (filter (in_range series_id start end_)
                                       (market_data (loaded w2)))),
               w2)
          end
      end
  end.

Definition get_series_data (series_id start_date : string)
                           (end_date : option string) (w : World)
  : ApiResult SeriesData * World :=
  match get_series_data_body series_id start_date end_date (new_session w)
  with
  | (Respond a, w') => (Respond a, w')
  | (Fail e, w') => (Fail (on_value_error_400 e), w')
  end.

(** *** refresh_market_data

    [FredDataService()] is taken to return: the client has its key. *)

Definition refresh_market_data_body (series_config : list (string * string))
                                    (start_date : string) (w : World)
  : ApiResult DataRefreshResponse * World :=
  match fetch_and_store_all_series utcnow_at db_fails fred_get_series
          fred_get_series_info series_config start_date w with
  | (Raise e, w1) => (Fail (Inner e), w1)
  | (Ok results, w1) =>
      match process_recession_indicators utcnow_at db_fails w1 with
      | (Raise e, w2) => (Fail (Inner e), w2)
      | (Ok _, w2) =>
          match utcnow utcnow_at w2 with
          | (Raise e, w3) => (Fail (Inner e), w3)
          | (Ok now, w3) =>
              (Respond (mkDataRefreshResponse "success"
                          "Data refresh completed" results now),
               w3)
          end
      end
  end.

Definition refresh_market_data (series_config : list (string * string))
                               (start_date : string) (w : World)
  : ApiResult DataRefreshResponse * World :=
  match refresh_market_data_body series_config start_date (new_session w)
  with
  | (Respond a, w') => (Respond a, w')
  | (Fail e, w') => (Fail (HTTPException 500 (api_str e)), w')
  end.

(** *** get_recession_periods *)

Definition get_recession_periods_body (start_date end_date : option string)
                                      (w : World)
  : ApiResult (list RecessionPeriod) * World :=
  let from_start :=
    match truthy start_date with
    | Some s =>
        match strptime s with
        | Ok start => Ok (ends_from start)
        | Raise e => Raise e
        end
    | None => Ok (fun _ => true)
    end in
  match from_start with
  | Raise e => (Fail (Inner e), w)
  | Ok keep_start =>
      let to_end :=
        match truthy end_date with
        | Some s =>
            match strptime s with
            | Ok end_ => Ok (fun p => dt_leb (rp_start_date p) end_)
            | Raise e => Raise e
            end
        | None => Ok (fun _ => true)
        end in
      match to_end with
      | Raise e => (Fail (Inner e), w)
      | Ok keep_end =>
          match db_roundtrip db_fails w with
          | (Raise e, w1) => (Fail (Inner e), w1)
          | (Ok _, w1) =>
              (Respond
                 (sort_by_start
                    (filter keep_end
                       (filter keep_start (recession_periods (loaded w1))))),
               w1)
          end
      end
  end.

Definition get_recession_periods (start_date end_date : option string)
                                 (w : World)
  : ApiResult (list RecessionPeriod) * World :=
  match get_recession_periods_body start_date end_date (new_session w) with
  | (Respond a, w') => (Respond a, w')
  | (Fail e, w') => (Fail (on_value_error_400 e), w')
  end.

End Api.

(** * Vocabulary of the properties *)

(** The natural key of an observation. *)
Definition md_key (r : MarketData) : datetime * string :=
  (md_date r, md_series_id r).

(** An observation without its surrogate key and timestamps. *)
Definition md_triple (r : MarketData) : datetime * string * float :=
  (md_date r, md_series_id r, md_value r).

(** The columns an assignment of the store loop leaves alone. *)
Definition md_static (r : MarketData) : Z * string * datetime :=
  (md_id r, md_series_name r, md_created_at r).

Definition natural_key_unique (t : Tables) : Prop :=
  NoDup (map md_key (market_data t)).

(** A fetched series lists a date once: [Fred.get_series] builds it from
    a dictionary keyed by date. *)
Definition well_formed_series (data : Series) : Prop :=
  NoDup (map fst data).

Definition valid_item (item : datetime * float) : bool :=
  negb (isna (snd item)).

(** The pairs of a series that carry a value. *)
Definition count_valid (data : Series) : nat :=
  List.length (filter valid_item data).

(** The assignments the store loop makes to the loaded rows, the clock
    being at its [k]-th reading. *)
Fixpoint apply_updates (utcnow_at : nat -> datetime) (series_id : string)
                       (items : Series) (rows : list MarketData) (k : nat)
  : list MarketData * nat :=
  match items with
  | [] => (rows, k)
  | (date, value) :: rest =>
      if isna value then apply_updates utcnow_at series_id rest rows k
      else
        match find (key_is date series_id) rows with
        | Some _ =>
            apply_updates utcnow_at series_id rest
              (update_first (key_is date series_id)
                            (assign_value value (utcnow_at k)) rows)
              (S k)
        | None => apply_updates utcnow_at series_id rest rows k
        end
  end.

(** The pairs the store loop finds no row for. *)
Definition fresh_item (series_id : string) (rows : list MarketData)
                      (item : datetime * float) : bool :=
  valid_item item
  && negb (is_some (find (key_is (fst item) series_id) rows)).

(** The objects the store loop hands to [db.add]. *)
Definition inserted (series_id series_name : string) (items : Series)
                    (rows : list MarketData) : list NewObject :=
  map (fun item => NewMarketData (fst item) series_id series_name (snd item))
      (filter (fresh_item series_id rows) items).

(** Every valid pair of the series already has its value in the first
    row of its key. *)
Definition settled (s : string) (items : Series) (rows : list MarketData)
  : Prop :=
  forall d v, In (d, v) items -> isna v = false ->
    option_map md_triple (find (key_is d s) rows) = Some (d, s, v).

(** The world a returning store call starts its commit from. *)
Definition before_commit (utcnow_at : nat -> datetime) (s name : string)
                         (data : Series) (w : World) : World :=
  mkWorld (committed w)
    (set_market_data
       (fst (apply_updates utcnow_at s data (market_data (loaded w))
                           (ticks w)))
       (loaded w))
    (sess_new w ++ inserted s name data (market_data (loaded w)))
    (snd (apply_updates utcnow_at s data (market_data (loaded w)) (ticks w)))
    (dbops w + count_valid data)%nat
    (requests w).

(** The columns a pending object brings to its table. *)
Definition new_md_fields (o : NewObject)
  : list (datetime * string * string * float) :=
  match o with
  | NewMarketData date series_id series_name value =>
      [(date, series_id, series_name, value)]
  | _ => []
  end.

Definition md_fields (r : MarketData) : datetime * string * string * float :=
  (md_date r, md_series_id r, md_series_name r, md_value r).

Definition new_period_fields (o : NewObject)
  : list (datetime * option datetime * string) :=
  match o with
  | NewRecessionPeriod start_date end_date name =>
      [(start_date, end_date, name)]
  | _ => []
  end.

Definition period_fields (p : RecessionPeriod)
  : datetime * option datetime * string :=
  (rp_start_date p, rp_end_date p, rp_name p).

Definition new_log_fields (o : NewObject) : list (string * string) :=
  match o with
  | NewDataFetchLog series_id status _ _ _ _ => [(series_id, status)]
  | _ => []
  end.

Definition log_fields (l : DataFetchLog) : string * string :=
  (log_series_id l, log_status l).

(** The intervals still open. *)
Definition is_open (p : RecessionPeriod) : bool :=
  negb (is_some (rp_end_date p)).

Definition count_open (t : Tables) : nat :=
  List.length (filter is_open (recession_periods t)).

Definition starts_at (start : datetime) (p : RecessionPeriod) : bool :=
  dt_eqb (rp_start_date p) start.

(** Pending recession periods, from their start, end and name. *)
Definition period_objs (fields : list (datetime * option datetime * string))
  : list NewObject :=
  map (fun f => NewRecessionPeriod (fst (fst f)) (snd (fst f)) (snd f)) fields.

Definition open_fields (f : datetime * option datetime * string) : bool :=
  negb (is_some (snd (fst f))).

(** No recorded interval starts where the pending one does. *)
Definition unrecorded (rows : list RecessionPeriod)
                      (f : datetime * option datetime * string) : Prop :=
  find (starts_at (fst (fst f))) rows = None.

(** The history a derivation run reads, as (date, value) pairs. *)
Definition indicator_history (t : Tables) : list (datetime * float) :=
  map (fun r => (md_date r, md_value r))
      (sort_by_date
         (filter (fun r => String.eqb (md_series_id r) "USREC")
                 (market_data t))).

(** The rows of the other series. *)
Definition other_series (series_id : string) (r : MarketData) : bool :=
  negb (String.eqb (md_series_id r) series_id).

(** The keys [get_series_info] copies from the answer of the client. *)
Definition info_keys : list string :=
  [ "id"; "title"; "units"; "frequency"; "seasonal_adjustment";
    "last_updated" ].

(** What a row of the fetch log says about an attempt. *)
Definition log_summary (l : DataFetchLog)
  : string * string * Z * option string :=
  (log_series_id l, log_status l, log_records_fetched l, log_error_message l).

(** The summary an attempt on a series leaves, from the answer of the
    client to its fetch. *)
Definition attempt_summary (series_id : string) (answer : Result Series)
  : string * string * Z * option string :=
  match answer with
  | Ok data => (series_id, "success", Z.of_nat (count_valid data), None)
  | Raise e => (series_id, "failed", 0, Some (exn_str e))
  end.

(** The summaries of a batch that starts after [n] requests: each series
    costs two requests, the second of which is its fetch. *)
Fixpoint batch_summaries
         (fred_get_series : nat -> string -> string -> option string
                            -> Result Series)
         (start_date : string) (n : nat) (config : list (string * string))
  : list (string * string * Z * option string) :=
  match config with
  | [] => []
  | (_, series_id) :: rest =>
      attempt_summary series_id
                      (fred_get_series (S n) series_id start_date None)
      :: batch_summaries fred_get_series start_date (S (S n)) rest
  end.

(** The observations a derivation run reads, in the order it reads
    them. *)
Definition usrec_records (t : Tables) : list MarketData :=
  sort_by_date
    (filter (fun r => String.eqb (md_series_id r) "USREC") (market_data t)).

(** The periods the scan of a derivation run comes to look up, read off
    the records alone: one at each closing transition. *)
Fixpoint scan_candidates (records : list MarketData) (in_recession : bool)
                         (recession_start : option datetime)
  : list (datetime * option datetime * string) :=
  match records with
  | [] => []
  | record :: rest =>
      if PrimFloat.eqb (md_value record) 1%float && negb in_recession then
        scan_candidates rest true (Some (md_date record))
      else if PrimFloat.eqb (md_value record) 0%float && in_recession then
        match recession_start with
        | Some start =>
            (start, Some (md_date record), _get_recession_name start)
            :: scan_candidates rest false None
        | None => []
        end
      else
        scan_candidates rest in_recession recession_start
  end.

(** The two variables of the scan after the last record. *)
Fixpoint scan_state (records : list MarketData) (in_recession : bool)
                    (recession_start : option datetime)
  : bool * option datetime :=
  match records with
  | [] => (in_recession, recession_start)
  | record :: rest =>
      if PrimFloat.eqb (md_value record) 1%float && negb in_recession then
        scan_state rest true (Some (md_date record))
      else if PrimFloat.eqb (md_value record) 0%float && in_recession then
        scan_state rest false None
      else
        scan_state rest in_recession recession_start
  end.

(** The ongoing period, looked up after the scan. *)
Definition final_candidate (st : bool * option datetime)
  : list (datetime * option datetime * string) :=
  if fst st && is_some (snd st) then
    match snd st with
    | Some start => [(start, None, _get_recession_name start)]
    | None => []
    end
  else [].

Definition derived_periods (records : list MarketData)
  : list (datetime * option datetime * string) :=
  scan_candidates records false None
  ++ final_candidate (scan_state records false None).

(** The lookup of a run finds no interval with the start of [f]. *)
Definition is_unrecorded (rows : list RecessionPeriod)
                         (f : datetime * option datetime * string) : bool :=
  negb (is_some (find (starts_at (fst (fst f))) rows)).

(** The order of two dates, as [order_by] and the comparisons of the
    filters see it. *)
Definition dt_lex_le (a b : datetime) : Prop :=
  year a < year b
  \/ (year a = year b
      /\ (month a < month b
          \/ (month a = month b
              /\ (day a < day b
                  \/ (day a = day b /\ micros a <= micros b))))).

Definition date_ordered (r1 r2 : MarketData) : Prop :=
  dt_leb (md_date r1) (md_date r2) = true.

(** An interval as a run derives it from the records it read: it starts
    on the date of an observation of value 1, carries the name of its
    start, and when it is closed it ends on the date of an observation of
    value 0 that is not before its start. *)
Definition well_derived (records : list MarketData) (p : RecessionPeriod)
  : Prop :=
  (exists r, In r records /\ md_date r = rp_start_date p
             /\ PrimFloat.eqb (md_value r) 1%float = true)
  /\ rp_name p = _get_recession_name (rp_start_date p)
  /\ match rp_end_date p with
     | Some e =>
         (exists r, In r records /\ md_date r = e
                    /\ PrimFloat.eqb (md_value r) 0%float = true)
         /\ dt_leb (rp_start_date p) e = true
     | None => True
     end.

(** The start the scan holds while it is inside a recession. *)
Definition pending_start (in_recession : bool)
                         (recession_start : option datetime)
  : list datetime :=
  if in_recession then
    match recession_start with Some s => [s] | None => [] end
  else [].

(** Everything a run looks up, from the state the scan is in. *)
Definition lookups_from (records : list MarketData) (in_recession : bool)
                        (recession_start : option datetime)
  : list (datetime * option datetime * string) :=
  scan_candidates records in_recession recession_start
  ++ final_candidate (scan_state records in_recession recession_start).

(** The point an observation is served as. *)
Definition point_of (r : MarketData) : MarketDataPoint :=
  mkMarketDataPoint (md_date r) (md_value r).

Definition point_ordered (a b : MarketDataPoint) : Prop :=
  dt_leb (point_date a) (point_date b) = true.

(** Intervals in the order of their start dates. *)
Definition start_ordered (p q : RecessionPeriod) : Prop :=
  dt_leb (rp_start_date p) (rp_start_date q) = true.

(** An interval passes the start filter of [get_recession_periods]: it is
    open or ends on [start] or later. *)
Definition ends_on_or_after (start : datetime) (p : RecessionPeriod) : Prop :=
  match rp_end_date p with
  | Some e => dt_leb start e = true
  | None => True
  end.


(** * Concrete runs *)

Module Runs.

(** A clock that advances one microsecond per reading. *)
Definition clock (n : nat) : datetime := mkDatetime 2024 1 1 (Z.of_nat n).

(** A database that answers every round trip. *)
Definition db_up (n : nat) : bool := false.

(** A database whose round trip number [k] fails. *)
Definition db_down_at (k n : nat) : bool := Nat.eqb n k.

(** The first of a month of 2020. *)
Definition d (m : Z) : datetime := mkDatetime 2020 m 1 0.

Definition store (series_id : string) (data : Series) (w : World) : World :=
  snd (store_series_data clock db_up series_id series_id data w).

Definition derive (w : World) : World :=
  snd (process_recession_indicators clock db_up w).

(** The indicator on three, four and five dates. *)
Definition usrec3 : Series := [(d 1, 0); (d 2, 1); (d 3, 1)]%float.
Definition usrec4 : Series := usrec3 ++ [(d 4, 0%float)].
Definition usrec5 : Series := usrec4 ++ [(d 5, 1%float)].
Definition usrec7 : Series :=
  [(d 1, 0); (d 2, 0); (d 3, 1); (d 4, 1); (d 5, 1); (d 6, 0); (d 7, 0)]%float.

(** The indicator is stored on three dates and the intervals derived;
    the history is then refreshed, to four dates and to five. *)
Definition w_stored3 : World := store "USREC" usrec3 initial_world.
Definition w_derived3 : World := derive w_stored3.
Definition w_stored4 : World := store "USREC" usrec4 w_derived3.
Definition w_derived4 : World := derive w_stored4.
Definition w_stored5 : World := store "USREC" usrec5 w_derived3.
Definition w_derived5 : World := derive w_stored5.

Definition w_stored7 : World := store "USREC" usrec7 initial_world.

(** The four-date history stored into a database that has seen no run. *)
Definition w_fresh4 : World := store "USREC" usrec4 initial_world.

(** A series with the sentinel on its second date. *)
Definition with_missing : Series :=
  [(d 1, 0%float); (d 2, PrimFloat.nan); (d 3, 1%float)].

(** A series that lists its date twice. *)
Definition repeated : Series := [(d 1, 1%float); (d 1, 2%float)].

Definition w_repeated : World := store "GDP" repeated initial_world.

(** The interval [w_derived3] holds. *)
Definition open_since_february : RecessionPeriod :=
  mkRecessionPeriod 1 (d 2) None "COVID-19 Recession" None (clock 6).

Definition period_span (p : RecessionPeriod) : datetime * option datetime :=
  (rp_start_date p, rp_end_date p).

(** A FRED client that answers every request. *)
Definition fred_series_ok (n : nat) (series_id start_date : string)
                          (end_date : option string) : Result Series :=
  Ok [(d 1, 1%float); (d 2, 2%float)].

Definition fred_info_ok (n : nat) (series_id : string)
  : Result (list (string * string)) :=
  Ok [ ("id", series_id); ("title", String.append "Title of " series_id);
       ("units", "Percent"); ("frequency", "Monthly");
       ("seasonal_adjustment", "Not Seasonally Adjusted");
       ("last_updated", "2024-01-01") ].

(** [str(e)] of an [HTTPException] as Starlette writes it. *)
Definition starlette_str (status_code : Z) (detail : string) : string :=
  String.append (str_of_int status_code) (String.append ": " detail).

(** A configuration of two series. *)
Definition two_series : list (string * string) :=
  [("high_yield_spread", "BAMLH0A0HYM2"); ("recession_indicator", "USREC")].

(** A series whose only value is the sentinel. *)
Definition all_missing : Series := [(d 1, PrimFloat.nan)].

(** The indicator is on at its first observation. *)
Definition usrec_on : Series := [(d 1, 1); (d 2, 0)]%float.
Definition w_stored_on : World := store "USREC" usrec_on initial_world.

(** Observations of another series only. *)
Definition w_gdp : World := store "GDP" usrec3 initial_world.

(** February and March of the indicator stored on five dates. *)
Definition february_to_march : SeriesData :=
  mkSeriesData "USREC" "USREC"
    [mkMarketDataPoint (d 2) 1%float; mkMarketDataPoint (d 3) 1%float]
    (d 2) (d 3) 2.

End Runs.

Ltac distinct_dates :=
  repeat (constructor; [cbv; intuition discriminate|]); constructor.

Ltac clean_session := split; vm_compute; reflexivity.

(** * Properties *)

(** ** Dates, keys and the row helpers *)

Lemma dt_eqb_eq (a b : datetime) : dt_eqb a b = true <-> a = b.
Proof.
  destruct a as [y1 m1 d1 u1], b as [y2 m2 d2 u2]. unfold dt_eqb. simpl.
  rewrite !andb_true_iff, !Z.eqb_eq. split.
  - intros [[[-> ->] ->] ->]. reflexivity.
  - intros H. injection H as -> -> -> ->. auto.
Qed.

Lemma dt_eqb_refl (a : datetime) : dt_eqb a a = true.
Proof. apply dt_eqb_eq. reflexivity. Qed.

Lemma key_is_spec (d : datetime) (s : string) (r : MarketData) :
  key_is d s r = true <-> md_key r = (d, s).
Proof.
  unfold key_is, md_key. rewrite andb_true_iff, dt_eqb_eq, String.eqb_eq.
  split; [intros [-> ->]; reflexivity | intros H; injection H; auto].
Qed.

Lemma key_is_assign (d : datetime) (s : string) (v : float) (now : datetime)
      (r : MarketData) :
  key_is d s (assign_value v now r) = key_is d s r.
Proof. reflexivity. Qed.

Lemma find_none_iff {A} (p : A -> bool) (l : list A) :
  find p l = None <-> forall x, In x l -> p x = false.
Proof.
  induction l as [|a l IH]; simpl.
  - split; [intros _ x [] | reflexivity].
  - destruct (p a) eqn:Ha.
    + split; [discriminate|]. intros H. specialize (H a (or_introl eq_refl)).
      congruence.
    + rewrite IH. split.
      * intros H x [<-|Hx]; auto.
      * intros H x Hx. apply H. auto.
Qed.

Lemma update_first_map {A B} (g : A -> B) (p : A -> bool) (f : A -> A)
      (rows : list A) :
  (forall r, g (f r) = g r) ->
  map g (update_first p f rows) = map g rows.
Proof.
  intros Hg. induction rows as [|r rows IH]; simpl; [reflexivity|].
  destruct (p r); simpl; [rewrite Hg | rewrite IH]; reflexivity.
Qed.

(** A lookup by key sees through an in-place assignment of the value:
    the answer may carry the new value, but it is found or not as before. *)
Lemma find_update_first_is_some (q p : MarketData -> bool) (v : float)
      (now : datetime) (rows : list MarketData) :
  (forall r, q (assign_value v now r) = q r) ->
  is_some (find q (update_first p (assign_value v now) rows))
  = is_some (find q rows).
Proof.
  intros Hq. induction rows as [|r rows IH]; simpl; [reflexivity|].
  destruct (p r); simpl.
  - rewrite Hq. destruct (q r); reflexivity.
  - destruct (q r); [reflexivity | exact IH].
Qed.

(** Assigning elsewhere leaves the rows under another filter as they are. *)
Lemma filter_update_first_other (q p : MarketData -> bool) (f : MarketData -> MarketData)
      (rows : list MarketData) :
  (forall r, p r = true -> q r = false) ->
  (forall r, q (f r) = q r) ->
  filter q (update_first p f rows) = filter q rows.
Proof.
  intros Hpq Hf. induction rows as [|r rows IH]; simpl; [reflexivity|].
  destruct (p r) eqn:Hp; simpl.
  - rewrite Hf, (Hpq r Hp). reflexivity.
  - rewrite IH. reflexivity.
Qed.

Section Properties.

Set Default Proof Using "Type".

Variable utcnow_at : nat -> datetime.
Variable db_fails : nat -> bool.
Variable fred_get_series : nat -> string -> string -> option string
                           -> Result Series.
Variable fred_get_series_info : nat -> string -> Result (list (string * string)).

(** ** The store loop *)

Lemma inserted_update_first (s name : string) (items : Series)
      (p : MarketData -> bool) (v : float) (now : datetime)
      (rows : list MarketData) :
  inserted s name items (update_first p (assign_value v now) rows)
  = inserted s name items rows.
Proof.
  unfold inserted. f_equal. apply filter_ext. intros item.
  unfold fresh_item. rewrite find_update_first_is_some; [reflexivity|].
  intros r. apply key_is_assign.
Qed.

Lemma world_eta (w : World) :
  mkWorld (committed w) (loaded w) (sess_new w) (ticks w) (dbops w)
          (requests w) = w.
Proof. destruct w. reflexivity. Qed.

Lemma tables_eta (t : Tables) :
  mkTables (market_data t) (recession_periods t) (data_fetch_log t) = t.
Proof. destruct t. reflexivity. Qed.

Lemma count_valid_cons (d : datetime) (v : float) (items : Series) :
  count_valid ((d, v) :: items)
  = if isna v then count_valid items else S (count_valid items).
Proof.
  unfold count_valid, valid_item. simpl. destruct (isna v); reflexivity.
Qed.

Lemma inserted_cons (s name : string) (d : datetime) (v : float)
      (items : Series) (rows : list MarketData) :
  inserted s name ((d, v) :: items) rows
  = if isna v then inserted s name items rows
    else match find (key_is d s) rows with
         | Some _ => inserted s name items rows
         | None => NewMarketData d s name v :: inserted s name items rows
         end.
Proof.
  unfold inserted, fresh_item, valid_item. simpl.
  destruct (isna v); simpl; [reflexivity|].
  destruct (find (key_is d s) rows); reflexivity.
Qed.

Lemma apply_updates_cons (s : string) (d : datetime) (v : float)
      (items : Series) (rows : list MarketData) (k : nat) :
  apply_updates utcnow_at s ((d, v) :: items) rows k
  = if isna v then apply_updates utcnow_at s items rows k
    else match find (key_is d s) rows with
         | Some _ =>
             apply_updates utcnow_at s items
               (update_first (key_is d s) (assign_value v (utcnow_at k)) rows)
               (S k)
         | None => apply_updates utcnow_at s items rows k
         end.
Proof. reflexivity. Qed.

(** A loop that returns has made the assignments of [apply_updates] and
    handed the objects of [inserted] to the session, with one round trip
    per valid pair; it has counted the valid pairs. *)
Lemma store_loop_ok (s name : string) (items : Series) :
  forall n w n' w',
    store_loop utcnow_at db_fails s name items n w = (Ok n', w') ->
    n' = n + Z.of_nat (count_valid items) /\
    w' = mkWorld (committed w)
           (set_market_data
              (fst (apply_updates utcnow_at s items
                                  (market_data (loaded w)) (ticks w)))
              (loaded w))
           (sess_new w ++ inserted s name items (market_data (loaded w)))
           (snd (apply_updates utcnow_at s items
                               (market_data (loaded w)) (ticks w)))
           (dbops w + count_valid items)%nat
           (requests w).
Proof.
  induction items as [|[d v] items IH]; intros n w n' w' H.
  - simpl in H. injection H as <- <-. split; [cbn; lia|].
    unfold inserted, count_valid, set_market_data. simpl.
    rewrite app_nil_r, Nat.add_0_r, tables_eta, world_eta. reflexivity.
  - rewrite count_valid_cons, inserted_cons, apply_updates_cons.
    simpl in H. destruct (isna v) eqn:Hv.
    + apply IH in H. exact H.
    + unfold bind, query_market_data_first, db_roundtrip, bind in H.
      destruct (db_fails (dbops w)); [discriminate|]. cbn in H.
      destruct (find (key_is d s) (market_data (loaded w))) eqn:Hf.
      * apply IH in H. cbn in H. destruct H as [-> ->].
        rewrite inserted_update_first. split; [lia|].
        f_equal. lia.
      * apply IH in H. cbn in H. destruct H as [-> ->].
        split; [lia|]. rewrite <- app_assoc. simpl. f_equal. lia.
Qed.

(** A loop that raises has met a failing round trip and has written
    nothing durable. *)
Lemma store_loop_raise (s name : string) (items : Series) :
  forall n w e w',
    store_loop utcnow_at db_fails s name items n w = (Raise e, w') ->
    e = DatabaseError /\ committed w' = committed w
    /\ requests w' = requests w.
Proof.
  induction items as [|[d v] items IH]; intros n w e w' H.
  - discriminate.
  - simpl in H. destruct (isna v).
    + apply IH in H. exact H.
    + unfold bind, query_market_data_first, db_roundtrip, bind in H.
      destruct (db_fails (dbops w)).
      * injection H as <- <-. auto.
      * cbn in H.
        destruct (find (key_is d s) (market_data (loaded w)));
          apply IH in H; exact H.
Qed.

Lemma store_loop_ok_no_fault (s name : string) (items : Series) :
  forall n w n' w',
    store_loop utcnow_at db_fails s name items n w = (Ok n', w') ->
    forall k, (k < count_valid items)%nat ->
              db_fails (dbops w + k)%nat = false.
Proof.
  induction items as [|[d v] items IH]; intros n w n' w' H k Hk.
  - cbn in Hk. lia.
  - rewrite count_valid_cons in Hk. simpl in H. destruct (isna v).
    + eapply IH; eauto.
    + unfold bind, query_market_data_first, db_roundtrip, bind in H.
      destruct (db_fails (dbops w)) eqn:Hd; [discriminate|]. cbn in H.
      destruct k as [|k]; [rewrite Nat.add_0_r; exact Hd|].
      assert (Hk' : (k < count_valid items)%nat) by lia.
      destruct (find (key_is d s) (market_data (loaded w)));
        apply IH with (k := k) in H; auto; cbn in H;
        replace (dbops w + S k)%nat with (S (dbops w + k)) by lia; exact H.
Qed.

(** Without a failing round trip the loop returns. *)
Lemma store_loop_total (s name : string) (items : Series) :
  forall n w,
    (forall k, (k < count_valid items)%nat ->
               db_fails (dbops w + k)%nat = false) ->
    exists n' w',
      store_loop utcnow_at db_fails s name items n w = (Ok n', w').
Proof.
  induction items as [|[d v] items IH]; intros n w Hk.
  - exists n, w. reflexivity.
  - rewrite count_valid_cons in Hk. simpl. destruct (isna v).
    + apply IH. exact Hk.
    + unfold bind, query_market_data_first, db_roundtrip, bind.
      assert (H0 : db_fails (dbops w) = false)
        by (rewrite <- (Nat.add_0_r (dbops w)); apply Hk; lia).
      rewrite H0. cbn.
      destruct (find (key_is d s) (market_data (loaded w)));
        apply IH; intros k Hlt; cbn;
        replace (S (dbops w + k))%nat with (dbops w + S k)%nat by lia;
        apply Hk; lia.
Qed.

(** ** The flush *)

Lemma flush_app (k : nat) (t : Tables) (a b : list NewObject) :
  flush utcnow_at k t (a ++ b)
  = flush utcnow_at (snd (flush utcnow_at k t a))
          (fst (flush utcnow_at k t a)) b.
Proof.
  revert k t. induction a as [|o a IH]; intros k t; simpl; [reflexivity|].
  destruct (flush_object utcnow_at k t o) as [t' k']. apply IH.
Qed.

(** Each table grows at its end, by the rows the pending objects of its
    kind bring, in the order they were added. *)
Lemma flush_market_data (objs : list NewObject) :
  forall k t, exists added,
    market_data (fst (flush utcnow_at k t objs)) = market_data t ++ added
    /\ map md_fields added = flat_map new_md_fields objs.
Proof.
  induction objs as [|o objs IH]; intros k t; simpl.
  - exists []. rewrite app_nil_r. auto.
  - destruct o; simpl;
      match goal with
      | |- context [flush utcnow_at ?k' ?t' objs] =>
          destruct (IH k' t') as (added & Hm & Hf)
      end; rewrite Hm; simpl.
    + eexists (_ :: added). rewrite <- app_assoc. simpl.
      split; [reflexivity|]. rewrite Hf. reflexivity.
    + exists added. auto.
    + exists added. auto.
Qed.

Lemma flush_recession_periods (objs : list NewObject) :
  forall k t, exists added,
    recession_periods (fst (flush utcnow_at k t objs))
    = recession_periods t ++ added
    /\ map period_fields added = flat_map new_period_fields objs.
Proof.
  induction objs as [|o objs IH]; intros k t; simpl.
  - exists []. rewrite app_nil_r. auto.
  - destruct o; simpl;
      match goal with
      | |- context [flush utcnow_at ?k' ?t' objs] =>
          destruct (IH k' t') as (added & Hm & Hf)
      end; rewrite Hm; simpl.
    + exists added. auto.
    + eexists (_ :: added). rewrite <- app_assoc. simpl.
      split; [reflexivity|]. rewrite Hf. reflexivity.
    + exists added. auto.
Qed.

Lemma flush_data_fetch_log (objs : list NewObject) :
  forall k t, exists added,
    data_fetch_log (fst (flush utcnow_at k t objs))
    = data_fetch_log t ++ added
    /\ map log_fields added = flat_map new_log_fields objs.
Proof.
  induction objs as [|o objs IH]; intros k t; simpl.
  - exists []. rewrite app_nil_r. auto.
  - destruct o; simpl;
      match goal with
      | |- context [flush utcnow_at ?k' ?t' objs] =>
          destruct (IH k' t') as (added & Hm & Hf)
      end; rewrite Hm; simpl.
    + exists added. auto.
    + exists added. auto.
    + eexists (_ :: added). rewrite <- app_assoc. simpl.
      split; [reflexivity|]. rewrite Hf. reflexivity.
Qed.

(** ** store_series_data, call by call *)

Lemma store_series_data_ok (s name : string) (data : Series) (w : World)
      (n : Z) (w' : World) :
  store_series_data utcnow_at db_fails s name data w = (Ok n, w') ->
  n = Z.of_nat (count_valid data) /\
  let b := before_commit utcnow_at s name data w in
  let (t, k) := flush utcnow_at (ticks b) (loaded b) (sess_new b) in
  w' = mkWorld t t [] k (S (dbops b)) (requests w).
Proof.
  unfold store_series_data, try_except, bind. intros H.
  destruct (store_loop utcnow_at db_fails s name data 0 w)
    as [[n1|e] w1] eqn:Hloop.
  - apply store_loop_ok in Hloop. destruct Hloop as [-> Hw1].
    fold (before_commit utcnow_at s name data w) in Hw1. subst w1.
    unfold db_commit in H.
    destruct (db_fails (dbops (before_commit utcnow_at s name data w))).
    + cbn in H. discriminate.
    + cbn zeta.
      destruct (flush utcnow_at (ticks (before_commit utcnow_at s name data w))
                      (loaded (before_commit utcnow_at s name data w))
                      (sess_new (before_commit utcnow_at s name data w))) as [t k].
      cbn in H. injection H as <- <-. split; [lia | reflexivity].
  - cbn in H. discriminate.
Qed.

Lemma store_series_data_raise (s name : string) (data : Series) (w : World)
      (e : exn) (w' : World) :
  store_series_data utcnow_at db_fails s name data w = (Raise e, w') ->
  e = DatabaseError /\ committed w' = committed w
  /\ loaded w' = committed w /\ sess_new w' = []
  /\ requests w' = requests w.
Proof.
  unfold store_series_data, try_except, bind. intros H.
  destruct (store_loop utcnow_at db_fails s name data 0 w)
    as [[n1|e1] w1] eqn:Hloop.
  - apply store_loop_ok in Hloop. destruct Hloop as [_ ->].
    unfold db_commit in H. cbn in H.
    destruct (db_fails (dbops w + count_valid data)).
    + cbn in H. injection H as <- <-. cbn. auto.
    + destruct (flush _ _ _ _) in H. cbn in H. discriminate.
  - apply store_loop_raise in Hloop. destruct Hloop as (-> & Hc & Hr).
    cbn in H. injection H as <- <-. cbn. auto.
Qed.

Lemma inserted_md_fields (s name : string) (items : Series)
      (rows : list MarketData) :
  flat_map new_md_fields (inserted s name items rows)
  = map (fun item => (fst item, s, name, snd item))
        (filter (fresh_item s rows) items).
Proof.
  unfold inserted.
  induction (filter (fresh_item s rows) items) as [|item l IH]; simpl;
    [reflexivity | rewrite IH; reflexivity].
Qed.

Lemma inserted_period_fields (s name : string) (items : Series)
      (rows : list MarketData) :
  flat_map new_period_fields (inserted s name items rows) = [].
Proof.
  unfold inserted.
  induction (filter (fresh_item s rows) items) as [|item l IH]; simpl;
    [reflexivity | exact IH].
Qed.

Lemma inserted_log_fields (s name : string) (items : Series)
      (rows : list MarketData) :
  flat_map new_log_fields (inserted s name items rows) = [].
Proof.
  unfold inserted.
  induction (filter (fresh_item s rows) items) as [|item l IH]; simpl;
    [reflexivity | exact IH].
Qed.

(** A returning call on a clean session: what each table has become. *)
Lemma store_series_data_ok_clean (s name : string) (data : Series)
      (w : World) (n : Z) (w' : World) :
  session_clean w ->
  store_series_data utcnow_at db_fails s name data w = (Ok n, w') ->
  n = Z.of_nat (count_valid data)
  /\ session_clean w'
  /\ (exists added,
        market_data (committed w')
        = fst (apply_updates utcnow_at s data (market_data (committed w))
                             (ticks w)) ++ added
        /\ map md_fields added
           = map (fun item => (fst item, s, name, snd item))
                 (filter (fresh_item s (market_data (committed w))) data))
  /\ recession_periods (committed w') = recession_periods (committed w)
  /\ data_fetch_log (committed w') = data_fetch_log (committed w)
  /\ requests w' = requests w.
Proof.
  intros [Hnew Hload] H. apply store_series_data_ok in H.
  destruct H as [-> H]. cbn zeta in H. split; [reflexivity|].
  set (b := before_commit utcnow_at s name data w) in *.
  pose proof (flush_market_data (sess_new b) (ticks b) (loaded b)) as Hmd.
  pose proof (flush_recession_periods (sess_new b) (ticks b) (loaded b)) as Hrp.
  pose proof (flush_data_fetch_log (sess_new b) (ticks b) (loaded b)) as Hlog.
  destruct (flush utcnow_at (ticks b) (loaded b) (sess_new b)) as [t k].
  subst w'. cbn [committed loaded sess_new requests fst] in *.
  subst b. unfold before_commit in *.
  cbn [committed loaded sess_new requests ticks] in *.
  rewrite Hnew, Hload in *. cbn [app] in *.
  rewrite inserted_md_fields in Hmd.
  rewrite inserted_period_fields in Hrp.
  rewrite inserted_log_fields in Hlog.
  destruct Hmd as (amd & Hmd & Hfmd).
  destruct Hrp as (arp & Hrp & Hfrp).
  destruct Hlog as (alog & Hlog & Hflog).
  apply map_eq_nil in Hfrp, Hflog. subst arp alog.
  rewrite app_nil_r in Hrp, Hlog. cbn in Hmd, Hrp, Hlog.
  split; [split; reflexivity|].
  split; [exists amd; auto|]. auto.
Qed.

(** ** Atomicity of a store call *)

(** C4.  When a round trip of the persistence step fails, be it one of
    the lookups of the loop or the commit, the call raises the database
    error to its caller and nothing it wrote or modified is retained: the
    database is as it was before the call, and the session holds neither
    pending objects nor modified rows. *)
Theorem store_series_data_atomic (s name : string) (data : Series)
        (w : World) (k : nat) :
  (k <= count_valid data)%nat ->
  db_fails (dbops w + k)%nat = true ->
  exists w',
    store_series_data utcnow_at db_fails s name data w
    = (Raise DatabaseError, w')
    /\ committed w' = committed w
    /\ market_data (loaded w') = market_data (committed w)
    /\ session_clean w'.
Proof.
  intros Hk Hfail.
  destruct (store_series_data utcnow_at db_fails s name data w)
    as [[n|e] w'] eqn:H.
  - exfalso. unfold store_series_data, try_except, bind in H.
    destruct (store_loop utcnow_at db_fails s name data 0 w)
      as [[n1|e1] w1] eqn:Hloop.
    + pose proof (store_loop_ok_no_fault _ _ _ _ _ _ _ Hloop) as Hnf.
      apply store_loop_ok in Hloop. destruct Hloop as [_ ->].
      unfold db_commit in H. cbn in H.
      destruct (Nat.eq_dec k (count_valid data)) as [->|Hne].
      * rewrite Hfail in H. cbn in H. discriminate.
      * rewrite Hnf in Hfail by lia. discriminate.
    + cbn in H. discriminate.
  - apply store_series_data_raise in H.
    destruct H as (-> & Hc & Hl & Hn & _).
    exists w'. repeat split; auto; congruence.
Qed.

(** ** Missing values *)

Lemma apply_updates_filter_other (s : string) (D : datetime) (items : Series) :
  (forall v, In (D, v) items -> isna v = true) ->
  forall rows k,
    filter (key_is D s) (fst (apply_updates utcnow_at s items rows k))
    = filter (key_is D s) rows.
Proof.
  induction items as [|[d v] items IH]; intros HD rows k; [reflexivity|].
  rewrite apply_updates_cons.
  assert (HD' : forall v', In (D, v') items -> isna v' = true)
    by (intros v' Hin; apply HD; right; exact Hin).
  destruct (isna v) eqn:Hv; [apply IH; exact HD'|].
  destruct (find (key_is d s) rows); [|apply IH; exact HD'].
  rewrite IH by exact HD'.
  apply filter_update_first_other; [|intros r; apply key_is_assign].
  intros r Hr. apply key_is_spec in Hr.
  destruct (key_is D s r) eqn:Hq; [|reflexivity].
  apply key_is_spec in Hq. rewrite Hr in Hq. injection Hq as ->.
  rewrite (HD v) in Hv by (left; reflexivity). discriminate.
Qed.

Lemma count_valid_without (D : datetime) (data : Series) :
  (forall v, In (D, v) data -> isna v = true) ->
  count_valid (filter (fun item => negb (dt_eqb (fst item) D)) data)
  = count_valid data.
Proof.
  induction data as [|[d v] data IH]; intros HD; [reflexivity|].
  assert (HD' : forall v', In (D, v') data -> isna v' = true)
    by (intros v' Hin; apply HD; right; exact Hin).
  cbn [filter fst]. destruct (dt_eqb d D) eqn:Hd; cbn [negb].
  - apply dt_eqb_eq in Hd. subst d.
    rewrite count_valid_cons, (HD v) by (left; reflexivity). apply IH, HD'.
  - rewrite !count_valid_cons, IH by exact HD'. reflexivity.
Qed.

Lemma find_none_filter {A} (p : A -> bool) (l : list A) :
  find p l = None <-> filter p l = [].
Proof.
  induction l as [|a l IH]; simpl; [tauto|].
  destruct (p a); [split; discriminate | exact IH].
Qed.

(** Rows flushed from pairs at other dates are not rows of [(D, s)]. *)
Lemma added_filter_other (s name : string) (D : datetime) (l : Series) :
  forall added,
    map md_fields added = map (fun item => (fst item, s, name, snd item)) l ->
    (forall item, In item l -> fst item <> D) ->
    filter (key_is D s) added = [].
Proof.
  induction l as [|[d v] l IH]; intros [|a added] Hf HD;
    try discriminate; [reflexivity|].
  simpl in Hf. injection Hf as Hdate _ _ _ Hf. simpl.
  destruct (key_is D s a) eqn:Hk.
  - apply key_is_spec in Hk. unfold md_key in Hk.
    exfalso. apply (HD (d, v)); [left; reflexivity|]. simpl. congruence.
  - apply IH; [exact Hf|]. intros item Hin. apply HD. right. exact Hin.
Qed.

(** C5.  A series that holds the missing-value sentinel at date [D],
    that is, lists [D] and has the sentinel wherever it does: the store
    call leaves the rows of [(D, series)] exactly as they were, timestamps
    included, so it creates none where there was none, and the count it
    returns is that of the valid pairs at the other dates. *)
Theorem store_series_data_skips_missing (s name : string) (data : Series)
        (D : datetime) (v0 : float) (w : World) (r : Result Z) (w' : World) :
  session_clean w ->
  In (D, v0) data ->
  (forall v, In (D, v) data -> isna v = true) ->
  store_series_data utcnow_at db_fails s name data w = (r, w') ->
  filter (key_is D s) (market_data (committed w'))
  = filter (key_is D s) (market_data (committed w))
  /\ (find (key_is D s) (market_data (committed w)) = None ->
      find (key_is D s) (market_data (committed w')) = None)
  /\ (forall n, r = Ok n ->
        n = Z.of_nat
              (count_valid
                 (filter (fun item => negb (dt_eqb (fst item) D)) data))).
Proof.
  intros Hclean Hin HD H.
  assert (Hfilter : filter (key_is D s) (market_data (committed w'))
                    = filter (key_is D s) (market_data (committed w))).
  { destruct r as [n|e].
    - apply store_series_data_ok_clean in H; [|exact Hclean].
      destruct H as (_ & _ & (added & Hmd & Hadded) & _).
      rewrite Hmd, filter_app, apply_updates_filter_other by exact HD.
      rewrite (added_filter_other s name D _ added Hadded);
        [apply app_nil_r|].
      intros [d v] Hitem. apply filter_In in Hitem.
      destruct Hitem as [Hitem Hfresh]. simpl. intros ->.
      unfold fresh_item, valid_item in Hfresh. simpl in Hfresh.
      rewrite (HD v Hitem) in Hfresh. discriminate.
    - apply store_series_data_raise in H.
      destruct H as (_ & -> & _). reflexivity. }
  split; [exact Hfilter|]. split.
  - rewrite !find_none_filter, Hfilter. auto.
  - intros n ->. apply store_series_data_ok in H. destruct H as [-> _].
    rewrite count_valid_without by exact HD. reflexivity.
Qed.

(** ** The natural key *)

Lemma apply_updates_keys (s : string) (items : Series) :
  forall rows k,
    map md_key (fst (apply_updates utcnow_at s items rows k))
    = map md_key rows.
Proof.
  induction items as [|[d v] items IH]; intros rows k; [reflexivity|].
  rewrite apply_updates_cons. destruct (isna v); [apply IH|].
  destruct (find (key_is d s) rows); [|apply IH].
  rewrite IH. apply update_first_map. reflexivity.
Qed.


Lemma NoDup_map_fst_filter {A B} (p : A * B -> bool) (l : list (A * B)) :
  NoDup (map fst l) -> NoDup (map fst (filter p l)).
Proof.
  induction l as [|x l IH]; simpl; intros H; [constructor|].
  inversion H as [|? ? Hnotin Hnd]; subst.
  destruct (p x); simpl; [|auto].
  constructor; [|auto]. intros Hin. apply Hnotin.
  apply in_map_iff in Hin. destruct Hin as (y & Hy & Hin).
  apply filter_In in Hin. rewrite <- Hy. apply in_map. tauto.
Qed.



Lemma store_series_data_clean (s name : string) (data : Series) (w : World)
      (r : Result Z) (w' : World) :
  session_clean w ->
  store_series_data utcnow_at db_fails s name data w = (r, w') ->
  session_clean w'.
Proof.
  intros Hclean H. destruct r as [n|e].
  - apply store_series_data_ok_clean in H; tauto.
  - apply store_series_data_raise in H.
    destruct H as (_ & Hc & Hl & Hn & _). split; congruence.
Qed.



(** ** Idempotence *)

Lemma find_key_triples (d : datetime) (s : string) (rows : list MarketData) :
  forall rows',
    map md_triple rows' = map md_triple rows ->
    option_map md_triple (find (key_is d s) rows')
    = option_map md_triple (find (key_is d s) rows).
Proof.
  induction rows as [|r rows IH]; intros [|r' rows'] H; try discriminate;
    [reflexivity|].
  simpl in H. injection H as Hd Hsid Hval Hrest. simpl.
  assert (Hk : key_is d s r' = key_is d s r)
    by (unfold key_is; rewrite Hd, Hsid; reflexivity).
  rewrite Hk. destruct (key_is d s r); simpl; [|auto].
  unfold md_triple. congruence.
Qed.

Lemma update_first_same_value (d : datetime) (s : string) (v : float)
      (now : datetime) (rows : list MarketData) :
  option_map md_triple (find (key_is d s) rows) = Some (d, s, v) ->
  map md_triple (update_first (key_is d s) (assign_value v now) rows)
  = map md_triple rows.
Proof.
  induction rows as [|r rows IH]; simpl; intros H; [reflexivity|].
  destruct (key_is d s r) eqn:Hk; simpl.
  - simpl in H. unfold md_triple in *. simpl. injection H as _ _ ->.
    reflexivity.
  - rewrite IH by exact H. reflexivity.
Qed.

Lemma apply_updates_settled (s : string) (items : Series) :
  forall rows k,
    settled s items rows ->
    map md_triple (fst (apply_updates utcnow_at s items rows k))
    = map md_triple rows.
Proof.
  induction items as [|[d v] items IH]; intros rows k Hs; [reflexivity|].
  assert (Hs' : settled s items rows)
    by (intros d' v' Hin; apply Hs; right; exact Hin).
  rewrite apply_updates_cons. destruct (isna v) eqn:Hv; [apply IH, Hs'|].
  destruct (find (key_is d s) rows) eqn:Hf; [|apply IH, Hs'].
  assert (Hsame : map md_triple
                    (update_first (key_is d s)
                                  (assign_value v (utcnow_at k)) rows)
                  = map md_triple rows).
  { apply update_first_same_value.
    apply Hs; [left; reflexivity | exact Hv]. }
  rewrite IH; [exact Hsame|].
  intros d' v' Hin Hv'. rewrite (find_key_triples d' s _ _ Hsame).
  apply Hs'; assumption.
Qed.

Lemma settled_nothing_fresh (s : string) (items : Series)
      (rows : list MarketData) :
  settled s items rows -> filter (fresh_item s rows) items = [].
Proof.
  induction items as [|[d v] items IH]; intros Hs; [reflexivity|].
  simpl. unfold fresh_item at 1, valid_item. simpl.
  destruct (isna v) eqn:Hv; simpl.
  - apply IH. intros d' v' Hin. apply Hs. right. exact Hin.
  - specialize (Hs d v (or_introl eq_refl) Hv) as Hd.
    destruct (find (key_is d s) rows); [|discriminate]. simpl.
    apply IH. intros d' v' Hin. apply Hs. right. exact Hin.
Qed.

Lemma find_is_some_keys (d : datetime) (s : string)
      (rows : list MarketData) :
  forall rows',
    map md_key rows' = map md_key rows ->
    is_some (find (key_is d s) rows') = is_some (find (key_is d s) rows).
Proof.
  induction rows as [|r rows IH]; intros [|r' rows'] H; try discriminate;
    [reflexivity|].
  simpl in H. injection H as Hd Hsid Hrest. simpl.
  unfold key_is. rewrite Hd, Hsid.
  destruct (dt_eqb (md_date r) d && String.eqb (md_series_id r) s);
    [reflexivity | apply IH, Hrest].
Qed.

Lemma find_update_first_other (q p : MarketData -> bool)
      (f : MarketData -> MarketData) (rows : list MarketData) :
  (forall r, p r = true -> q r = false) ->
  (forall r, q (f r) = q r) ->
  find q (update_first p f rows) = find q rows.
Proof.
  intros Hpq Hf. induction rows as [|r rows IH]; simpl; [reflexivity|].
  destruct (p r) eqn:Hp; simpl.
  - rewrite Hf, (Hpq r Hp). reflexivity.
  - rewrite IH. reflexivity.
Qed.

Lemma find_update_first_self {A} (p : A -> bool) (f : A -> A)
      (rows : list A) (r : A) :
  (forall x, p (f x) = p x) ->
  find p rows = Some r ->
  find p (update_first p f rows) = Some (f r).
Proof.
  intros Hf. induction rows as [|x rows IH]; simpl; [discriminate|].
  destruct (p x) eqn:Hp; simpl.
  - intros H. injection H as <-. rewrite Hf, Hp. reflexivity.
  - rewrite Hp. exact IH.
Qed.

Lemma key_other_date (d d' : datetime) (s : string) (r : MarketData) :
  d' <> d -> key_is d' s r = true -> key_is d s r = false.
Proof.
  intros Hne Hk. apply key_is_spec in Hk.
  destruct (key_is d s r) eqn:Hq; [|reflexivity].
  apply key_is_spec in Hq. congruence.
Qed.

Lemma apply_updates_find_other (s : string) (d : datetime) (items : Series) :
  ~ In d (map fst items) ->
  forall rows k,
    find (key_is d s) (fst (apply_updates utcnow_at s items rows k))
    = find (key_is d s) rows.
Proof.
  induction items as [|[d' v'] items IH]; intros Hd rows k; [reflexivity|].
  simpl in Hd. rewrite apply_updates_cons.
  assert (Hd' : ~ In d (map fst items))
    by (intros Hin; apply Hd; right; exact Hin).
  destruct (isna v'); [apply IH; exact Hd'|].
  destruct (find (key_is d' s) rows); [|apply IH; exact Hd'].
  rewrite IH by exact Hd'.
  apply find_update_first_other; [|intros r; apply key_is_assign].
  intros r. apply key_other_date. intros ->. apply Hd. left. reflexivity.
Qed.

(** After the loop, a valid pair whose key had a row finds its value in
    the first row of that key. *)
Lemma apply_updates_value (s : string) (d : datetime) (v : float)
      (items : Series) :
  NoDup (map fst items) ->
  In (d, v) items ->
  isna v = false ->
  forall rows k,
    is_some (find (key_is d s) rows) = true ->
    option_map md_triple
      (find (key_is d s) (fst (apply_updates utcnow_at s items rows k)))
    = Some (d, s, v).
Proof.
  induction items as [|[d' v'] items IH]; intros Hnd Hin Hv rows k Hsome;
    [destruct Hin|].
  simpl in Hnd. inversion Hnd as [|? ? Hnotin Hnd']; subst.
  rewrite apply_updates_cons. destruct Hin as [E|Hin].
  - injection E as -> ->. rewrite Hv.
    destruct (find (key_is d s) rows) as [r|] eqn:Hf; [|discriminate].
    rewrite apply_updates_find_other by exact Hnotin.
    rewrite (find_update_first_self _ _ _ r); auto.
    apply find_some in Hf. destruct Hf as [_ Hk].
    apply key_is_spec in Hk. unfold md_key in Hk. injection Hk as Hd Hs.
    simpl. unfold md_triple. simpl. congruence.
  - assert (Hne : d' <> d).
    { intros ->. apply Hnotin. change d with (fst (d, v)).
      apply in_map. exact Hin. }
    destruct (isna v'); [apply IH; auto|].
    destruct (find (key_is d' s) rows); [|apply IH; auto].
    apply IH; auto.
    rewrite find_update_first_is_some; [exact Hsome|].
    intros r. apply key_is_assign.
Qed.

(** A pair that was flushed as a new row is found under its key. *)
Lemma added_find (s name : string) (d : datetime) (v : float) (l : Series) :
  forall added,
    map md_fields added = map (fun item => (fst item, s, name, snd item)) l ->
    NoDup (map fst l) ->
    In (d, v) l ->
    option_map md_triple (find (key_is d s) added) = Some (d, s, v).
Proof.
  induction l as [|[d' v'] l IH]; intros [|a added] Hf Hnd Hin;
    try discriminate; [destruct Hin|].
  simpl in Hf. injection Hf as Hdate Hsid _ Hval Hf.
  simpl in Hnd. inversion Hnd as [|? ? Hnotin Hnd']. subst.
  simpl. destruct Hin as [E|Hin].
  - injection E as Ed Ev.
    assert (Hk : key_is d (md_series_id a) a = true)
      by (apply key_is_spec; unfold md_key; rewrite Ed; reflexivity).
    rewrite Hk. simpl. unfold md_triple. rewrite Ed, Ev. reflexivity.
  - assert (Hk : key_is d (md_series_id a) a = false).
    { destruct (key_is d (md_series_id a) a) eqn:Hq; [|reflexivity].
      apply key_is_spec in Hq. unfold md_key in Hq. injection Hq as Hq.
      exfalso. apply Hnotin. rewrite Hq. change d with (fst (d, v)).
      apply in_map. exact Hin. }
    rewrite Hk. apply IH; auto.
Qed.

Lemma find_app_l {A} (p : A -> bool) (l1 l2 : list A) :
  find p (l1 ++ l2)
  = match find p l1 with Some x => Some x | None => find p l2 end.
Proof.
  induction l1 as [|a l1 IH]; simpl; [reflexivity|].
  destruct (p a); [reflexivity | exact IH].
Qed.

(** What a returning call on a clean session leaves is settled for the
    series it stored. *)
Lemma store_series_data_settles (s name : string) (data : Series) (w : World)
      (n : Z) (w' : World) :
  session_clean w ->
  well_formed_series data ->
  store_series_data utcnow_at db_fails s name data w = (Ok n, w') ->
  settled s data (market_data (committed w')).
Proof.
  intros Hclean Hwf H d v Hin Hv.
  apply store_series_data_ok_clean in H; [|exact Hclean].
  destruct H as (_ & _ & (added & -> & Hadded) & _).
  rewrite find_app_l.
  destruct (find (key_is d s) (market_data (committed w))) as [r|] eqn:Hf.
  - pose proof (apply_updates_value s d v data Hwf Hin Hv
                  (market_data (committed w)) (ticks w)) as Hval.
    rewrite Hf in Hval. specialize (Hval eq_refl).
    destruct (find (key_is d s)
                (fst (apply_updates utcnow_at s data
                        (market_data (committed w)) (ticks w))));
      [exact Hval | discriminate].
  - pose proof (find_is_some_keys d s (market_data (committed w)) _
                  (apply_updates_keys s data (market_data (committed w))
                                      (ticks w))) as Hnone.
    rewrite Hf in Hnone.
    destruct (find (key_is d s)
                (fst (apply_updates utcnow_at s data
                        (market_data (committed w)) (ticks w))));
      [discriminate|].
    apply (added_find s name d v _ added Hadded).
    + apply NoDup_map_fst_filter, Hwf.
    + apply filter_In. split; [exact Hin|].
      unfold fresh_item, valid_item. simpl. rewrite Hv, Hf. reflexivity.
Qed.

Lemma apply_updates_static (s : string) (items : Series) :
  forall rows k,
    map md_static (fst (apply_updates utcnow_at s items rows k))
    = map md_static rows.
Proof.
  induction items as [|[d v] items IH]; intros rows k; [reflexivity|].
  rewrite apply_updates_cons. destruct (isna v); [apply IH|].
  destruct (find (key_is d s) rows); [|apply IH].
  rewrite IH. apply update_first_map. reflexivity.
Qed.

(** C3.  Storing a fetched series a second time, after a call that
    stored it, changes no (date, series_id, value) triple of the
    observation table and adds or removes none, whether the second call
    returns or raises; identifiers, names and creation times stay too, so
    the rows may differ in [updated_at] only.  A fetched series lists a
    date once ([well_formed_series]): [Fred.get_series] builds it from a
    dictionary keyed by date. *)
Theorem store_series_data_idempotent (s name : string) (data : Series)
        (w : World) (n1 : Z) (w1 : World) (r2 : Result Z) (w2 : World) :
  session_clean w ->
  well_formed_series data ->
  store_series_data utcnow_at db_fails s name data w = (Ok n1, w1) ->
  store_series_data utcnow_at db_fails s name data w1 = (r2, w2) ->
  map md_triple (market_data (committed w2))
  = map md_triple (market_data (committed w1))
  /\ (forall t, In t (map md_triple (market_data (committed w2)))
                <-> In t (map md_triple (market_data (committed w1))))
  /\ map md_static (market_data (committed w2))
     = map md_static (market_data (committed w1)).
Proof.
  intros Hclean Hwf H1 H2.
  pose proof (store_series_data_settles _ _ _ _ _ _ Hclean Hwf H1) as Hset.
  pose proof (store_series_data_clean _ _ _ _ _ _ Hclean H1) as Hclean1.
  assert (E : map md_triple (market_data (committed w2))
              = map md_triple (market_data (committed w1))
              /\ map md_static (market_data (committed w2))
                 = map md_static (market_data (committed w1))).
  { destruct r2 as [n2|e].
    - apply store_series_data_ok_clean in H2; [|exact Hclean1].
      destruct H2 as (_ & _ & (added & -> & Hadded) & _).
      rewrite settled_nothing_fresh in Hadded by exact Hset.
      apply map_eq_nil in Hadded. subst added.
      rewrite app_nil_r. split.
      + apply apply_updates_settled, Hset.
      + apply apply_updates_static.
    - apply store_series_data_raise in H2. destruct H2 as (_ & -> & _).
      split; reflexivity. }
  destruct E as [E1 E2].
  split; [exact E1|]. split; [rewrite E1; tauto | exact E2].
Qed.

(** ** The derivation of recession periods *)

Lemma period_objs_app (a b : list (datetime * option datetime * string)) :
  period_objs (a ++ b) = period_objs a ++ period_objs b.
Proof. apply map_app. Qed.

Lemma period_objs_period_fields
      (fields : list (datetime * option datetime * string)) :
  flat_map new_period_fields (period_objs fields) = fields.
Proof.
  induction fields as [|[[a b] c] l IH]; simpl; [|rewrite IH]; reflexivity.
Qed.

Lemma period_objs_md_fields
      (fields : list (datetime * option datetime * string)) :
  flat_map new_md_fields (period_objs fields) = [].
Proof. induction fields as [|f l IH]; simpl; auto. Qed.

Lemma period_objs_log_fields
      (fields : list (datetime * option datetime * string)) :
  flat_map new_log_fields (period_objs fields) = [].
Proof. induction fields as [|f l IH]; simpl; auto. Qed.

(** The check-then-add touches nothing but the pending objects, and adds
    at most one period, which no recorded interval shares its start with. *)
Lemma add_period_spec (recession_start end_date : option datetime)
      (w : World) (r : Result unit) (w' : World) :
  add_period_unless_existing db_fails recession_start end_date w = (r, w') ->
  committed w' = committed w /\ loaded w' = loaded w
  /\ requests w' = requests w /\ ticks w' = ticks w
  /\ dbops w' = S (dbops w)
  /\ exists fields,
       sess_new w' = sess_new w ++ period_objs fields
       /\ (List.length fields <= 1)%nat
       /\ Forall (fun f => snd (fst f) = end_date
                           /\ unrecorded (recession_periods (loaded w)) f)
                 fields.
Proof.
  unfold add_period_unless_existing. intros H.
  destruct recession_start as [start|].
  - unfold bind, query_recession_period_first, db_roundtrip, bind in H.
    destruct (db_fails (dbops w)).
    + injection H as <- <-. cbn. repeat split; auto.
      exists []. rewrite app_nil_r. auto.
    + cbn in H.
      destruct (find (fun p => dt_eqb (rp_start_date p) start)
                     (recession_periods (loaded w))) eqn:Hf.
      * injection H as <- <-. cbn. repeat split; auto.
        exists []. rewrite app_nil_r. auto.
      * injection H as <- <-. cbn. repeat split; auto.
        exists [(start, end_date, _get_recession_name start)].
        repeat split; auto.
  - unfold bind, db_roundtrip in H.
    destruct (db_fails (dbops w)); injection H as <- <-; cbn;
      repeat split; auto; exists []; rewrite app_nil_r; auto.
Qed.

(** The scan adds closed periods only. *)
Lemma recession_scan_spec (records : list MarketData) :
  forall in_recession recession_start w r w',
    recession_scan db_fails records in_recession recession_start w = (r, w') ->
    committed w' = committed w /\ loaded w' = loaded w
    /\ requests w' = requests w /\ ticks w' = ticks w
    /\ exists fields,
         sess_new w' = sess_new w ++ period_objs fields
         /\ Forall (fun f => open_fields f = false
                             /\ unrecorded (recession_periods (loaded w)) f)
                   fields.
Proof.
  induction records as [|record records IH];
    intros in_recession recession_start w r w' H.
  - injection H as <- <-. repeat split; auto.
    exists []. rewrite app_nil_r. auto.
  - simpl in H.
    destruct (PrimFloat.eqb (md_value record) 1 && negb in_recession);
      [eapply IH; eauto|].
    destruct (PrimFloat.eqb (md_value record) 0 && in_recession);
      [|eapply IH; eauto].
    unfold bind in H.
    destruct (add_period_unless_existing db_fails recession_start
                (Some (md_date record)) w) as [[[]|e] w1] eqn:Hadd;
      apply add_period_spec in Hadd;
      destruct Hadd as (Hc & Hl & Hr & Ht & _ & fields & Hn & _ & Hall).
    + apply IH in H.
      destruct H as (Hc' & Hl' & Hr' & Ht' & fields' & Hn' & Hall').
      repeat split; try congruence.
      exists (fields ++ fields').
      rewrite period_objs_app, app_assoc, <- Hn, <- Hn'. split; auto.
      apply Forall_app. split.
      * eapply Forall_impl; [|exact Hall]. cbn. intros f [He Hu].
        unfold open_fields. rewrite He. auto.
      * rewrite Hl in Hall'. exact Hall'.
    + injection H as <- <-. repeat split; auto.
      exists fields. split; auto.
      eapply Forall_impl; [|exact Hall]. cbn. intros f [He Hu].
      unfold open_fields. rewrite He. auto.
Qed.

Lemma is_open_period_fields (p : RecessionPeriod) :
  is_open p = open_fields (period_fields p).
Proof. reflexivity. Qed.

Lemma filter_open_fields (added : list RecessionPeriod) :
  List.length (filter is_open added)
  = List.length (filter open_fields (map period_fields added)).
Proof.
  induction added as [|p added IH]; simpl; [reflexivity|].
  rewrite <- is_open_period_fields. destruct (is_open p); simpl; auto.
Qed.

Lemma filter_all_false {A} (p : A -> bool) (l : list A) :
  Forall (fun x => p x = false) l -> filter p l = [].
Proof.
  induction 1 as [|x l Hx _ IH]; simpl; [|rewrite Hx]; auto.
Qed.

(** What committing the periods of a derivation run does to the tables. *)
Lemma commit_periods (w : World)
      (fields : list (datetime * option datetime * string))
      (r : Result unit) (w' : World) :
  loaded w = committed w ->
  sess_new w = period_objs fields ->
  db_commit utcnow_at db_fails w = (r, w') ->
  session_clean w'
  /\ requests w' = requests w
  /\ market_data (committed w') = market_data (committed w)
  /\ data_fetch_log (committed w') = data_fetch_log (committed w)
  /\ ((r = Ok tt /\ db_fails (dbops w) = false
       /\ exists added,
            recession_periods (committed w')
            = recession_periods (committed w) ++ added
            /\ map period_fields added = fields)
      \/ (r = Raise DatabaseError /\ committed w' = committed w)).
Proof.
  intros Hl Hn H. unfold db_commit in H.
  destruct (db_fails (dbops w)).
  - injection H as <- <-. cbn. repeat split; auto.
  - pose proof (flush_market_data (sess_new w) (ticks w) (loaded w)) as Hmd.
    pose proof (flush_recession_periods (sess_new w) (ticks w) (loaded w))
      as Hrp.
    pose proof (flush_data_fetch_log (sess_new w) (ticks w) (loaded w))
      as Hlog.
    destruct (flush utcnow_at (ticks w) (loaded w) (sess_new w)) as [t k].
    injection H as <- <-. cbn in *.
    rewrite Hn, Hl in *.
    rewrite period_objs_md_fields in Hmd.
    rewrite period_objs_period_fields in Hrp.
    rewrite period_objs_log_fields in Hlog.
    destruct Hmd as (amd & Hmd & Hfmd).
    destruct Hrp as (arp & Hrp & Hfrp).
    destruct Hlog as (alog & Hlog & Hflog).
    apply map_eq_nil in Hfmd, Hflog. subst amd alog.
    rewrite app_nil_r in Hmd, Hlog.
    repeat split; auto. left. repeat split; auto. exists arp. auto.
Qed.

(** A derivation run on a clean session: the observations and the fetch
    log stay, and the recorded intervals stay as they are, followed by the
    new ones, none of which starts where a recorded one does and at most
    one of which is open. *)
Lemma process_recession_indicators_spec (w : World) (r : Result unit)
      (w' : World) :
  session_clean w ->
  process_recession_indicators utcnow_at db_fails w = (r, w') ->
  session_clean w'
  /\ requests w' = requests w
  /\ market_data (committed w') = market_data (committed w)
  /\ data_fetch_log (committed w') = data_fetch_log (committed w)
  /\ exists added,
       recession_periods (committed w')
       = recession_periods (committed w) ++ added
       /\ Forall (fun p => unrecorded (recession_periods (committed w))
                                      (period_fields p)) added
       /\ (List.length (filter is_open added) <= 1)%nat.
Proof.
  intros [Hnew Hload] H.
  assert (Hnone : exists added : list RecessionPeriod,
             recession_periods (committed w)
             = recession_periods (committed w) ++ added
             /\ Forall (fun p => unrecorded (recession_periods (committed w))
                                            (period_fields p)) added
             /\ (List.length (filter is_open added) <= 1)%nat).
  { exists []. rewrite app_nil_r. simpl. auto. }
  unfold process_recession_indicators, try_except in H.
  unfold bind at 1 in H. unfold query_recession_data in H.
  unfold bind at 1 in H. unfold db_roundtrip in H.
  destruct (db_fails (dbops w)).
  { cbn in H. injection H as <- <-. cbn. repeat split; auto. }
  cbn [fst snd] in H.
  set (w0 := mkWorld (committed w) (loaded w) (sess_new w) (ticks w)
                     (S (dbops w)) (requests w)) in *.
  destruct (sort_by_date
              (filter (fun r => String.eqb (md_series_id r) "USREC")
                      (market_data (loaded w0)))) as [|rec recs].
  { cbn in H. injection H as <- <-. cbn. repeat split; auto. }
  unfold bind at 1 in H.
  destruct (recession_scan db_fails (rec :: recs) false None w0)
    as [[st|e] w1] eqn:Hscan;
    apply recession_scan_spec in Hscan;
    destruct Hscan as (Hc1 & Hl1 & Hr1 & Ht1 & f1 & Hn1 & Hall1);
    cbn in Hc1, Hl1, Hr1, Ht1, Hn1, Hall1; rewrite Hnew in Hn1;
    cbn in Hn1.
  2:{ cbn in H. injection H as <- <-. cbn. rewrite Hc1, Hr1.
      repeat split; auto. }
  unfold bind at 1 in H.
  destruct ((if fst st && is_some (snd st)
             then add_period_unless_existing db_fails (snd st) None
             else ret tt) w1) as [[[]|e] w2] eqn:Hadd.
  - assert (Hw2 : committed w2 = committed w /\ loaded w2 = committed w
                  /\ requests w2 = requests w
                  /\ exists f2,
                       sess_new w2 = period_objs (f1 ++ f2)
                       /\ (List.length f2 <= 1)%nat
                       /\ Forall (unrecorded
                                    (recession_periods (committed w))) f2).
    { destruct (fst st && is_some (snd st)).
      - apply add_period_spec in Hadd.
        destruct Hadd as (Hc2 & Hl2 & Hr2 & _ & _ & f2 & Hn2 & Hlen & Hall2).
        repeat split; try congruence.
        exists f2. rewrite period_objs_app, Hn2, Hn1. repeat split; auto.
        eapply Forall_impl; [|exact Hall2]. cbn. intros f [_ Hu].
        rewrite Hl1, Hload in Hu. exact Hu.
      - injection Hadd as <-. repeat split; try congruence.
        exists []. rewrite app_nil_r. auto. }
    destruct Hw2 as (Hc2 & Hl2 & Hr2 & f2 & Hn2 & Hlen & Hall2).
    destruct (db_commit utcnow_at db_fails w2) as [r3 w3] eqn:Hcommit.
    apply (commit_periods w2 (f1 ++ f2)) in Hcommit; [|congruence|exact Hn2].
    destruct Hcommit as (Hclean3 & Hr3 & Hmd3 & Hlog3 & Hcase).
    destruct Hcase as [(-> & _ & added & Hrp & Hfields)|[-> Hc3]].
    + injection H as <- <-. rewrite Hc2 in *.
      split; [exact Hclean3|]. split; [congruence|].
      split; [exact Hmd3|]. split; [exact Hlog3|].
      exists added. split; [exact Hrp|]. split.
      * apply Forall_forall. intros p Hp.
        assert (Hin : In (period_fields p) (f1 ++ f2))
          by (rewrite <- Hfields; apply in_map; exact Hp).
        apply in_app_or in Hin. destruct Hin as [Hin|Hin].
        -- rewrite Forall_forall in Hall1. apply Hall1 in Hin.
           rewrite Hload in Hin. tauto.
        -- rewrite Forall_forall in Hall2. auto.
      * rewrite filter_open_fields, Hfields, filter_app, length_app.
        rewrite (filter_all_false open_fields f1).
        -- simpl. etransitivity; [apply filter_length_le | exact Hlen].
        -- eapply Forall_impl; [|exact Hall1]. cbn. tauto.
    + cbn in H. injection H as <- <-. cbn.
      destruct Hclean3 as [_ Hl3]. rewrite Hc3, Hc2, Hr3, Hr2.
      repeat split; auto.
  - assert (Hw2 : committed w2 = committed w /\ requests w2 = requests w).
    { destruct (fst st && is_some (snd st)).
      - apply add_period_spec in Hadd.
        destruct Hadd as (Hc2 & _ & Hr2 & _). split; congruence.
      - discriminate. }
    destruct Hw2 as [Hc2 Hr2].
    cbn in H. injection H as <- <-. cbn. rewrite Hc2, Hr2.
    repeat split; auto.
Qed.

Lemma unrecorded_not_in (rows : list RecessionPeriod) (p : RecessionPeriod) :
  unrecorded rows (period_fields p) ->
  ~ In (rp_start_date p) (map rp_start_date rows).
Proof.
  unfold unrecorded. cbn. intros Hf Hin.
  apply in_map_iff in Hin. destruct Hin as (q & Hq & Hin).
  rewrite find_none_iff in Hf. specialize (Hf q Hin).
  unfold starts_at in Hf. rewrite Hq, dt_eqb_refl in Hf. discriminate.
Qed.

(** C10.  A derivation run on a clean session neither changes nor removes
    a recorded interval: the table it leaves is the table it found, row
    for row with every field, followed by the rows it inserted, and none
    of these starts on the start date of a row that was there.  This
    holds whether the run returns or raises. *)
Theorem process_recession_indicators_frame (w : World) (r : Result unit)
        (w' : World) :
  session_clean w ->
  process_recession_indicators utcnow_at db_fails w = (r, w') ->
  exists added,
    recession_periods (committed w')
    = recession_periods (committed w) ++ added
    /\ Forall (fun p => ~ In (rp_start_date p)
                             (map rp_start_date
                                  (recession_periods (committed w)))) added.
Proof.
  intros Hclean H.
  apply process_recession_indicators_spec in H; [|exact Hclean].
  destruct H as (_ & _ & _ & _ & added & Hrp & Hall & _).
  exists added. split; [exact Hrp|].
  eapply Forall_impl; [|exact Hall]. intros p. apply unrecorded_not_in.
Qed.

(** The run never closes a recorded interval.  A derivation run finds an
    open interval recorded by an earlier run: whatever the refreshed
    history holds, a closing transition after its start included, the
    lookup by start date finds the row and the end date the scan has in
    hand is dropped; the row stays as it is, its end date still null, and
    no other interval with the same start date is inserted. *)
Theorem process_recession_indicators_keeps_open (w : World)
        (p : RecessionPeriod) (r : Result unit) (w' : World) :
  session_clean w ->
  In p (recession_periods (committed w)) ->
  rp_end_date p = None ->
  process_recession_indicators utcnow_at db_fails w = (r, w') ->
  In p (recession_periods (committed w'))
  /\ filter (starts_at (rp_start_date p)) (recession_periods (committed w'))
     = filter (starts_at (rp_start_date p)) (recession_periods (committed w)).
Proof.
  intros Hclean Hin Hopen H.
  apply process_recession_indicators_spec in H; [|exact Hclean].
  destruct H as (_ & _ & _ & _ & added & Hrp & Hall & _).
  rewrite Hrp. split; [apply in_or_app; left; exact Hin|].
  rewrite filter_app.
  rewrite (filter_all_false (starts_at (rp_start_date p)) added);
    [apply app_nil_r|].
  eapply Forall_impl; [|exact Hall]. intros q Hq.
  unfold unrecorded in Hq. cbn in Hq. rewrite find_none_iff in Hq.
  specialize (Hq p Hin). unfold starts_at in *.
  destruct (dt_eqb (rp_start_date q) (rp_start_date p)) eqn:E;
    [|reflexivity].
  apply dt_eqb_eq in E. rewrite E, dt_eqb_refl in Hq. discriminate.
Qed.

(** A derivation run closes no open interval and inserts at most one:
    the number of rows with a null end date after the run is the number
    before it, or one more, so that runs over refreshed histories pile
    open rows up. *)
Theorem process_recession_indicators_open_count (w : World)
        (r : Result unit) (w' : World) :
  session_clean w ->
  process_recession_indicators utcnow_at db_fails w = (r, w') ->
  (count_open (committed w) <= count_open (committed w')
   <= count_open (committed w) + 1)%nat.
Proof.
  intros Hclean H.
  apply process_recession_indicators_spec in H; [|exact Hclean].
  destruct H as (_ & _ & _ & _ & added & Hrp & _ & Hlen).
  unfold count_open. rewrite Hrp, filter_app, length_app. lia.
Qed.

(** C6.  The indicator reads 0,0,1,1,1,0,0 on the dates d1 to d7, no
    interval is recorded and the database answers: the derivation run
    returns and leaves exactly one interval, from d3 to d6. *)
Theorem process_recession_indicators_example
        (d1 d2 d3 d4 d5 d6 d7 : datetime) (w : World) :
  session_clean w ->
  recession_periods (committed w) = [] ->
  indicator_history (committed w)
  = [ (d1, 0%float); (d2, 0%float); (d3, 1%float); (d4, 1%float);
      (d5, 1%float); (d6, 0%float); (d7, 0%float) ] ->
  (forall k, (k < 3)%nat -> db_fails (dbops w + k)%nat = false) ->
  exists w' p,
    process_recession_indicators utcnow_at db_fails w = (Ok tt, w')
    /\ recession_periods (committed w') = [p]
    /\ rp_start_date p = d3
    /\ rp_end_date p = Some d6.
Proof.
  intros [Hnew Hload] Hrp Hobs Hnf.
  pose proof (Hnf 0%nat ltac:(lia)) as H0.
  pose proof (Hnf 1%nat ltac:(lia)) as H1.
  pose proof (Hnf 2%nat ltac:(lia)) as H2.
  rewrite Nat.add_0_r in H0.
  replace (dbops w + 1)%nat with (S (dbops w)) in H1 by lia.
  replace (dbops w + 2)%nat with (S (S (dbops w))) in H2 by lia.
  unfold indicator_history in Hobs.
  unfold process_recession_indicators, try_except.
  unfold bind at 1. unfold query_recession_data.
  unfold bind at 1. unfold db_roundtrip. rewrite H0. cbn [fst snd loaded].
  rewrite Hload.
  destruct (sort_by_date
              (filter (fun r => String.eqb (md_series_id r) "USREC")
                      (market_data (committed w))))
    as [|r1 [|r2 [|r3 [|r4 [|r5 [|r6 [|r7 [|r8 recs]]]]]]]];
    try discriminate.
  simpl in Hobs.
  injection Hobs as Hd1 Hv1 Hd2 Hv2 Hd3 Hv3 Hd4 Hv4 Hd5 Hv5 Hd6 Hv6 Hd7 Hv7.
  unfold bind at 1. simpl recession_scan.
  rewrite Hv1, Hv2, Hv3, Hv4, Hv5, Hv6, Hv7.
  repeat (progress
            (unfold bind, add_period_unless_existing,
               query_recession_period_first, db_roundtrip, db_add, ret,
               db_commit, set_sess_new;
             cbn -[_get_recession_name];
             rewrite ?H1, ?H2, ?Hrp, ?Hnew, ?Hload)).
  eexists. eexists. split; [reflexivity|].
  cbn. rewrite Hd3, Hd6. auto.
Qed.

(** ** The FRED client and the batch *)

Lemma fetch_series_data_spec (series_id start_date : string)
      (end_date : option string) (w : World) :
  fetch_series_data fred_get_series series_id start_date end_date w
  = (fred_get_series (List.length (requests w)) series_id start_date end_date,
     log_request (GetSeries series_id start_date end_date) w).
Proof.
  unfold fetch_series_data, try_except.
  destruct (fred_get_series (List.length (requests w)) series_id start_date
                            end_date); reflexivity.
Qed.

(** C9, as the code has it.  [fetch_series_data] checks nothing about the
    range: whatever the two dates are, it sends one request carrying them
    as given, hands back what the client answers, be it a series or an
    error, and leaves the session and the database alone. *)
Theorem fetch_series_data_forwards (series_id start_date : string)
        (end_date : option string) (w : World) :
  let (r, w') :=
    fetch_series_data fred_get_series series_id start_date end_date w in
  r = fred_get_series (List.length (requests w)) series_id start_date end_date
  /\ requests w' = requests w ++ [GetSeries series_id start_date end_date]
  /\ committed w' = committed w
  /\ loaded w' = loaded w
  /\ sess_new w' = sess_new w.
Proof.
  rewrite fetch_series_data_spec. cbn. auto.
Qed.

(** [get_series_info] never raises; it costs one request. *)
Lemma get_series_info_spec (series_id : string) (w : World) :
  exists info,
    get_series_info fred_get_series_info series_id w
    = (Ok info, log_request (GetSeriesInfo series_id) w).
Proof.
  unfold get_series_info, try_except. unfold bind at 1.
  destruct (fred_get_series_info (List.length (requests w)) series_id)
    as [info|e]; [|eexists; reflexivity].
  unfold bind, getitem.
  repeat match goal with
         | |- context [dict_lookup ?k info] =>
             destruct (dict_lookup k info); cbn;
             [|eexists; reflexivity]
         end.
  eexists. reflexivity.
Qed.

Lemma log_request_clean (q : Request) (w : World) :
  session_clean w -> session_clean (log_request q w).
Proof. intros H. exact H. Qed.

(** What a store call does to the fetch log and the request trace. *)
Lemma store_series_data_log (s name : string) (data : Series) (w : World)
      (r : Result Z) (w' : World) :
  session_clean w ->
  store_series_data utcnow_at db_fails s name data w = (r, w') ->
  session_clean w'
  /\ data_fetch_log (committed w') = data_fetch_log (committed w)
  /\ requests w' = requests w.
Proof.
  intros Hclean H. destruct r as [n|e].
  - apply store_series_data_ok_clean in H; tauto.
  - apply store_series_data_raise in H.
    destruct H as (_ & Hc & Hl & Hn & Hr).
    split; [split; congruence|]. split; congruence.
Qed.

(** With a start date that [strptime] refuses, the attempt on a series
    ends in that refusal, raised from the handler itself: no row is
    added to the fetch log, whether the series was fetched and stored or
    not. *)
Lemma fetch_and_store_one_malformed (start_date series_key series_id : string)
      (results : list (string * SeriesOutcome)) (e0 : exn) (w : World) :
  session_clean w ->
  strptime start_date = Raise e0 ->
  exists w',
    fetch_and_store_one utcnow_at db_fails fred_get_series
      fred_get_series_info start_date series_key series_id results w
    = (Raise e0, w')
    /\ data_fetch_log (committed w') = data_fetch_log (committed w)
    /\ requests w'
       = requests w ++ [GetSeriesInfo series_id;
                        GetSeries series_id start_date None].
Proof.
  intros Hclean Hbad.
  unfold fetch_and_store_one, try_except. unfold bind at 1.
  destruct (get_series_info_spec series_id w) as [info ->].
  unfold bind at 1.
  rewrite fetch_series_data_spec.
  destruct (fred_get_series
              (List.length (requests (log_request (GetSeriesInfo series_id) w)))
              series_id start_date None) as [data|e].
  - unfold bind at 1.
    destruct (store_series_data utcnow_at db_fails series_id
                (dict_get info "title" series_key) data _)
      as [[n|e] w2] eqn:Hstore;
      apply store_series_data_log in Hstore;
      try (apply log_request_clean, log_request_clean, Hclean);
      destruct Hstore as (_ & Hlog & Hreq); cbn in Hlog, Hreq.
    + unfold bind, strptime_m. rewrite Hbad. eexists.
      split; [reflexivity|]. rewrite Hlog, Hreq, <- app_assoc. auto.
    + unfold bind, strptime_m. rewrite Hbad. eexists.
      split; [reflexivity|]. rewrite Hlog, Hreq, <- app_assoc. auto.
  - unfold bind, strptime_m. rewrite Hbad. eexists.
    split; [reflexivity|]. cbn. rewrite <- app_assoc. auto.
Qed.

(** The batch called with a start date that [strptime] refuses, on a
    configuration that has a first series: it raises out of the attempt
    on that series, so it logs nothing and asks for no other series. *)
Lemma fetch_and_store_all_series_malformed
      (series_key series_id : string) (rest : list (string * string))
      (start_date : string) (e0 : exn) (w : World) :
  session_clean w ->
  strptime start_date = Raise e0 ->
  exists w',
    fetch_and_store_all_series utcnow_at db_fails fred_get_series
      fred_get_series_info ((series_key, series_id) :: rest) start_date w
    = (Raise e0, w')
    /\ data_fetch_log (committed w') = data_fetch_log (committed w)
    /\ requests w'
       = requests w ++ [GetSeriesInfo series_id;
                        GetSeries series_id start_date None].
Proof.
  intros Hclean Hbad.
  destruct (fetch_and_store_one_malformed start_date series_key series_id []
              e0 w Hclean Hbad) as (w' & Hone & Hlog & Hreq).
  exists w'. unfold fetch_and_store_all_series. simpl.
  unfold bind. rewrite Hone. auto.
Qed.

(** *** The batch when the start date parses and the database answers *)

Lemma store_series_data_total (s name : string) (data : Series) (w : World) :
  (forall n, db_fails n = false) ->
  exists n w',
    store_series_data utcnow_at db_fails s name data w = (Ok n, w').
Proof.
  intros Hnf. unfold store_series_data, try_except, bind.
  destruct (store_loop_total s name data 0 w) as (n & w1 & ->);
    [intros; apply Hnf|].
  unfold db_commit. rewrite Hnf.
  destruct (flush utcnow_at (ticks w1) (loaded w1) (sess_new w1)).
  eexists. eexists. reflexivity.
Qed.

Lemma commit_log (w : World) (sid status : string) (n : Z)
      (err : option string) (sd : datetime) (ed : option datetime) :
  loaded w = committed w ->
  sess_new w = [NewDataFetchLog sid status n err sd ed] ->
  db_fails (dbops w) = false ->
  exists w' row,
    db_commit utcnow_at db_fails w = (Ok tt, w')
    /\ session_clean w'
    /\ data_fetch_log (committed w') = data_fetch_log (committed w) ++ [row]
    /\ log_series_id row = sid
    /\ log_status row = status
    /\ requests w' = requests w.
Proof.
  intros Hl Hn Hnf. unfold db_commit. rewrite Hnf, Hn, Hl. cbn.
  eexists. eexists. split; [reflexivity|]. cbn.
  repeat split; reflexivity.
Qed.

(** One attempt: it returns, and the fetch log has one more row, for this
    series, saying whether the client answered. *)
Lemma fetch_and_store_one_audits (start_date series_key series_id : string)
      (results : list (string * SeriesOutcome)) (d : datetime) (w : World) :
  session_clean w ->
  strptime start_date = Ok d ->
  (forall n, db_fails n = false) ->
  exists results' w' row,
    fetch_and_store_one utcnow_at db_fails fred_get_series
      fred_get_series_info start_date series_key series_id results w
    = (Ok results', w')
    /\ session_clean w'
    /\ data_fetch_log (committed w') = data_fetch_log (committed w) ++ [row]
    /\ log_series_id row = series_id
    /\ log_status row
       = match fred_get_series (S (List.length (requests w))) series_id
                               start_date None with
         | Ok _ => "success"
         | Raise _ => "failed"
         end
    /\ requests w'
       = requests w ++ [GetSeriesInfo series_id;
                        GetSeries series_id start_date None].
Proof.
  intros Hclean Hd Hnf.
  unfold fetch_and_store_one, try_except. unfold bind at 1.
  destruct (get_series_info_spec series_id w) as [info ->].
  unfold bind at 1.
  rewrite fetch_series_data_spec.
  replace (List.length (requests (log_request (GetSeriesInfo series_id) w)))
    with (S (List.length (requests w)))
    by (cbn; rewrite length_app, Nat.add_comm; reflexivity).
  destruct (fred_get_series (S (List.length (requests w))) series_id
                            start_date None) as [data|e].
  - unfold bind at 1.
    destruct (store_series_data_total series_id
                (dict_get info "title" series_key) data
                (log_request (GetSeries series_id start_date None)
                   (log_request (GetSeriesInfo series_id) w)) Hnf)
      as (n & w2 & Hstore).
    rewrite Hstore.
    apply store_series_data_log in Hstore;
      [|apply log_request_clean, log_request_clean, Hclean].
    destruct Hstore as ([Hn2 Hl2] & Hlog & Hreq). cbn in Hlog, Hreq.
    unfold bind at 1. unfold strptime_m. rewrite Hd.
    unfold bind at 1. unfold utcnow.
    unfold bind at 1. unfold db_add.
    unfold bind at 1.
    edestruct (commit_log
                 (set_sess_new
                    (sess_new
                       (mkWorld (committed w2) (loaded w2) (sess_new w2)
                                (S (ticks w2)) (dbops w2) (requests w2))
                     ++ [NewDataFetchLog series_id "success" n None d
                           (Some (utcnow_at (ticks w2)))])
                    (mkWorld (committed w2) (loaded w2) (sess_new w2)
                             (S (ticks w2)) (dbops w2) (requests w2))))
      as (w3 & row & Hcommit & Hclean3 & Hlog3 & Hsid & Hst & Hreq3);
      [exact Hl2 | cbn; rewrite Hn2; reflexivity | apply Hnf |].
    rewrite Hcommit. cbn in Hlog3, Hreq3.
    eexists. exists w3, row. split; [reflexivity|].
    split; [exact Hclean3|]. split; [congruence|].
    split; [exact Hsid|]. split; [exact Hst|].
    rewrite Hreq3, Hreq, <- app_assoc. reflexivity.
  - unfold bind at 1. unfold strptime_m. rewrite Hd.
    unfold bind at 1. unfold db_add.
    unfold bind at 1.
    destruct Hclean as [Hn Hl].
    edestruct (commit_log
                 (set_sess_new
                    (sess_new
                       (log_request (GetSeries series_id start_date None)
                          (log_request (GetSeriesInfo series_id) w))
                     ++ [NewDataFetchLog series_id "failed" 0
                           (Some (exn_str e)) d None])
                    (log_request (GetSeries series_id start_date None)
                       (log_request (GetSeriesInfo series_id) w))))
      as (w3 & row & Hcommit & Hclean3 & Hlog3 & Hsid & Hst & Hreq3);
      [exact Hl | cbn; rewrite Hn; reflexivity | apply Hnf |].
    rewrite Hcommit. cbn in Hlog3, Hreq3.
    eexists. exists w3, row. split; [reflexivity|].
    split; [exact Hclean3|]. split; [exact Hlog3|].
    split; [exact Hsid|]. split; [exact Hst|].
    rewrite Hreq3, <- app_assoc. reflexivity.
Qed.

(** The batch: every configured series is attempted, in order, and each
    attempt leaves exactly one row in the fetch log. *)
Lemma fetch_and_store_all_series_audits (config : list (string * string))
      (start_date : string) (d : datetime) (w : World) :
  session_clean w ->
  strptime start_date = Ok d ->
  (forall n, db_fails n = false) ->
  exists results w' added,
    fetch_and_store_all_series utcnow_at db_fails fred_get_series
      fred_get_series_info config start_date w
    = (Ok results, w')
    /\ data_fetch_log (committed w') = data_fetch_log (committed w) ++ added
    /\ map log_series_id added = map snd config
    /\ requests w'
       = requests w
         ++ flat_map (fun entry =>
                        [GetSeriesInfo (snd entry);
                         GetSeries (snd entry) start_date None]) config.
Proof.
  intros Hclean Hd Hnf. unfold fetch_and_store_all_series.
  generalize (@nil (string * SeriesOutcome)) as results.
  revert w Hclean.
  induction config as [|[series_key series_id] config IH];
    intros w Hclean results.
  - exists results, w, []. simpl. rewrite !app_nil_r. auto.
  - simpl. unfold bind.
    destruct (fetch_and_store_one_audits start_date series_key series_id
                results d w Hclean Hd Hnf)
      as (results1 & w1 & row & -> & Hclean1 & Hlog1 & Hsid & _ & Hreq1).
    destruct (IH w1 Hclean1 results1)
      as (results2 & w2 & added & -> & Hlog2 & Hids & Hreq2).
    exists results2, w2, (row :: added). split; [reflexivity|].
    rewrite Hlog2, Hlog1, Hreq2, Hreq1, <- !app_assoc. simpl.
    rewrite Hsid, Hids. auto.
Qed.

(** ** More on store_series_data *)

(** X1.  When the database answers the lookups and the commit of a store
    call, the call returns, and what it returns is the number of pairs
    that carry a value, whether their rows were inserted or updated. *)
Theorem store_series_data_returns_count (s name : string) (data : Series)
        (w : World) :
  (forall k, (k <= count_valid data)%nat ->
             db_fails (dbops w + k)%nat = false) ->
  exists w',
    store_series_data utcnow_at db_fails s name data w
    = (Ok (Z.of_nat (count_valid data)), w').
Proof.
  intros Hnf. unfold store_series_data, try_except, bind.
  destruct (store_loop_total s name data 0 w) as (n & w1 & Hloop);
    [intros k Hk; apply Hnf; lia|].
  rewrite Hloop. apply store_loop_ok in Hloop. destruct Hloop as [-> ->].
  unfold db_commit. cbn [dbops]. rewrite Hnf by lia.
  destruct (flush _ _ _ _). eexists. reflexivity.
Qed.

Lemma apply_updates_other_series (s : string) (items : Series) :
  forall rows k,
    filter (other_series s) (fst (apply_updates utcnow_at s items rows k))
    = filter (other_series s) rows.
Proof.
  induction items as [|[d v] items IH]; intros rows k; [reflexivity|].
  rewrite apply_updates_cons. destruct (isna v); [apply IH|].
  destruct (find (key_is d s) rows); [|apply IH].
  rewrite IH. apply filter_update_first_other; [|reflexivity].
  intros r Hr. apply key_is_spec in Hr. unfold md_key in Hr.
  injection Hr as _ Hs. unfold other_series.
  rewrite Hs, String.eqb_refl. reflexivity.
Qed.

Lemma added_of_series (s name : string) (l : Series) :
  forall added,
    map md_fields added = map (fun item => (fst item, s, name, snd item)) l ->
    Forall (fun r => md_series_id r = s /\ md_series_name r = name) added.
Proof.
  induction l as [|[d v] l IH]; intros [|a added] Hf; try discriminate;
    constructor.
  - simpl in Hf. injection Hf as _ Hs Hn _ _. auto.
  - apply IH. simpl in Hf. injection Hf as _ _ _ _ Hf. exact Hf.
Qed.

(** X2.  A store call for one series leaves the rows of every other
    series as they are, fields and order, and touches neither the
    recession periods nor the fetch log; it makes no request to the
    client.  This holds whether it returns or raises. *)
Theorem store_series_data_frame (s name : string) (data : Series) (w : World)
        (r : Result Z) (w' : World) :
  session_clean w ->
  store_series_data utcnow_at db_fails s name data w = (r, w') ->
  filter (other_series s) (market_data (committed w'))
  = filter (other_series s) (market_data (committed w))
  /\ recession_periods (committed w') = recession_periods (committed w)
  /\ data_fetch_log (committed w') = data_fetch_log (committed w)
  /\ requests w' = requests w.
Proof.
  intros Hclean H. destruct r as [n|e].
  - apply store_series_data_ok_clean in H; [|exact Hclean].
    destruct H as (_ & _ & (added & Hmd & Hadded) & Hrp & Hlog & Hreq).
    split; [|auto].
    rewrite Hmd, filter_app, apply_updates_other_series.
    rewrite (filter_all_false (other_series s) added); [apply app_nil_r|].
    eapply Forall_impl; [|exact (added_of_series s name _ added Hadded)].
    intros a [Hs _]. unfold other_series.
    rewrite Hs, String.eqb_refl. reflexivity.
  - apply store_series_data_raise in H.
    destruct H as (_ & -> & _ & _ & Hreq). auto.
Qed.

(** X3.  Store, then look up: after a returning call on a series that
    lists a date at most once, every pair that carries a value is found
    under (date, series_id), and the first row found holds that value. *)
Theorem store_series_data_then_lookup (s name : string) (data : Series)
        (w : World) (n : Z) (w' : World) (d : datetime) (v : float) :
  session_clean w ->
  well_formed_series data ->
  store_series_data utcnow_at db_fails s name data w = (Ok n, w') ->
  In (d, v) data ->
  isna v = false ->
  exists row,
    find (key_is d s) (market_data (committed w')) = Some row
    /\ md_date row = d /\ md_series_id row = s /\ md_value row = v.
Proof.
  intros Hclean Hwf H Hin Hv.
  pose proof (store_series_data_settles s name data w n w' Hclean Hwf H
                d v Hin Hv) as Hset.
  destruct (find (key_is d s) (market_data (committed w'))) as [row|];
    [|discriminate].
  exists row. split; [reflexivity|].
  simpl in Hset. unfold md_triple in Hset. injection Hset as -> -> ->.
  auto.
Qed.

Lemma apply_updates_length (s : string) (items : Series) :
  forall rows k,
    List.length (fst (apply_updates utcnow_at s items rows k))
    = List.length rows.
Proof.
  intros rows k.
  rewrite <- (length_map md_key), apply_updates_keys, length_map.
  reflexivity.
Qed.

(** X4.  A returning store call updates in place: the table it leaves
    begins with the rows it found, each under its key and with its
    identifier, its series name and its creation time, so a row keeps
    the name it was inserted with; the rows after them are the inserted
    ones, which carry the series and the name given to the call. *)
Theorem store_series_data_in_place (s name : string) (data : Series)
        (w : World) (n : Z) (w' : World) :
  session_clean w ->
  store_series_data utcnow_at db_fails s name data w = (Ok n, w') ->
  exists kept added,
    market_data (committed w') = kept ++ added
    /\ map md_key kept = map md_key (market_data (committed w))
    /\ map md_static kept = map md_static (market_data (committed w))
    /\ Forall (fun r => md_series_id r = s /\ md_series_name r = name) added.
Proof.
  intros Hclean H. apply store_series_data_ok_clean in H; [|exact Hclean].
  destruct H as (_ & _ & (added & Hmd & Hadded) & _).
  eexists. exists added. split; [exact Hmd|].
  split; [apply apply_updates_keys|]. split; [apply apply_updates_static|].
  exact (added_of_series s name _ added Hadded).
Qed.

Lemma nothing_valid (data : Series) :
  count_valid data = 0%nat -> Forall (fun item => isna (snd item) = true) data.
Proof.
  induction data as [|[d v] data IH]; intros H; constructor.
  - rewrite count_valid_cons in H. simpl. destruct (isna v);
      [reflexivity | discriminate].
  - apply IH. rewrite count_valid_cons in H. destruct (isna v);
      [exact H | discriminate].
Qed.

(** X5.  A series without a single value, the empty one included: when
    the database answers the commit the call returns 0, after no lookup,
    and the database is what it was. *)
Theorem store_series_data_nothing_to_store (s name : string) (data : Series)
        (w : World) :
  session_clean w ->
  count_valid data = 0%nat ->
  db_fails (dbops w) = false ->
  exists w',
    store_series_data utcnow_at db_fails s name data w = (Ok 0, w')
    /\ committed w' = committed w
    /\ dbops w' = S (dbops w).
Proof.
  intros [Hnew Hload] Hzero Hnf.
  assert (Hloop : store_loop utcnow_at db_fails s name data 0 w = (Ok 0, w)).
  { apply nothing_valid in Hzero. clear Hnf Hnew Hload. revert w.
    induction Hzero as [|[d v] data Hv _ IH]; intros w; [reflexivity|].
    simpl in Hv |- *. rewrite Hv. apply IH. }
  unfold store_series_data, try_except, bind. rewrite Hloop.
  unfold db_commit. rewrite Hnf, Hnew, Hload. cbn.
  eexists. split; [reflexivity|]. split; reflexivity.
Qed.

(** ** More on the FRED client and the batch *)

(** X6.  [get_series_info] never raises and costs one request.  When the
    client fails it answers the empty dictionary; when the client answers
    but lacks one of the six keys it answers the empty dictionary too;
    otherwise it answers these six keys, in order, with the values of
    the client. *)
Theorem get_series_info_never_raises (series_id : string) (w : World) :
  exists info,
    get_series_info fred_get_series_info series_id w
    = (Ok info, log_request (GetSeriesInfo series_id) w)
    /\ match fred_get_series_info (List.length (requests w)) series_id with
       | Raise _ => info = []
       | Ok raw =>
           (info = []
            /\ exists k, In k info_keys /\ dict_lookup k raw = None)
           \/ (map fst info = info_keys
               /\ forall k v, In (k, v) info -> dict_lookup k raw = Some v)
       end.
Proof.
  unfold get_series_info, try_except. unfold bind at 1.
  destruct (fred_get_series_info (List.length (requests w)) series_id)
    as [raw|e]; [|eexists; split; reflexivity].
  unfold bind, getitem, info_keys.
  repeat match goal with
         | |- context [dict_lookup ?k raw] =>
             destruct (dict_lookup k raw) eqn:?; cbn;
             [|eexists; split; [reflexivity|]; left; split; [reflexivity|];
               exists k; split; [simpl; tauto | assumption]]
         end.
  eexists. split; [reflexivity|]. right. split; [reflexivity|].
  intros k v Hin. simpl in Hin.
  repeat (destruct Hin as [Hin|Hin]; [injection Hin as <- <-; assumption|]).
  destruct Hin.
Qed.

Lemma commit_log_row (w : World) (sid status : string) (n : Z)
      (err : option string) (sd : datetime) (ed : option datetime) :
  loaded w = committed w ->
  sess_new w = [NewDataFetchLog sid status n err sd ed] ->
  db_fails (dbops w) = false ->
  exists w' row,
    db_commit utcnow_at db_fails w = (Ok tt, w')
    /\ session_clean w'
    /\ data_fetch_log (committed w') = data_fetch_log (committed w) ++ [row]
    /\ log_summary row = (sid, status, n, err)
    /\ log_start_date row = sd
    /\ requests w' = requests w.
Proof.
  intros Hl Hn Hnf. unfold db_commit. rewrite Hnf, Hn, Hl. cbn.
  eexists. eexists. split; [reflexivity|]. cbn.
  repeat split; reflexivity.
Qed.

Lemma dict_set_keys {V} (k : string) (v : V) (d : list (string * V))
      (k' : string) :
  In k' (map fst (dict_set k v d)) <-> k' = k \/ In k' (map fst d).
Proof.
  induction d as [|[k0 v0] d IH]; simpl.
  - split; [intros [<-|[]]; auto | intros [->|[]]; auto].
  - destruct (String.eqb k0 k) eqn:E; simpl.
    + apply String.eqb_eq in E. subst k0. split; [tauto|].
      intros [->|[->|H]]; auto.
    + rewrite IH. tauto.
Qed.

(** One attempt when the start date parses and the database answers: it
    returns, sets the entry of its key in the results, and the fetch log
    has one more row, which sums the attempt up. *)
Lemma fetch_and_store_one_summary (start_date series_key series_id : string)
      (results : list (string * SeriesOutcome)) (d : datetime) (w : World) :
  session_clean w ->
  strptime start_date = Ok d ->
  (forall n, db_fails n = false) ->
  exists outcome w' row,
    fetch_and_store_one utcnow_at db_fails fred_get_series
      fred_get_series_info start_date series_key series_id results w
    = (Ok (dict_set series_key outcome results), w')
    /\ session_clean w'
    /\ data_fetch_log (committed w') = data_fetch_log (committed w) ++ [row]
    /\ log_summary row
       = attempt_summary series_id
           (fred_get_series (S (List.length (requests w))) series_id
                            start_date None)
    /\ log_start_date row = d
    /\ requests w'
       = requests w ++ [GetSeriesInfo series_id;
                        GetSeries series_id start_date None].
Proof.
  intros Hclean Hd Hnf.
  unfold fetch_and_store_one, try_except. unfold bind at 1.
  destruct (get_series_info_spec series_id w) as [info ->].
  unfold bind at 1.
  rewrite fetch_series_data_spec.
  replace (List.length (requests (log_request (GetSeriesInfo series_id) w)))
    with (S (List.length (requests w)))
    by (cbn; rewrite length_app, Nat.add_comm; reflexivity).
  destruct (fred_get_series (S (List.length (requests w))) series_id
                            start_date None) as [data|e].
  - unfold bind at 1.
    destruct (store_series_data_total series_id
                (dict_get info "title" series_key) data
                (log_request (GetSeries series_id start_date None)
                   (log_request (GetSeriesInfo series_id) w)) Hnf)
      as (n & w2 & Hstore).
    rewrite Hstore.
    pose proof (store_series_data_ok _ _ _ _ _ _ Hstore) as [Hcount _].
    apply store_series_data_log in Hstore;
      [|apply log_request_clean, log_request_clean, Hclean].
    destruct Hstore as ([Hn2 Hl2] & Hlog & Hreq). cbn in Hlog, Hreq.
    unfold bind at 1. unfold strptime_m. rewrite Hd.
    unfold bind at 1. unfold utcnow.
    unfold bind at 1. unfold db_add.
    unfold bind at 1.
    edestruct (commit_log_row
                 (set_sess_new
                    (sess_new
                       (mkWorld (committed w2) (loaded w2) (sess_new w2)
                                (S (ticks w2)) (dbops w2) (requests w2))
                     ++ [NewDataFetchLog series_id "success" n None d
                           (Some (utcnow_at (ticks w2)))])
                    (mkWorld (committed w2) (loaded w2) (sess_new w2)
                             (S (ticks w2)) (dbops w2) (requests w2))))
      as (w3 & row & Hcommit & Hclean3 & Hlog3 & Hsum & Hsd & Hreq3);
      [exact Hl2 | cbn; rewrite Hn2; reflexivity | apply Hnf |].
    rewrite Hcommit. cbn in Hlog3, Hreq3.
    eexists. exists w3, row. split; [reflexivity|].
    split; [exact Hclean3|]. split; [congruence|].
    split; [rewrite Hsum, Hcount; reflexivity|]. split; [exact Hsd|].
    rewrite Hreq3, Hreq, <- app_assoc. reflexivity.
  - unfold bind at 1. unfold strptime_m. rewrite Hd.
    unfold bind at 1. unfold db_add.
    unfold bind at 1.
    destruct Hclean as [Hn Hl].
    edestruct (commit_log_row
                 (set_sess_new
                    (sess_new
                       (log_request (GetSeries series_id start_date None)
                          (log_request (GetSeriesInfo series_id) w))
                     ++ [NewDataFetchLog series_id "failed" 0
                           (Some (exn_str e)) d None])
                    (log_request (GetSeries series_id start_date None)
                       (log_request (GetSeriesInfo series_id) w))))
      as (w3 & row & Hcommit & Hclean3 & Hlog3 & Hsum & Hsd & Hreq3);
      [exact Hl | cbn; rewrite Hn; reflexivity | apply Hnf |].
    rewrite Hcommit. cbn in Hlog3, Hreq3.
    eexists. exists w3, row. split; [reflexivity|].
    split; [exact Hclean3|]. split; [exact Hlog3|].
    split; [exact Hsum|]. split; [exact Hsd|].
    rewrite Hreq3, <- app_assoc. reflexivity.
Qed.

Lemma fetch_and_store_loop_summaries (config : list (string * string))
      (start_date : string) (d : datetime) :
  strptime start_date = Ok d ->
  (forall n, db_fails n = false) ->
  forall w results,
    session_clean w ->
    exists results' w' added,
      fetch_and_store_loop utcnow_at db_fails fred_get_series
        fred_get_series_info start_date config results w
      = (Ok results', w')
      /\ session_clean w'
      /\ data_fetch_log (committed w') = data_fetch_log (committed w) ++ added
      /\ map log_summary added
         = batch_summaries fred_get_series start_date
                           (List.length (requests w)) config
      /\ (forall key, In key (map fst results')
                      <-> In key (map fst config)
                          \/ In key (map fst results))
      /\ List.length (requests w')
         = (List.length (requests w) + 2 * List.length config)%nat.
Proof.
  intros Hd Hnf.
  induction config as [|[series_key series_id] config IH];
    intros w results Hclean.
  - exists results, w, []. simpl. rewrite app_nil_r.
    split; [reflexivity|]. split; [exact Hclean|]. split; [reflexivity|].
    split; [reflexivity|]. split; [tauto | lia].
  - simpl. unfold bind.
    destruct (fetch_and_store_one_summary start_date series_key series_id
                results d w Hclean Hd Hnf)
      as (outcome & w1 & row & -> & Hclean1 & Hlog1 & Hsum & _ & Hreq1).
    destruct (IH w1 (dict_set series_key outcome results) Hclean1)
      as (results2 & w2 & added & -> & Hclean2 & Hlog2 & Hsums & Hkeys
          & Hlen).
    exists results2, w2, (row :: added). split; [reflexivity|].
    split; [exact Hclean2|].
    split; [rewrite Hlog2, Hlog1, <- app_assoc; reflexivity|].
    split.
    + simpl. rewrite Hsum, Hsums, Hreq1, length_app, Nat.add_comm.
      reflexivity.
    + split.
      * intros key. rewrite Hkeys, dict_set_keys. simpl.
        intuition (subst; auto).
      * rewrite Hlen, Hreq1, length_app. simpl. lia.
Qed.

(** X7.  The batch when the start date parses and the database answers:
    it returns whatever the client does; every configured series is
    attempted, in order, with two requests; each attempt leaves exactly
    one row in the fetch log, which says "success" with the number of
    valid pairs when the fetch returned and "failed" with the text of
    the error and 0 when it raised; and the results hold exactly the
    configured keys. *)
Theorem fetch_and_store_all_series_summaries
        (config : list (string * string)) (start_date : string)
        (d : datetime) (w : World) :
  session_clean w ->
  strptime start_date = Ok d ->
  (forall n, db_fails n = false) ->
  exists results w' added,
    fetch_and_store_all_series utcnow_at db_fails fred_get_series
      fred_get_series_info config start_date w
    = (Ok results, w')
    /\ data_fetch_log (committed w') = data_fetch_log (committed w) ++ added
    /\ map log_summary added
       = batch_summaries fred_get_series start_date
                         (List.length (requests w)) config
    /\ (forall key, In key (map fst results) <-> In key (map fst config))
    /\ List.length (requests w')
       = (List.length (requests w) + 2 * List.length config)%nat.
Proof.
  intros Hclean Hd Hnf.
  destruct (fetch_and_store_loop_summaries config start_date d Hd Hnf w []
              Hclean)
    as (results & w' & added & Hrun & _ & Hlog & Hsums & Hkeys & Hlen).
  exists results, w', added. split; [exact Hrun|]. split; [exact Hlog|].
  split; [exact Hsums|]. split; [|exact Hlen].
  intros key. rewrite Hkeys. simpl. tauto.
Qed.

Lemma store_series_data_tables (s name : string) (data : Series) (w : World)
      (r : Result Z) (w' : World) :
  session_clean w ->
  store_series_data utcnow_at db_fails s name data w = (r, w') ->
  session_clean w'
  /\ recession_periods (committed w') = recession_periods (committed w)
  /\ data_fetch_log (committed w') = data_fetch_log (committed w)
  /\ requests w' = requests w.
Proof.
  intros Hclean H. destruct r as [n|e].
  - apply store_series_data_ok_clean in H; tauto.
  - apply store_series_data_raise in H.
    destruct H as (_ & Hc & Hl & Hn & Hr).
    split; [split; congruence|]. rewrite Hc. auto.
Qed.

Lemma strptime_value_error (s : string) (e : exn) :
  strptime s = Raise e -> exists msg, e = ValueError msg.
Proof.
  unfold strptime.
  repeat match goal with
         | |- context [match ?x with _ => _ end] =>
             destruct x; try (intros H; injection H as <-; eauto; fail);
             try discriminate
         end.
Qed.

Lemma fetch_and_store_first_attempt_refused
        (series_key series_id : string) (rest : list (string * string))
        (start_date : string) (e0 : exn) (w : World) :
  session_clean w ->
  strptime start_date = Raise e0 ->
  exists w',
    fetch_and_store_all_series utcnow_at db_fails fred_get_series
      fred_get_series_info ((series_key, series_id) :: rest) start_date w
    = (Raise e0, w')
    /\ data_fetch_log (committed w') = data_fetch_log (committed w)
    /\ recession_periods (committed w') = recession_periods (committed w)
    /\ requests w'
       = requests w ++ [GetSeriesInfo series_id;
                        GetSeries series_id start_date None]
    /\ session_clean w'.
Proof.
  intros Hclean Hbad.
  unfold fetch_and_store_all_series. simpl. unfold bind at 1.
  unfold fetch_and_store_one, try_except. unfold bind at 1.
  destruct (get_series_info_spec series_id w) as [info ->].
  unfold bind at 1. rewrite fetch_series_data_spec.
  destruct (fred_get_series
              (List.length (requests (log_request (GetSeriesInfo series_id) w)))
              series_id start_date None) as [data|e].
  - unfold bind at 1.
    destruct (store_series_data utcnow_at db_fails series_id
                (dict_get info "title" series_key) data _)
      as [r w2] eqn:Hstore.
    apply store_series_data_tables in Hstore;
      [|apply log_request_clean, log_request_clean, Hclean].
    destruct Hstore as (Hclean2 & Hrp & Hlog & Hreq).
    cbn in Hrp, Hlog, Hreq.
    destruct r as [n|e]; unfold bind, strptime_m; rewrite Hbad;
      (eexists; split; [reflexivity|]);
      rewrite Hlog, Hrp, Hreq, <- app_assoc; auto.
  - unfold bind, strptime_m. rewrite Hbad. eexists.
    split; [reflexivity|]. cbn. rewrite <- app_assoc. auto.
Qed.

(** X8.  The batch on an ASCII start date that [strptime] refuses, with
    a configuration that has a first series: whatever the client and the
    database do, the batch raises a [ValueError] out of the handler of
    the first attempt; it has asked for the first series only, the fetch
    log has no new row, and the session holds nothing pending. *)
Theorem fetch_and_store_all_series_refused_start
        (series_key series_id : string) (rest : list (string * string))
        (start_date : string) (e0 : exn) (w : World) :
  session_clean w ->
  is_ascii start_date = true ->
  strptime start_date = Raise e0 ->
  exists msg w',
    fetch_and_store_all_series utcnow_at db_fails fred_get_series
      fred_get_series_info ((series_key, series_id) :: rest) start_date w
    = (Raise (ValueError msg), w')
    /\ data_fetch_log (committed w') = data_fetch_log (committed w)
    /\ recession_periods (committed w') = recession_periods (committed w)
    /\ requests w'
       = requests w ++ [GetSeriesInfo series_id;
                        GetSeries series_id start_date None]
    /\ session_clean w'.
Proof.
  intros Hclean _ Hbad.
  destruct (strptime_value_error _ _ Hbad) as [msg ->].
  destruct (fetch_and_store_first_attempt_refused series_key series_id rest
              start_date (ValueError msg) w Hclean Hbad) as (w' & H).
  exists msg, w'. exact H.
Qed.

(** ** More on process_recession_indicators *)

Lemma add_period_ok (start : datetime) (end_date : option datetime)
      (w w' : World) :
  add_period_unless_existing db_fails (Some start) end_date w = (Ok tt, w') ->
  w' = mkWorld (committed w) (loaded w)
         (sess_new w
          ++ period_objs
               (filter (is_unrecorded (recession_periods (loaded w)))
                       [(start, end_date, _get_recession_name start)]))
         (ticks w) (S (dbops w)) (requests w).
Proof.
  unfold add_period_unless_existing, bind, query_recession_period_first,
    db_roundtrip, bind.
  destruct (db_fails (dbops w)); [discriminate|]. cbn.
  unfold is_unrecorded, starts_at. cbn.
  destruct (find (fun p => dt_eqb (rp_start_date p) start)
                 (recession_periods (loaded w)));
    cbn; intros H; injection H as <-; [rewrite app_nil_r|]; reflexivity.
Qed.

(** A scan that returns has looked the candidates up, one round trip
    each, and added those it did not find. *)
Lemma recession_scan_ok (records : list MarketData) :
  forall in_recession recession_start w st w',
    recession_scan db_fails records in_recession recession_start w
    = (Ok st, w') ->
    st = scan_state records in_recession recession_start
    /\ w' = mkWorld (committed w) (loaded w)
              (sess_new w
               ++ period_objs
                    (filter (is_unrecorded (recession_periods (loaded w)))
                            (scan_candidates records in_recession
                                             recession_start)))
              (ticks w)
              (dbops w
               + List.length (scan_candidates records in_recession
                                              recession_start))%nat
              (requests w).
Proof.
  induction records as [|record records IH];
    intros in_recession recession_start w st w' H.
  - injection H as <- <-. split; [reflexivity|]. cbn.
    rewrite app_nil_r, Nat.add_0_r, world_eta. reflexivity.
  - simpl in H |- *.
    destruct (PrimFloat.eqb (md_value record) 1 && negb in_recession);
      [apply IH; exact H|].
    destruct (PrimFloat.eqb (md_value record) 0 && in_recession);
      [|apply IH; exact H].
    unfold bind in H.
    destruct recession_start as [start|].
    + destruct (add_period_unless_existing db_fails (Some start)
                  (Some (md_date record)) w) as [[[]|e] w1] eqn:Hadd;
        [|discriminate].
      apply add_period_ok in Hadd. subst w1.
      apply IH in H. cbn in H. destruct H as [-> ->].
      split; [reflexivity|].
      cbn [filter]. rewrite <- app_assoc, <- period_objs_app.
      f_equal.
      * f_equal. f_equal.
        destruct (is_unrecorded (recession_periods (loaded w))
                    (start, Some (md_date record), _get_recession_name start));
          reflexivity.
      * cbn [List.length]. lia.
    + unfold add_period_unless_existing, bind, db_roundtrip in H.
      destruct (db_fails (dbops w)); discriminate.
Qed.

Lemma commit_raise (w : World) (e : exn) (w' : World) :
  db_commit utcnow_at db_fails w = (Raise e, w') ->
  committed w' = committed w.
Proof.
  unfold db_commit. destruct (db_fails (dbops w)).
  - intros H. injection H as _ <-. reflexivity.
  - destruct (flush _ _ _ _). discriminate.
Qed.

(** A run that raises leaves the database as it was. *)
Lemma process_recession_indicators_raise (w : World) (e : exn) (w' : World) :
  process_recession_indicators utcnow_at db_fails w = (Raise e, w') ->
  committed w' = committed w /\ session_clean w'.
Proof.
  unfold process_recession_indicators, try_except.
  destruct (bind _ _ w) as [[[]|e1] w1] eqn:Hbody; [discriminate|].
  intros H. cbn in H. injection H as _ <-. cbn.
  split; [|split; reflexivity].
  unfold bind at 1 in Hbody. unfold query_recession_data in Hbody.
  unfold bind at 1 in Hbody. unfold db_roundtrip in Hbody.
  destruct (db_fails (dbops w)); [injection Hbody as _ <-; reflexivity|].
  cbn [fst snd] in Hbody.
  destruct (sort_by_date _) as [|rec recs]; [discriminate|].
  unfold bind at 1 in Hbody.
  destruct (recession_scan db_fails (rec :: recs) false None _)
    as [[st|e2] w2] eqn:Hscan;
    apply recession_scan_spec in Hscan; destruct Hscan as (Hc2 & _);
    cbn in Hc2.
  2:{ injection Hbody as _ <-. exact Hc2. }
  unfold bind at 1 in Hbody.
  destruct ((if fst st && is_some (snd st)
             then add_period_unless_existing db_fails (snd st) None
             else ret tt) w2) as [[[]|e3] w3] eqn:Hadd.
  - apply commit_raise in Hbody. rewrite Hbody, <- Hc2.
    destruct (fst st && is_some (snd st)).
    + apply add_period_spec in Hadd. tauto.
    + injection Hadd as <-. reflexivity.
  - injection Hbody as _ <-. rewrite <- Hc2.
    destruct (fst st && is_some (snd st)).
    + apply add_period_spec in Hadd. tauto.
    + discriminate.
Qed.

(** What a returning run on a clean session has inserted: the derived
    periods whose start it did not find, in the order of the history. *)
Lemma process_recession_indicators_ok (w w' : World) :
  session_clean w ->
  process_recession_indicators utcnow_at db_fails w = (Ok tt, w') ->
  exists added,
    recession_periods (committed w')
    = recession_periods (committed w) ++ added
    /\ map period_fields added
       = filter (is_unrecorded (recession_periods (committed w)))
                (derived_periods (usrec_records (committed w))).
Proof.
  intros [Hnew Hload] H.
  unfold process_recession_indicators, try_except in H.
  unfold bind at 1 in H. unfold query_recession_data in H.
  unfold bind at 1 in H. unfold db_roundtrip in H.
  destruct (db_fails (dbops w)); [discriminate|].
  cbn [fst snd loaded] in H. rewrite Hload in H. unfold usrec_records.
  destruct (sort_by_date
              (filter (fun r => String.eqb (md_series_id r) "USREC")
                      (market_data (committed w)))) as [|rec recs].
  { cbn in H. injection H as <-. cbn. exists []. rewrite app_nil_r. auto. }
  unfold bind at 1 in H.
  destruct (recession_scan db_fails (rec :: recs) false None _)
    as [[st|e] w1] eqn:Hscan; [|discriminate].
  apply recession_scan_ok in Hscan. cbn [committed loaded sess_new ticks
    dbops requests] in Hscan. destruct Hscan as [Hst ->].
  unfold bind at 1 in H.
  destruct ((if fst st && is_some (snd st)
             then add_period_unless_existing db_fails (snd st) None
             else ret tt) _) as [[[]|e] w2] eqn:Hadd; [|discriminate].
  assert (Hw2 : loaded w2 = committed w /\ committed w2 = committed w
                /\ sess_new w2
                   = period_objs
                       (filter (is_unrecorded
                                  (recession_periods (committed w)))
                               (derived_periods (rec :: recs)))).
  { unfold derived_periods. rewrite <- Hst, filter_app, period_objs_app.
    unfold final_candidate.
    destruct (fst st && is_some (snd st)) eqn:Hopen.
    - destruct (snd st) as [start|] eqn:Hs;
        [|rewrite andb_false_r in Hopen; discriminate].
      apply add_period_ok in Hadd. subst w2. cbn. rewrite Hnew, ?Hload.
      auto.
    - injection Hadd as <-. cbn. rewrite Hnew, ?Hload, app_nil_r. auto. }
  destruct Hw2 as (Hl2 & Hc2 & Hn2).
  destruct (db_commit utcnow_at db_fails w2) as [r3 w3] eqn:Hcommit.
  apply (commit_periods w2
           (filter (is_unrecorded (recession_periods (committed w)))
                   (derived_periods (rec :: recs))) r3 w3) in Hcommit;
    [|congruence|exact Hn2].
  destruct Hcommit as (_ & _ & _ & _ & Hcase).
  destruct Hcase as [(-> & _ & added & Hrp & Hfields)|[-> _]];
    [|discriminate].
  injection H as <-. exists added. rewrite Hrp, Hc2.
  split; [reflexivity | exact Hfields].
Qed.

(** X9.  No observation of the indicator: when the database answers
    the query, the run returns after this one round trip, without a
    commit, and the world is otherwise what it was. *)
Theorem process_recession_indicators_no_data (w : World) :
  usrec_records (loaded w) = [] ->
  db_fails (dbops w) = false ->
  process_recession_indicators utcnow_at db_fails w
  = (Ok tt,
     mkWorld (committed w) (loaded w) (sess_new w) (ticks w) (S (dbops w))
             (requests w)).
Proof.
  intros Hnone Hnf.
  unfold process_recession_indicators, try_except.
  unfold bind at 1. unfold query_recession_data.
  unfold bind at 1. unfold db_roundtrip. rewrite Hnf. cbn [fst snd loaded].
  unfold usrec_records in Hnone. rewrite Hnone. reflexivity.
Qed.

(** X10.  A derivation run on a clean session, returning or raising,
    writes to the recession periods alone: the observations and the
    fetch log are what they were, no request goes to the client, and the
    session is left clean. *)
Theorem process_recession_indicators_reads_only (w : World)
        (r : Result unit) (w' : World) :
  session_clean w ->
  process_recession_indicators utcnow_at db_fails w = (r, w') ->
  market_data (committed w') = market_data (committed w)
  /\ data_fetch_log (committed w') = data_fetch_log (committed w)
  /\ requests w' = requests w
  /\ session_clean w'.
Proof.
  intros Hclean H.
  apply process_recession_indicators_spec in H; [|exact Hclean].
  destruct H as (Hclean' & Hreq & Hmd & Hlog & _). auto.
Qed.

Lemma find_app_some {A} (p : A -> bool) (l1 l2 : list A) :
  is_some (find p l1) = true -> is_some (find p (l1 ++ l2)) = true.
Proof.
  rewrite find_app_l. destruct (find p l1); [auto | discriminate].
Qed.

Lemma find_starts_at_added (start : datetime) (added : list RecessionPeriod)
      (f : datetime * option datetime * string) :
  fst (fst f) = start ->
  In f (map period_fields added) ->
  is_some (find (starts_at start) added) = true.
Proof.
  intros Hs Hin. apply in_map_iff in Hin. destruct Hin as (p & Hp & Hin).
  destruct (find (starts_at start) added) eqn:Hf; [reflexivity|].
  rewrite find_none_iff in Hf. specialize (Hf p Hin).
  unfold starts_at in Hf. subst f. cbn in Hs. rewrite Hs, dt_eqb_refl in Hf.
  discriminate.
Qed.

(** Once a run has returned, every derived period has its start
    recorded. *)
Lemma derived_periods_recorded (rows added : list RecessionPeriod)
      (candidates : list (datetime * option datetime * string)) :
  map period_fields added = filter (is_unrecorded rows) candidates ->
  filter (is_unrecorded (rows ++ added)) candidates = [].
Proof.
  intros Hadded. apply filter_all_false. apply Forall_forall.
  intros f Hf. unfold is_unrecorded. apply negb_false_iff.
  rewrite find_app_l.
  destruct (find (starts_at (fst (fst f))) rows) eqn:Hrows; [reflexivity|].
  apply (find_starts_at_added _ _ f eq_refl).
  rewrite Hadded. apply filter_In. split; [exact Hf|].
  unfold is_unrecorded. rewrite Hrows. reflexivity.
Qed.

Lemma tables_eq (t t' : Tables) :
  market_data t = market_data t' ->
  recession_periods t = recession_periods t' ->
  data_fetch_log t = data_fetch_log t' ->
  t = t'.
Proof. destruct t, t'. cbn. intros -> -> ->. reflexivity. Qed.

(** X11.  Deriving a second time from the same observations, after a run
    that returned, changes nothing in the database: every period the
    second run derives has its start recorded by then, so it inserts
    none, whether it returns or raises. *)
Theorem process_recession_indicators_idempotent (w w1 : World)
        (r2 : Result unit) (w2 : World) :
  session_clean w ->
  process_recession_indicators utcnow_at db_fails w = (Ok tt, w1) ->
  process_recession_indicators utcnow_at db_fails w1 = (r2, w2) ->
  committed w2 = committed w1.
Proof.
  intros Hclean H1 H2.
  pose proof (process_recession_indicators_spec w (Ok tt) w1 Hclean H1)
    as (Hclean1 & _ & Hmd1 & _).
  pose proof (process_recession_indicators_ok w w1 Hclean H1)
    as (added1 & Hrp1 & Hfields1).
  destruct r2 as [[]|e].
  - pose proof (process_recession_indicators_spec w1 (Ok tt) w2 Hclean1 H2)
      as (_ & _ & Hmd2 & Hlog2 & _).
    pose proof (process_recession_indicators_ok w1 w2 Hclean1 H2)
      as (added2 & Hrp2 & Hfields2).
    apply tables_eq; [exact Hmd2 | | exact Hlog2].
    rewrite Hrp2. unfold usrec_records in Hfields2.
    rewrite Hmd1, Hrp1 in Hfields2.
    fold (usrec_records (committed w)) in Hfields2.
    rewrite (derived_periods_recorded _ _ _ Hfields1) in Hfields2.
    apply map_eq_nil in Hfields2. rewrite Hfields2. apply app_nil_r.
  - apply process_recession_indicators_raise in H2. tauto.
Qed.

(** ** The order of dates and [order_by] *)

Lemma dt_leb_spec (a b : datetime) : dt_leb a b = true <-> dt_lex_le a b.
Proof.
  unfold dt_leb, dt_compare, dt_lex_le.
  destruct (Z.compare_spec (year a) (year b));
    destruct (Z.compare_spec (month a) (month b));
    destruct (Z.compare_spec (day a) (day b));
    destruct (Z.compare_spec (micros a) (micros b));
    split; intros; try reflexivity; try discriminate; lia.
Qed.

Lemma dt_ltb_spec (a b : datetime) : dt_ltb a b = false <-> dt_lex_le b a.
Proof.
  unfold dt_ltb, dt_compare, dt_lex_le.
  destruct (Z.compare_spec (year a) (year b));
    destruct (Z.compare_spec (month a) (month b));
    destruct (Z.compare_spec (day a) (day b));
    destruct (Z.compare_spec (micros a) (micros b));
    split; intros; try reflexivity; try discriminate; lia.
Qed.

Lemma dt_leb_trans (a b c : datetime) :
  dt_leb a b = true -> dt_leb b c = true -> dt_leb a c = true.
Proof. rewrite !dt_leb_spec. unfold dt_lex_le. lia. Qed.

Lemma dt_ltb_leb (a b : datetime) : dt_ltb a b = true -> dt_leb a b = true.
Proof.
  unfold dt_ltb, dt_leb. destruct (dt_compare a b); auto; discriminate.
Qed.

Lemma insert_by_date_perm (r : MarketData) (rows : list MarketData) :
  Permutation (insert_by_date r rows) (r :: rows).
Proof.
  induction rows as [|x rows IH]; simpl; [reflexivity|].
  destruct (dt_ltb (md_date x) (md_date r)); [|reflexivity].
  rewrite IH. apply perm_swap.
Qed.

Lemma sort_by_date_perm (rows : list MarketData) :
  Permutation (sort_by_date rows) rows.
Proof.
  induction rows as [|r rows IH]; simpl; [reflexivity|].
  rewrite insert_by_date_perm. apply perm_skip. exact IH.
Qed.

Lemma insert_by_date_sorted (r : MarketData) (rows : list MarketData) :
  StronglySorted date_ordered rows ->
  StronglySorted date_ordered (insert_by_date r rows).
Proof.
  induction 1 as [|x rows Hs IH Hall]; simpl.
  - constructor; constructor.
  - destruct (dt_ltb (md_date x) (md_date r)) eqn:Hlt.
    + constructor; [exact IH|].
      rewrite (Forall_forall (date_ordered x)).
      intros y Hy.
      apply (Permutation_in _ (insert_by_date_perm r rows)) in Hy.
      destruct Hy as [<-|Hy].
      * apply dt_ltb_leb. exact Hlt.
      * rewrite Forall_forall in Hall. auto.
    + assert (Hrx : date_ordered r x)
        by (apply dt_leb_spec, dt_ltb_spec; exact Hlt).
      constructor; [constructor; assumption|].
      constructor; [exact Hrx|].
      eapply Forall_impl; [|exact Hall]. intros y Hy.
      unfold date_ordered in *. eapply dt_leb_trans; eauto.
Qed.

Lemma sort_by_date_sorted (rows : list MarketData) :
  StronglySorted date_ordered (sort_by_date rows).
Proof.
  induction rows as [|r rows IH]; simpl; [constructor|].
  apply insert_by_date_sorted. exact IH.
Qed.

Lemma sorted_later (pre : list MarketData) (x : MarketData)
      (post : list MarketData) (y : MarketData) :
  StronglySorted date_ordered (pre ++ x :: post) ->
  In y post -> date_ordered x y.
Proof.
  induction pre as [|z pre IH]; simpl; intros Hs Hy;
    inversion Hs as [|? ? Hs' Hall]; subst.
  - rewrite Forall_forall in Hall. auto.
  - auto.
Qed.

(** ** What a run derives *)

Lemma scan_candidates_shape (records : list MarketData) :
  forall in_recession recession_start f,
    In f (scan_candidates records in_recession recession_start) ->
    exists e,
      snd (fst f) = Some e
      /\ snd f = _get_recession_name (fst (fst f))
      /\ ((in_recession = true /\ recession_start = Some (fst (fst f))
           /\ exists pre r_e post,
                records = pre ++ r_e :: post
                /\ md_date r_e = e
                /\ PrimFloat.eqb (md_value r_e) 0 = true)
          \/ (exists pre r_s mid r_e post,
                records = pre ++ r_s :: mid ++ r_e :: post
                /\ md_date r_s = fst (fst f)
                /\ PrimFloat.eqb (md_value r_s) 1 = true
                /\ md_date r_e = e
                /\ PrimFloat.eqb (md_value r_e) 0 = true)).
Proof.
  induction records as [|r records IH]; intros in_recession recession_start
    f Hin; [destruct Hin|].
  simpl in Hin.
  destruct (PrimFloat.eqb (md_value r) 1 && negb in_recession) eqn:Hopen.
  { apply andb_prop in Hopen. destruct Hopen as [Hone _].
    apply IH in Hin. destruct Hin as (e & He & Hname & Hcase).
    exists e. split; [exact He|]. split; [exact Hname|]. right.
    destruct Hcase as [(_ & Hs & pre & r_e & post & -> & Hd & Hv)
                      |(pre & r_s & mid & r_e & post & -> & Hrest)].
    - injection Hs as Hs. exists [], r, pre, r_e, post. auto.
    - exists (r :: pre), r_s, mid, r_e, post. auto. }
  destruct (PrimFloat.eqb (md_value r) 0 && in_recession) eqn:Hclose.
  { apply andb_prop in Hclose. destruct Hclose as [Hzero Hin_rec].
    destruct recession_start as [start|]; [|destruct Hin].
    destruct Hin as [<-|Hin].
    - exists (md_date r). split; [reflexivity|]. split; [reflexivity|].
      left. split; [exact Hin_rec|]. split; [reflexivity|].
      exists [], r, records. auto.
    - apply IH in Hin. destruct Hin as (e & He & Hname & Hcase).
      exists e. split; [exact He|]. split; [exact Hname|]. right.
      destruct Hcase as [(Hfalse & _)
                        |(pre & r_s & mid & r_e & post & -> & Hrest)];
        [discriminate|].
      exists (r :: pre), r_s, mid, r_e, post. auto. }
  apply IH in Hin. destruct Hin as (e & He & Hname & Hcase).
  exists e. split; [exact He|]. split; [exact Hname|].
  destruct Hcase as [(Hrec & Hs & pre & r_e & post & -> & Hrest)
                    |(pre & r_s & mid & r_e & post & -> & Hrest)].
  - left. split; [exact Hrec|]. split; [exact Hs|].
    exists (r :: pre), r_e, post. auto.
  - right. exists (r :: pre), r_s, mid, r_e, post. auto.
Qed.

Lemma scan_state_shape (records : list MarketData) :
  forall in_recession recession_start start,
    scan_state records in_recession recession_start = (true, Some start) ->
    (in_recession = true /\ recession_start = Some start)
    \/ exists pre r_s post,
         records = pre ++ r_s :: post
         /\ md_date r_s = start
         /\ PrimFloat.eqb (md_value r_s) 1 = true.
Proof.
  induction records as [|r records IH]; intros in_recession recession_start
    start H.
  - injection H as -> ->. auto.
  - simpl in H.
    destruct (PrimFloat.eqb (md_value r) 1 && negb in_recession) eqn:Hopen.
    { apply andb_prop in Hopen. destruct Hopen as [Hone _].
      apply IH in H. right.
      destruct H as [[_ Hs]|(pre & r_s & post & -> & Hrest)].
      - injection Hs as Hs. exists [], r, records. auto.
      - exists (r :: pre), r_s, post. auto. }
    destruct (PrimFloat.eqb (md_value r) 0 && in_recession).
    { apply IH in H. right.
      destruct H as [[Hfalse _]|(pre & r_s & post & -> & Hrest)];
        [discriminate|].
      exists (r :: pre), r_s, post. auto. }
    apply IH in H.
    destruct H as [H|(pre & r_s & post & -> & Hrest)]; [left; exact H|].
    right. exists (r :: pre), r_s, post. auto.
Qed.

Lemma final_candidate_shape (st : bool * option datetime)
      (f : datetime * option datetime * string) :
  In f (final_candidate st) ->
  st = (true, Some (fst (fst f)))
  /\ snd (fst f) = None
  /\ snd f = _get_recession_name (fst (fst f)).
Proof.
  unfold final_candidate. destruct st as [[|] [start|]]; cbn;
    intros Hin; try (destruct Hin; fail).
  destruct Hin as [<-|[]]. auto.
Qed.

(** Every period derived from a history in date order is well derived. *)
Lemma derived_periods_well_derived (records : list MarketData)
      (p : RecessionPeriod) :
  StronglySorted date_ordered records ->
  In (period_fields p) (derived_periods records) ->
  well_derived records p.
Proof.
  intros Hsorted Hin. unfold derived_periods in Hin.
  apply in_app_or in Hin. unfold well_derived.
  destruct Hin as [Hin|Hin].
  - apply scan_candidates_shape in Hin. cbn in Hin.
    destruct Hin as (e & He & Hname & Hcase).
    destruct Hcase as [(Hfalse & _)
                      |(pre & r_s & mid & r_e & post & Hrec & Hds & Hvs
                        & Hde & Hve)]; [discriminate|].
    split; [|split; [exact Hname|]].
    + exists r_s. split; [|auto]. rewrite Hrec.
      apply in_or_app. right. left. reflexivity.
    + rewrite He. split.
      * exists r_e. split; [|auto]. rewrite Hrec.
        apply in_or_app. right. right. apply in_or_app. right. left.
        reflexivity.
      * rewrite Hrec in Hsorted.
        pose proof (sorted_later pre r_s (mid ++ r_e :: post) r_e Hsorted)
          as Hle.
        unfold date_ordered in Hle. rewrite Hds, Hde in Hle. apply Hle.
        apply in_or_app. right. left. reflexivity.
  - apply final_candidate_shape in Hin. cbn in Hin.
    destruct Hin as (Hst & Hend & Hname).
    apply scan_state_shape in Hst.
    destruct Hst as [[Hfalse _]|(pre & r_s & post & Hrec & Hds & Hvs)];
      [discriminate|].
    split; [|split; [exact Hname|]].
    + exists r_s. split; [|auto]. rewrite Hrec.
      apply in_or_app. right. left. reflexivity.
    + rewrite Hend. exact I.
Qed.

(** X12.  What a returning run inserts is well derived from the
    observations it read: each new interval starts on the date of an
    observation of value 1 and carries the name of its start; a closed
    one ends on the date of an observation of value 0 that is not before
    its start; an open one has no end. *)
Theorem process_recession_indicators_well_derived (w w' : World) :
  session_clean w ->
  process_recession_indicators utcnow_at db_fails w = (Ok tt, w') ->
  exists added,
    recession_periods (committed w')
    = recession_periods (committed w) ++ added
    /\ Forall (well_derived (usrec_records (committed w))) added.
Proof.
  intros Hclean H.
  apply process_recession_indicators_ok in H; [|exact Hclean].
  destruct H as (added & Hrp & Hfields).
  exists added. split; [exact Hrp|]. apply Forall_forall. intros p Hp.
  apply derived_periods_well_derived; [apply sort_by_date_sorted|].
  assert (Hin : In (period_fields p) (map period_fields added))
    by (apply in_map; exact Hp).
  rewrite Hfields in Hin. apply filter_In in Hin. tauto.
Qed.

Lemma final_candidate_short (st : bool * option datetime) :
  (List.length (final_candidate st) <= 1)%nat.
Proof.
  unfold final_candidate.
  destruct (fst st && is_some (snd st)); [|simpl; lia].
  destruct (snd st); simpl; lia.
Qed.

Lemma NoDup_short {A} (l : list A) : (List.length l <= 1)%nat -> NoDup l.
Proof.
  destruct l as [|a [|b l]]; simpl; intros H.
  - constructor.
  - constructor; [intros []|constructor].
  - lia.
Qed.

(** The starts a run looks up are the start it holds, if any, and dates
    of the records. *)
Lemma lookups_from_starts (records : list MarketData) :
  forall in_recession recession_start,
    incl (map (fun f => fst (fst f))
              (lookups_from records in_recession recession_start))
         (pending_start in_recession recession_start
          ++ map md_date records).
Proof.
  unfold lookups_from.
  induction records as [|r records IH]; intros in_recession recession_start.
  - simpl. unfold final_candidate, pending_start. cbn.
    destruct in_recession, recession_start; cbn; intros x Hx; auto.
  - simpl.
    destruct (PrimFloat.eqb (md_value r) 1 && negb in_recession) eqn:Hopen.
    { intros x Hx. apply IH in Hx. apply in_or_app. right. exact Hx. }
    destruct (PrimFloat.eqb (md_value r) 0 && in_recession) eqn:Hclose.
    { apply andb_prop in Hclose. destruct Hclose as [_ ->].
      destruct recession_start as [start|]; cbn.
      - intros x [<-|Hx]; [left; reflexivity|].
        apply IH in Hx. right. right. exact Hx.
      - intros x Hx. right.
        apply (IH false None). rewrite map_app. apply in_or_app.
        right. exact Hx. }
    intros x Hx. apply IH in Hx. apply in_app_or in Hx.
    apply in_or_app. destruct Hx as [Hx|Hx]; [left; exact Hx|].
    right. right. exact Hx.
Qed.

Lemma lookups_from_distinct (records : list MarketData) :
  forall in_recession recession_start,
    NoDup (pending_start in_recession recession_start
           ++ map md_date records) ->
    NoDup (map (fun f => fst (fst f))
               (lookups_from records in_recession recession_start)).
Proof.
  induction records as [|r records IH]; intros in_recession recession_start
    Hnd.
  - unfold lookups_from. simpl. apply NoDup_short.
    rewrite length_map. apply final_candidate_short.
  - unfold lookups_from in *. simpl.
    destruct (PrimFloat.eqb (md_value r) 1 && negb in_recession) eqn:Hopen.
    { apply andb_prop in Hopen. destruct Hopen as [_ Hout].
      apply negb_true_iff in Hout. subst in_recession.
      apply IH. exact Hnd. }
    destruct (PrimFloat.eqb (md_value r) 0 && in_recession) eqn:Hclose.
    { apply andb_prop in Hclose. destruct Hclose as [_ ->].
      destruct recession_start as [start|].
      - cbn in Hnd |- *. inversion Hnd as [|? ? Hnotin Hnd1]. subst.
        inversion Hnd1 as [|? ? _ Hnd2]. subst.
        constructor; [|apply (IH false None); exact Hnd2].
        intros Hin. apply (lookups_from_starts records false None) in Hin.
        apply Hnotin. right. exact Hin.
      - cbn. apply NoDup_short. rewrite length_map.
        apply final_candidate_short. }
    apply IH. simpl in Hnd. apply NoDup_remove_1 in Hnd. exact Hnd.
Qed.

Lemma NoDup_map_filter {A B} (g : A -> B) (p : A -> bool) (l : list A) :
  NoDup (map g l) -> NoDup (map g (filter p l)).
Proof.
  induction l as [|x l IH]; simpl; intros H; [constructor|].
  inversion H as [|? ? Hnotin Hnd]; subst.
  destruct (p x); simpl; [|auto].
  constructor; [|auto]. intros Hin. apply Hnotin.
  apply in_map_iff in Hin. destruct Hin as (y & Hy & Hin).
  apply filter_In in Hin. rewrite <- Hy. apply in_map. tauto.
Qed.

(** Observations with pairwise distinct natural keys: the indicator has
    one observation per date. *)
Lemma usrec_records_distinct (t : Tables) :
  natural_key_unique t -> NoDup (map md_date (usrec_records t)).
Proof.
  unfold natural_key_unique, usrec_records. intros Huniq.
  apply (Permutation_NoDup
           (Permutation_sym
              (Permutation_map md_date (sort_by_date_perm _)))).
  apply (NoDup_map_filter md_key
           (fun r => String.eqb (md_series_id r) "USREC")) in Huniq.
  apply (NoDup_map_inv (fun d => (d, "USREC"))).
  rewrite map_map.
  erewrite map_ext_in; [exact Huniq|].
  intros r Hr. apply filter_In in Hr. destruct Hr as [_ Hs].
  apply String.eqb_eq in Hs. unfold md_key. rewrite Hs. reflexivity.
Qed.

Lemma added_starts (added : list RecessionPeriod) :
  map rp_start_date added
  = map (fun f => fst (fst f)) (map period_fields added).
Proof. rewrite map_map. reflexivity. Qed.

(** X13.  Start dates stay unique: when no two recorded intervals share
    a start date and no two observations share a natural key, the same
    holds of the intervals after a derivation run, returning or
    raising. *)
Theorem process_recession_indicators_unique_starts (w : World)
        (r : Result unit) (w' : World) :
  session_clean w ->
  natural_key_unique (committed w) ->
  NoDup (map rp_start_date (recession_periods (committed w))) ->
  process_recession_indicators utcnow_at db_fails w = (r, w') ->
  NoDup (map rp_start_date (recession_periods (committed w'))).
Proof.
  intros Hclean Hkeys Hstarts H. destruct r as [[]|e].
  - pose proof (process_recession_indicators_spec w (Ok tt) w' Hclean H)
      as (_ & _ & _ & _ & added0 & Hrp0 & Hun & _).
    apply process_recession_indicators_ok in H; [|exact Hclean].
    destruct H as (added & Hrp & Hfields).
    assert (added0 = added)
      by (rewrite Hrp0 in Hrp; apply app_inv_head in Hrp; exact Hrp).
    subst added0. rewrite Hrp, map_app.
    apply NoDup_app; [exact Hstarts | |].
    + rewrite added_starts, Hfields. apply NoDup_map_filter.
      apply (lookups_from_distinct (usrec_records (committed w)) false None).
      cbn. apply usrec_records_distinct. exact Hkeys.
    + intros start Hold Hnew.
      apply in_map_iff in Hnew. destruct Hnew as (p & <- & Hp).
      rewrite Forall_forall in Hun.
      exact (unrecorded_not_in _ p (Hun p Hp) Hold).
  - apply process_recession_indicators_raise in H. destruct H as [-> _].
    exact Hstarts.
Qed.

Lemma lookups_from_inside (records : list MarketData) (start : datetime) :
  exists f, In f (lookups_from records true (Some start))
            /\ fst (fst f) = start.
Proof.
  unfold lookups_from.
  induction records as [|r records IH]; simpl.
  - eexists. split; [left; reflexivity | reflexivity].
  - rewrite andb_false_r, andb_true_r.
    destruct (PrimFloat.eqb (md_value r) 0).
    + eexists. split; [left; reflexivity | reflexivity].
    + exact IH.
Qed.

(** After a returning run, the start of every derived period is
    recorded. *)
Lemma derived_period_recorded (w w' : World)
      (f : datetime * option datetime * string) :
  session_clean w ->
  process_recession_indicators utcnow_at db_fails w = (Ok tt, w') ->
  In f (derived_periods (usrec_records (committed w))) ->
  exists p, In p (recession_periods (committed w'))
            /\ rp_start_date p = fst (fst f).
Proof.
  intros Hclean H Hf.
  apply process_recession_indicators_ok in H; [|exact Hclean].
  destruct H as (added & Hrp & Hfields). rewrite Hrp.
  destruct (find (starts_at (fst (fst f)))
                 (recession_periods (committed w))) as [p|] eqn:Hfind.
  - apply find_some in Hfind. destruct Hfind as [Hp Hs].
    exists p. split; [apply in_or_app; left; exact Hp|].
    apply dt_eqb_eq. exact Hs.
  - assert (Hin : In f (map period_fields added)).
    { rewrite Hfields. apply filter_In. split; [exact Hf|].
      unfold is_unrecorded. rewrite Hfind. reflexivity. }
    apply in_map_iff in Hin. destruct Hin as (p & Hp & Hin).
    exists p. split; [apply in_or_app; right; exact Hin|].
    subst f. reflexivity.
Qed.

(** X14.  A history whose first observation already has value 1: after
    a returning run an interval that starts on that first date is
    recorded, found there or inserted. *)
Theorem process_recession_indicators_leading_one (w w' : World)
        (first : MarketData) (rest : list MarketData) :
  session_clean w ->
  usrec_records (committed w) = first :: rest ->
  PrimFloat.eqb (md_value first) 1%float = true ->
  process_recession_indicators utcnow_at db_fails w = (Ok tt, w') ->
  exists p, In p (recession_periods (committed w'))
            /\ rp_start_date p = md_date first.
Proof.
  intros Hclean Hrecords Hone H.
  destruct (lookups_from_inside rest (md_date first)) as (f & Hf & Hstart).
  rewrite <- Hstart.
  apply (derived_period_recorded w w' f Hclean H).
  rewrite Hrecords. unfold derived_periods. simpl. rewrite Hone. cbn.
  exact Hf.
Qed.

(** ** The names of recessions *)

(** X15.  The name depends on the year of the start alone, and the first
    entry of the table within a year of it wins: a start in 1979, 1980
    or 1981 is an "Early 1980s Recession", so that "1981-1982 Recession"
    names the starts of 1982 only; the other entries name the year before,
    their year and the year after; every other year gives the year
    followed by " Recession". *)
Theorem recession_name_by_year (start_date : datetime) :
  let y := year start_date in
  let name := _get_recession_name start_date in
  (1979 <= y <= 1981 -> name = "Early 1980s Recession")
  /\ (y = 1982 -> name = "1981-1982 Recession")
  /\ (1989 <= y <= 1991 -> name = "Early 1990s Recession")
  /\ (2000 <= y <= 2002 -> name = "Early 2000s Recession")
  /\ (2006 <= y <= 2008 -> name = "Great Recession")
  /\ (2019 <= y <= 2021 -> name = "COVID-19 Recession")
  /\ (y < 1979 \/ 1982 < y < 1989 \/ 1991 < y < 2000 \/ 2002 < y < 2006
      \/ 2008 < y < 2019 \/ 2021 < y ->
      name = String.append (str_of_int y) " Recession").
Proof.
  unfold _get_recession_name, recession_names. cbn [find fst].
  cbv zeta.
  repeat match goal with
         | |- context [Z.abs ?x <=? 1] =>
             destruct (Z.leb_spec (Z.abs x) 1)
         end;
    repeat split; intros; try reflexivity; exfalso; lia.
Qed.

(** ** The endpoints *)

Lemma add_period_total (start : datetime) (end_date : option datetime)
      (w : World) :
  db_fails (dbops w) = false ->
  exists w',
    add_period_unless_existing db_fails (Some start) end_date w = (Ok tt, w').
Proof.
  intros Hnf.
  unfold add_period_unless_existing, bind, query_recession_period_first,
    db_roundtrip, bind.
  rewrite Hnf. cbn.
  destruct (find _ _); eexists; reflexivity.
Qed.

Lemma recession_scan_total (records : list MarketData) :
  (forall n, db_fails n = false) ->
  forall in_recession recession_start w,
    (in_recession = true -> recession_start <> None) ->
    exists st w',
      recession_scan db_fails records in_recession recession_start w
      = (Ok st, w').
Proof.
  intros Hnf.
  induction records as [|r records IH];
    intros in_recession recession_start w Hinv.
  - eexists. eexists. reflexivity.
  - simpl.
    destruct (PrimFloat.eqb (md_value r) 1 && negb in_recession);
      [apply IH; discriminate|].
    destruct (PrimFloat.eqb (md_value r) 0 && in_recession) eqn:Hclose;
      [|apply IH; exact Hinv].
    apply andb_prop in Hclose. destruct Hclose as [_ Hin].
    destruct recession_start as [start|]; [|exfalso; exact (Hinv Hin eq_refl)].
    unfold bind.
    destruct (add_period_total start (Some (md_date r)) w (Hnf _))
      as [w1 ->].
    apply IH. discriminate.
Qed.

(** When the database answers, a derivation run returns. *)
Lemma process_recession_indicators_total (w : World) :
  (forall n, db_fails n = false) ->
  exists w', process_recession_indicators utcnow_at db_fails w = (Ok tt, w').
Proof.
  intros Hnf.
  unfold process_recession_indicators, try_except.
  unfold bind at 1. unfold query_recession_data.
  unfold bind at 1. unfold db_roundtrip. rewrite Hnf. cbn [fst snd].
  destruct (sort_by_date _) as [|rec recs]; [eexists; reflexivity|].
  unfold bind at 1.
  destruct (recession_scan_total (rec :: recs) Hnf false None
              (mkWorld (committed w) (loaded w) (sess_new w) (ticks w)
                       (S (dbops w)) (requests w)))
    as (st & w1 & ->); [discriminate|].
  unfold bind at 1.
  assert (Hadd : exists w2,
             (if fst st && is_some (snd st)
              then add_period_unless_existing db_fails (snd st) None
              else ret tt) w1 = (Ok tt, w2)).
  { destruct (fst st && is_some (snd st)) eqn:Hopen;
      [|eexists; reflexivity].
    destruct (snd st) as [start|];
      [|rewrite andb_false_r in Hopen; discriminate].
    apply add_period_total, Hnf. }
  destruct Hadd as [w2 ->].
  unfold db_commit. rewrite Hnf.
  destruct (flush _ _ _ _). eexists. reflexivity.
Qed.

Lemma new_session_clean (w : World) : session_clean (new_session w).
Proof. split; reflexivity. Qed.

Section Endpoints.

Variable str_of_http : Z -> string -> string.

(** X16.  The refresh endpoint when the start date parses and the
    database answers: it responds "success" whatever the client does,
    even when every fetch fails; its results hold exactly the configured
    keys, and the fetch log has one more row for each configured series,
    summing its attempt up. *)
Theorem refresh_market_data_succeeds (config : list (string * string))
        (start_date : string) (d : datetime) (w : World) :
  strptime start_date = Ok d ->
  (forall n, db_fails n = false) ->
  exists response w' added,
    refresh_market_data utcnow_at db_fails fred_get_series
      fred_get_series_info str_of_http config start_date w
    = (Respond response, w')
    /\ refresh_status response = "success"
    /\ (forall key, In key (map fst (refresh_results response))
                    <-> In key (map fst config))
    /\ data_fetch_log (committed w') = data_fetch_log (committed w) ++ added
    /\ map log_summary added
       = batch_summaries fred_get_series start_date
                         (List.length (requests w)) config.
Proof.
  intros Hd Hnf.
  unfold refresh_market_data, refresh_market_data_body.
  destruct (fetch_and_store_loop_summaries config start_date d Hd Hnf
              (new_session w) [] (new_session_clean w))
    as (results & w1 & added & Hrun & Hclean1 & Hlog & Hsums & Hkeys & _).
  unfold fetch_and_store_all_series. rewrite Hrun.
  destruct (process_recession_indicators_total w1 Hnf) as [w2 Hderive].
  rewrite Hderive.
  apply process_recession_indicators_spec in Hderive; [|exact Hclean1].
  destruct Hderive as (_ & _ & _ & Hlog2 & _).
  cbn. eexists. eexists. exists added. split; [reflexivity|]. cbn.
  split; [reflexivity|]. split.
  - intros key. rewrite Hkeys. simpl. tauto.
  - rewrite Hlog2, Hlog. auto.
Qed.

(** X17.  The refresh endpoint on an ASCII start date that [strptime]
    refuses, with a configuration that has a first series: the answer is
    status 500, not 400; the first series has been asked for, the
    derivation is not run, and neither the fetch log nor the recession
    periods change. *)
Theorem refresh_market_data_refused_start
        (series_key series_id : string) (rest : list (string * string))
        (start_date : string) (e0 : exn) (w : World) :
  is_ascii start_date = true ->
  strptime start_date = Raise e0 ->
  exists detail w',
    refresh_market_data utcnow_at db_fails fred_get_series
      fred_get_series_info str_of_http ((series_key, series_id) :: rest)
      start_date w
    = (Fail (HTTPException 500 detail), w')
    /\ data_fetch_log (committed w') = data_fetch_log (committed w)
    /\ recession_periods (committed w') = recession_periods (committed w)
    /\ requests w'
       = requests w ++ [GetSeriesInfo series_id;
                        GetSeries series_id start_date None].
Proof.
  intros _ Hbad.
  unfold refresh_market_data, refresh_market_data_body.
  destruct (fetch_and_store_first_attempt_refused series_key series_id rest
              start_date e0 (new_session w) (new_session_clean w) Hbad)
    as (w' & -> & Hlog & Hrp & Hreq & _).
  exists (exn_str e0), w'. cbn. auto.
Qed.

(** X18.  [get_series_data] when the dates parse, the database answers
    and no observation of the series is dated from the start to the end
    of the request (the end being the clock's reading when none is
    given): an unknown series, a range without observations, a range
    whose end is before its start.  The 404 the endpoint raises is caught
    by its own [except Exception], and the answer is status 500, whose
    detail is the text of that 404. *)
Theorem get_series_data_no_data (series_id start_date : string)
        (end_date : option string) (start end_ : datetime) (w : World) :
  strptime start_date = Ok start ->
  match truthy end_date with
  | Some s => strptime s = Ok end_
  | None => end_ = utcnow_at (ticks w)
  end ->
  db_fails (dbops w) = false ->
  (forall r, In r (market_data (committed w)) ->
             in_range series_id start end_ r = false) ->
  fst (get_series_data utcnow_at db_fails str_of_http series_id start_date
                       end_date w)
  = Fail (HTTPException 500
            (str_of_http 404
               (String.append "No data found for series " series_id))).
Proof.
  intros Hstart Hend Hnf Hnone.
  unfold get_series_data, get_series_data_body. rewrite Hstart.
  assert (Hfilter : filter (in_range series_id start end_)
                           (market_data (committed w)) = []).
  { apply filter_all_false, Forall_forall.
    intros r Hr. apply Hnone. exact Hr. }
  destruct (truthy end_date) as [s|].
  - rewrite Hend.
    unfold db_roundtrip. cbn. rewrite Hnf. cbn. rewrite Hfilter.
    reflexivity.
  - subst end_.
    unfold utcnow, db_roundtrip. cbn. rewrite Hnf. cbn. rewrite Hfilter.
    reflexivity.
Qed.

(** X19.  [get_series_data] on an ASCII start date that [strptime]
    refuses, or on a start date it accepts and an ASCII end date it
    refuses: the answer is status 400, its detail begins with
    "Invalid date format: ", and the database has not been asked. *)
Theorem get_series_data_bad_date (series_id start_date : string)
        (end_date : option string) (e : exn) (w : World) :
  (is_ascii start_date = true /\ strptime start_date = Raise e)
  \/ (exists start s,
        strptime start_date = Ok start /\ truthy end_date = Some s
        /\ is_ascii s = true /\ strptime s = Raise e) ->
  exists msg,
    get_series_data utcnow_at db_fails str_of_http series_id start_date
                    end_date w
    = (Fail (HTTPException 400
               (String.append "Invalid date format: " msg)),
       new_session w).
Proof.
  intros Hbad. unfold get_series_data, get_series_data_body.
  destruct Hbad as [[_ Hs]|(start & s & Hs & Ht & _ & He)].
  - destruct (strptime_value_error _ _ Hs) as [msg ->].
    exists msg. rewrite Hs. auto.
  - destruct (strptime_value_error _ _ He) as [msg ->].
    exists msg. rewrite Hs, Ht, He. auto.
Qed.

(** X20.  Whatever its arguments, the database and the clock,
    [get_series_data] answers with the series or with status 400 or 500:
    no 404 and no other exception leaves it. *)
Theorem get_series_data_statuses (series_id start_date : string)
        (end_date : option string) (w : World) :
  match fst (get_series_data utcnow_at db_fails str_of_http series_id
                             start_date end_date w) with
  | Respond _ => True
  | Fail (HTTPException status_code _) =>
      status_code = 400 \/ status_code = 500
  | Fail (Inner _) => False
  end.
Proof.
  unfold get_series_data.
  destruct (get_series_data_body utcnow_at db_fails series_id start_date
              end_date (new_session w)) as [[a|e] w']; cbn; [exact I|].
  destruct e as [[| | | |]|]; cbn; auto.
Qed.

Lemma dt_leb_refl (a : datetime) : dt_leb a a = true.
Proof. apply dt_leb_spec. unfold dt_lex_le. lia. Qed.

Lemma last_nonempty {A} (x : A) (l : list A) (d d' : A) :
  last (x :: l) d = last (x :: l) d'.
Proof.
  revert x. induction l as [|y l IH]; intros x; [reflexivity|].
  change (last (y :: l) d = last (y :: l) d'). apply IH.
Qed.

Lemma sorted_first_last (first : MarketData) (rest : list MarketData) :
  StronglySorted date_ordered (first :: rest) ->
  Forall (fun r => date_ordered first r
                   /\ date_ordered r (last (first :: rest) first))
         (first :: rest).
Proof.
  revert first. induction rest as [|x rest IH]; intros first Hs.
  - constructor; [|constructor]. split; apply dt_leb_refl.
  - inversion Hs as [|? ? Hs' Hall]; subst.
    specialize (IH x Hs').
    change (last (first :: x :: rest) first) with (last (x :: rest) first).
    rewrite (last_nonempty x rest first x).
    inversion IH as [|? ? [_ Hxl] _]; subst.
    constructor.
    + split; [apply dt_leb_refl|].
      inversion Hall as [|? ? Hfx _]; subst.
      unfold date_ordered in *. eapply dt_leb_trans; eauto.
    + rewrite Forall_forall. intros y Hy.
      rewrite Forall_forall in IH, Hall.
      split; [apply Hall; exact Hy | apply (IH y Hy)].
Qed.


Lemma sorted_points (records : list MarketData) :
  StronglySorted date_ordered records ->
  StronglySorted point_ordered (map point_of records).
Proof.
  induction 1 as [|r records Hs IH Hall]; simpl; constructor;
    [exact IH|].
  rewrite Forall_forall. intros pt Hpt.
  apply in_map_iff in Hpt. destruct Hpt as (r' & <- & Hr').
  rewrite Forall_forall in Hall. exact (Hall r' Hr').
Qed.

Lemma series_response_respond (series_id : string)
      (records : list MarketData) (response : SeriesData) :
  series_response series_id records = Respond response ->
  exists first rest,
    records = first :: rest
    /\ response
       = mkSeriesData series_id (md_series_name first)
           (map point_of records) (md_date first)
           (md_date (last records first))
           (Z.of_nat (List.length (map point_of records))).
Proof.
  destruct records as [|first rest]; [discriminate|].
  intros H. exists first, rest. split; [reflexivity|].
  injection H as <-. reflexivity.
Qed.

Lemma get_series_data_respond (series_id start_date : string)
      (end_date : option string) (w : World) (response : SeriesData)
      (w' : World) :
  get_series_data utcnow_at db_fails str_of_http series_id start_date
                  end_date w
  = (Respond response, w') ->
  exists start end_,
    strptime start_date = Ok start
    /\ match truthy end_date with
       | Some s => strptime s = Ok end_
       | None => end_ = utcnow_at (ticks w)
       end
    /\ series_response series_id
         (sort_by_date (filter (in_range series_id start end_)
                               (market_data (committed w))))
       = Respond response.
Proof.
  unfold get_series_data, get_series_data_body.
  destruct (strptime start_date) as [start|e]; [|discriminate].
  intros H. exists start.
  destruct (truthy end_date) as [s|].
  - destruct (strptime s) as [end_|e]; [|discriminate].
    exists end_. split; [reflexivity|]. split; [reflexivity|].
    unfold db_roundtrip in H. cbn in H.
    destruct (db_fails (dbops w)); [discriminate|]. cbn in H.
    destruct (series_response series_id _); [|discriminate].
    injection H as -> _. reflexivity.
  - exists (utcnow_at (ticks w)). split; [reflexivity|].
    split; [reflexivity|].
    unfold utcnow, db_roundtrip in H. cbn in H.
    destruct (db_fails (dbops w)); [discriminate|]. cbn in H.
    destruct (series_response series_id _); [|discriminate].
    injection H as -> _. reflexivity.
Qed.

Lemma last_map {A B} (f : A -> B) (l : list A) (d : A) :
  last (map f l) (f d) = f (last l d).
Proof.
  induction l as [|x l IH]; [reflexivity|].
  destruct l as [|y l]; [reflexivity|]. exact IH.
Qed.

(** X21.  What [get_series_data] serves when it answers: the points are
    the observations of the series whose date lies between the start and
    the end of the request, the end being the clock's reading when none
    is given; every such observation is served; the points come in date
    order and are counted by [total_points]; there is a first point, and
    the start and end dates of the answer are the dates of the first and
    of the last point, which bracket all of them; the answer names the
    series asked for, with the name of the observation served first. *)
Theorem get_series_data_serves (series_id start_date : string)
        (end_date : option string) (w : World) (response : SeriesData)
        (w' : World) :
  get_series_data utcnow_at db_fails str_of_http series_id start_date
                  end_date w
  = (Respond response, w') ->
  exists start end_,
    strptime start_date = Ok start
    /\ match truthy end_date with
       | Some s => strptime s = Ok end_
       | None => end_ = utcnow_at (ticks w)
       end
    /\ (forall pt,
          In pt (sd_data response)
          <-> exists r, In r (market_data (committed w))
                        /\ md_series_id r = series_id
                        /\ dt_leb start (md_date r) = true
                        /\ dt_leb (md_date r) end_ = true
                        /\ pt = point_of r)
    /\ StronglySorted point_ordered (sd_data response)
    /\ sd_total_points response = Z.of_nat (List.length (sd_data response))
    /\ sd_data response <> []
    /\ Forall (fun pt =>
                 dt_leb (sd_start_date response) (point_date pt) = true
                 /\ dt_leb (point_date pt) (sd_end_date response) = true)
              (sd_data response)
    /\ sd_series_id response = series_id
    /\ exists first_point other_points first_record,
         sd_data response = first_point :: other_points
         /\ sd_start_date response = point_date first_point
         /\ sd_end_date response
            = point_date (last (sd_data response) first_point)
         /\ In first_record (market_data (committed w))
         /\ md_series_id first_record = series_id
         /\ point_of first_record = first_point
         /\ sd_series_name response = md_series_name first_record.
Proof.
  intros H.
  destruct (get_series_data_respond series_id start_date end_date w
              response w' H) as (start & end_ & Hstart & Hend & Hresp).
  exists start, end_. split; [exact Hstart|]. split; [exact Hend|].
  pose proof (sort_by_date_sorted
                (filter (in_range series_id start end_)
                        (market_data (committed w)))) as Hsorted.
  pose proof (sort_by_date_perm
                (filter (in_range series_id start end_)
                        (market_data (committed w)))) as Hperm.
  apply series_response_respond in Hresp.
  destruct Hresp as (first & rest & Hrecords & ->).
  rewrite Hrecords in Hsorted, Hperm.
  cbn [sd_data sd_total_points sd_start_date sd_end_date sd_series_id
       sd_series_name].
  rewrite Hrecords.
  assert (Hserved : forall r,
             In r (first :: rest)
             <-> In r (market_data (committed w))
                 /\ md_series_id r = series_id
                 /\ dt_leb start (md_date r) = true
                 /\ dt_leb (md_date r) end_ = true).
  { intros r. split.
    - intros Hr.
      apply (Permutation_in _ Hperm) in Hr. apply filter_In in Hr.
      destruct Hr as [Hr Hrange]. unfold in_range in Hrange.
      apply andb_prop in Hrange. destruct Hrange as [Hrange Hle].
      apply andb_prop in Hrange. destruct Hrange as [Hs Hge].
      apply String.eqb_eq in Hs. auto.
    - intros (Hr & Hs & Hge & Hle).
      apply (Permutation_in _ (Permutation_sym Hperm)).
      apply filter_In. split; [exact Hr|]. unfold in_range.
      rewrite Hge, Hle, andb_true_r, andb_true_r.
      apply String.eqb_eq. exact Hs. }
  split; [|split; [apply sorted_points; exact Hsorted|]].
  - intros pt. rewrite in_map_iff. split.
    + intros (r & <- & Hr). apply Hserved in Hr.
      destruct Hr as (Hr & Hs & Hge & Hle). exists r. auto.
    + intros (r & Hr & Hs & Hge & Hle & ->). exists r.
      split; [reflexivity|]. apply Hserved. auto.
  - split; [reflexivity|]. split; [discriminate|].
    split.
    { apply sorted_first_last in Hsorted.
      rewrite Forall_forall in Hsorted |- *.
      intros pt Hpt. apply in_map_iff in Hpt.
      destruct Hpt as (r & <- & Hr). exact (Hsorted r Hr). }
    split; [reflexivity|].
    exists (point_of first), (map point_of rest), first.
    split; [reflexivity|]. split; [reflexivity|].
    split.
    { change (point_of first :: map point_of rest)
        with (map point_of (first :: rest)).
      rewrite last_map. reflexivity. }
    assert (Hfirst : In first (first :: rest)) by (left; reflexivity).
    apply Hserved in Hfirst. destruct Hfirst as (Hr & Hs & _).
    auto.
Qed.

Lemma insert_by_start_perm (p : RecessionPeriod)
      (rows : list RecessionPeriod) :
  Permutation (insert_by_start p rows) (p :: rows).
Proof.
  induction rows as [|x rows IH]; simpl; [reflexivity|].
  destruct (dt_ltb (rp_start_date x) (rp_start_date p)); [|reflexivity].
  rewrite IH. apply perm_swap.
Qed.

Lemma sort_by_start_perm (rows : list RecessionPeriod) :
  Permutation (sort_by_start rows) rows.
Proof.
  induction rows as [|p rows IH]; simpl; [reflexivity|].
  rewrite insert_by_start_perm. apply perm_skip. exact IH.
Qed.

Lemma insert_by_start_sorted (p : RecessionPeriod)
      (rows : list RecessionPeriod) :
  StronglySorted start_ordered rows ->
  StronglySorted start_ordered (insert_by_start p rows).
Proof.
  induction 1 as [|x rows Hs IH Hall]; simpl.
  - constructor; constructor.
  - destruct (dt_ltb (rp_start_date x) (rp_start_date p)) eqn:Hlt.
    + constructor; [exact IH|].
      rewrite (Forall_forall (start_ordered x)).
      intros y Hy.
      apply (Permutation_in _ (insert_by_start_perm p rows)) in Hy.
      destruct Hy as [<-|Hy].
      * apply dt_ltb_leb. exact Hlt.
      * rewrite Forall_forall in Hall. auto.
    + assert (Hpx : start_ordered p x)
        by (apply dt_leb_spec, dt_ltb_spec; exact Hlt).
      constructor; [constructor; assumption|].
      constructor; [exact Hpx|].
      eapply Forall_impl; [|exact Hall]. intros y Hy.
      unfold start_ordered in *. eapply dt_leb_trans; eauto.
Qed.

Lemma sort_by_start_sorted (rows : list RecessionPeriod) :
  StronglySorted start_ordered (sort_by_start rows).
Proof.
  induction rows as [|p rows IH]; simpl; [constructor|].
  apply insert_by_start_sorted. exact IH.
Qed.

Lemma get_recession_periods_respond (start_date end_date : option string)
      (w w' : World) (periods : list RecessionPeriod) :
  get_recession_periods db_fails str_of_http start_date end_date w
  = (Respond periods, w') ->
  exists keep_start keep_end,
    match truthy start_date with
    | Some s => exists start, strptime s = Ok start
                              /\ keep_start = ends_from start
    | None => keep_start = fun _ => true
    end
    /\ match truthy end_date with
       | Some s => exists end_,
                     strptime s = Ok end_
                     /\ keep_end = fun p => dt_leb (rp_start_date p) end_
       | None => keep_end = fun _ => true
       end
    /\ periods
       = sort_by_start
           (filter keep_end
              (filter keep_start (recession_periods (committed w))))
    /\ committed w' = committed w.
Proof.
  unfold get_recession_periods, get_recession_periods_body.
  destruct (truthy start_date) as [s|];
    [destruct (strptime s) as [start|e]; [|discriminate]|];
    (destruct (truthy end_date) as [s'|];
     [destruct (strptime s') as [end_|e']; [|discriminate]|]);
    unfold db_roundtrip; cbn;
    (destruct (db_fails (dbops w)); [discriminate|]); cbn;
    intros H; injection H as <- <-; cbn.
  - exists (ends_from start), (fun p => dt_leb (rp_start_date p) end_).
    split; [exists start; auto|]. split; [exists end_; auto|]. auto.
  - exists (ends_from start), (fun _ => true).
    split; [exists start; auto|]. auto.
  - exists (fun _ => true), (fun p => dt_leb (rp_start_date p) end_).
    split; [reflexivity|]. split; [exists end_; auto|]. auto.
  - exists (fun _ => true), (fun _ => true). auto.
Qed.

(** X22.  What [get_recession_periods] serves when it answers: exactly
    the recorded intervals that pass the filters given, in the order of
    their start dates.  An interval passes the start filter when it is
    open or ends on the start date or later, and the end filter when it
    starts on the end date or earlier; a filter that is absent or the
    empty string lets every interval pass.  The database is left as it
    was. *)
Theorem get_recession_periods_serves (start_date end_date : option string)
        (w w' : World) (periods : list RecessionPeriod) :
  get_recession_periods db_fails str_of_http start_date end_date w
  = (Respond periods, w') ->
  (forall p, In p periods
     <-> In p (recession_periods (committed w))
         /\ (forall s, truthy start_date = Some s ->
               exists start, strptime s = Ok start
                             /\ ends_on_or_after start p)
         /\ (forall s, truthy end_date = Some s ->
               exists end_, strptime s = Ok end_
                            /\ dt_leb (rp_start_date p) end_ = true))
  /\ StronglySorted start_ordered periods
  /\ committed w' = committed w.
Proof.
  intros H. apply get_recession_periods_respond in H.
  destruct H as (keep_start & keep_end & Hstart & Hend & -> & Hw).
  split; [|split; [apply sort_by_start_sorted|exact Hw]].
  intros p.
  assert (Hin : In p (sort_by_start
                        (filter keep_end
                           (filter keep_start
                              (recession_periods (committed w)))))
                <-> In p (recession_periods (committed w))
                    /\ keep_start p = true /\ keep_end p = true).
  { split.
    - intros Hp. apply (Permutation_in _ (sort_by_start_perm _)) in Hp.
      apply filter_In in Hp. destruct Hp as [Hp Hke].
      apply filter_In in Hp. destruct Hp as [Hp Hks]. auto.
    - intros (Hp & Hks & Hke).
      apply (Permutation_in _ (Permutation_sym (sort_by_start_perm _))).
      apply filter_In. split; [|exact Hke].
      apply filter_In. split; assumption. }
  rewrite Hin. clear Hin.
  assert (Hs : keep_start p = true
               <-> forall s, truthy start_date = Some s ->
                     exists start, strptime s = Ok start
                                   /\ ends_on_or_after start p).
  { destruct (truthy start_date) as [s|].
    - destruct Hstart as (start & Hparse & ->). split.
      + intros Hk s0 Hs0. injection Hs0 as <-. exists start.
        split; [exact Hparse|].
        unfold ends_from in Hk. unfold ends_on_or_after.
        destruct (rp_end_date p); [exact Hk|exact I].
      + intros Hall. destruct (Hall s eq_refl) as (start0 & Hparse0 & Hk).
        rewrite Hparse in Hparse0. injection Hparse0 as <-.
        unfold ends_from. unfold ends_on_or_after in Hk.
        destruct (rp_end_date p); [exact Hk|reflexivity].
    - subst keep_start. split; [discriminate|reflexivity]. }
  assert (He : keep_end p = true
               <-> forall s, truthy end_date = Some s ->
                     exists end_, strptime s = Ok end_
                                  /\ dt_leb (rp_start_date p) end_ = true).
  { destruct (truthy end_date) as [s|].
    - destruct Hend as (end_ & Hparse & ->). split.
      + intros Hk s0 Hs0. injection Hs0 as <-. exists end_. auto.
      + intros Hall. destruct (Hall s eq_refl) as (end0 & Hparse0 & Hk).
        rewrite Hparse in Hparse0. injection Hparse0 as <-. exact Hk.
    - subst keep_end. split; [discriminate|reflexivity]. }
  rewrite Hs, He. reflexivity.
Qed.

(** X23.  [get_recession_periods] on an ASCII filter that is given and
    that [strptime] refuses (the start filter, or the end filter after an
    absent or accepted start filter): the answer is status 400, its
    detail begins with "Invalid date format: ", and the database has not
    been asked. *)
Theorem get_recession_periods_bad_date (start_date end_date : option string)
        (e : exn) (w : World) :
  (exists s, truthy start_date = Some s /\ is_ascii s = true
             /\ strptime s = Raise e)
  \/ ((forall s, truthy start_date = Some s -> exists start,
         strptime s = Ok start)
      /\ exists s, truthy end_date = Some s /\ is_ascii s = true
                   /\ strptime s = Raise e) ->
  exists msg,
    get_recession_periods db_fails str_of_http start_date end_date w
    = (Fail (HTTPException 400
               (String.append "Invalid date format: " msg)),
       new_session w).
Proof.
  intros Hbad. unfold get_recession_periods, get_recession_periods_body.
  destruct Hbad as [(s & Ht & _ & Hs)|(Hstart & s & Ht & _ & Hs)].
  - destruct (strptime_value_error _ _ Hs) as [msg ->].
    exists msg. rewrite Ht, Hs. auto.
  - destruct (strptime_value_error _ _ Hs) as [msg ->].
    exists msg. rewrite Ht, Hs.
    destruct (truthy start_date) as [s0|]; [|auto].
    destruct (Hstart s0 eq_refl) as [start ->]. auto.
Qed.

End Endpoints.

End Properties.

(** * The properties on the concrete runs *)

Import Runs.

(** Storing the three-date indicator twice. *)
Lemma store_series_data_idempotent_witness :
  session_clean initial_world
  /\ well_formed_series usrec3
  /\ map md_triple (market_data (committed (store "USREC" usrec3 w_stored3)))
     = map md_triple (market_data (committed w_stored3)).
Proof.
  assert (Hclean : session_clean initial_world) by clean_session.
  assert (Hwf : well_formed_series usrec3) by distinct_dates.
  split; [exact Hclean|]. split; [exact Hwf|].
  apply (store_series_data_idempotent clock db_up "USREC" "USREC" usrec3
           initial_world 3 w_stored3 (Ok 3) (store "USREC" usrec3 w_stored3)
           Hclean Hwf);
    vm_compute; reflexivity.
Defined.

(** The second round trip of a store call fails. *)
Lemma store_series_data_atomic_witness :
  (1 <= count_valid usrec3)%nat
  /\ db_down_at 1 (dbops initial_world + 1)%nat = true
  /\ exists w',
       store_series_data clock (db_down_at 1) "USREC" "USREC" usrec3
                         initial_world
       = (Raise DatabaseError, w')
       /\ committed w' = committed initial_world
       /\ market_data (loaded w') = market_data (committed initial_world)
       /\ session_clean w'.
Proof.
  assert (Hk : (1 <= count_valid usrec3)%nat) by (vm_compute; lia).
  assert (Hf : db_down_at 1 (dbops initial_world + 1)%nat = true)
    by reflexivity.
  split; [exact Hk|]. split; [exact Hf|].
  exact (store_series_data_atomic clock (db_down_at 1) "USREC" "USREC" usrec3
           initial_world 1 Hk Hf).
Defined.

(** The sentinel on the second date, where a row exists. *)
Lemma store_series_data_skips_missing_witness :
  session_clean w_stored3
  /\ In (d 2, PrimFloat.nan) with_missing
  /\ (forall v, In (d 2, v) with_missing -> isna v = true)
  /\ filter (key_is (d 2) "USREC")
            (market_data (committed (store "USREC" with_missing w_stored3)))
     = filter (key_is (d 2) "USREC") (market_data (committed w_stored3)).
Proof.
  assert (Hclean : session_clean w_stored3) by clean_session.
  assert (Hin : In (d 2, PrimFloat.nan) with_missing)
    by (right; left; reflexivity).
  assert (Hna : forall v, In (d 2, v) with_missing -> isna v = true).
  { intros v [H|[H|[H|[]]]]; try discriminate H.
    injection H as <-. reflexivity. }
  split; [exact Hclean|]. split; [exact Hin|]. split; [exact Hna|].
  apply (store_series_data_skips_missing clock db_up "USREC" "USREC"
           with_missing (d 2) PrimFloat.nan w_stored3 (Ok 2)
           (store "USREC" with_missing w_stored3) Hclean Hin Hna).
  vm_compute. reflexivity.
Defined.


(** The seven-date example on the first seven months of 2020. *)
Lemma process_recession_indicators_example_witness :
  session_clean w_stored7
  /\ recession_periods (committed w_stored7) = []
  /\ indicator_history (committed w_stored7) = usrec7
  /\ exists w' p,
       process_recession_indicators clock db_up w_stored7 = (Ok tt, w')
       /\ recession_periods (committed w') = [p]
       /\ rp_start_date p = d 3
       /\ rp_end_date p = Some (d 6).
Proof.
  assert (Hclean : session_clean w_stored7) by clean_session.
  assert (Hrp : recession_periods (committed w_stored7) = [])
    by (vm_compute; reflexivity).
  assert (Hobs : indicator_history (committed w_stored7) = usrec7)
    by (vm_compute; reflexivity).
  split; [exact Hclean|]. split; [exact Hrp|]. split; [exact Hobs|].
  apply (process_recession_indicators_example clock db_up
           (d 1) (d 2) (d 3) (d 4) (d 5) (d 6) (d 7) w_stored7 Hclean Hrp Hobs).
  intros k _. reflexivity.
Defined.

(** The run over the history refreshed to four dates. *)
Lemma process_recession_indicators_frame_witness :
  session_clean w_stored4
  /\ exists added,
       recession_periods (committed w_derived4)
       = recession_periods (committed w_stored4) ++ added
       /\ Forall (fun p => ~ In (rp_start_date p)
                                (map rp_start_date
                                     (recession_periods (committed w_stored4))))
                 added.
Proof.
  assert (Hclean : session_clean w_stored4) by clean_session.
  split; [exact Hclean|].
  apply (process_recession_indicators_frame clock db_up w_stored4 (Ok tt)
           w_derived4 Hclean).
  vm_compute. reflexivity.
Defined.

Lemma process_recession_indicators_keeps_open_witness :
  session_clean w_stored4
  /\ In open_since_february (recession_periods (committed w_stored4))
  /\ rp_end_date open_since_february = None
  /\ In open_since_february (recession_periods (committed w_derived4))
  /\ filter (starts_at (d 2)) (recession_periods (committed w_derived4))
     = filter (starts_at (d 2)) (recession_periods (committed w_stored4)).
Proof.
  assert (Hclean : session_clean w_stored4) by clean_session.
  assert (Hin : In open_since_february
                   (recession_periods (committed w_stored4)))
    by (vm_compute; left; reflexivity).
  assert (Hopen : rp_end_date open_since_february = None) by reflexivity.
  split; [exact Hclean|]. split; [exact Hin|]. split; [exact Hopen|].
  apply (process_recession_indicators_keeps_open clock db_up w_stored4
           open_since_february (Ok tt) w_derived4 Hclean Hin Hopen).
  vm_compute. reflexivity.
Defined.

Lemma process_recession_indicators_open_count_witness :
  session_clean w_stored5
  /\ (count_open (committed w_stored5) <= count_open (committed w_derived5)
      <= count_open (committed w_stored5) + 1)%nat.
Proof.
  assert (Hclean : session_clean w_stored5) by clean_session.
  split; [exact Hclean|].
  apply (process_recession_indicators_open_count clock db_up w_stored5
           (Ok tt) w_derived5 Hclean).
  vm_compute. reflexivity.
Defined.

(** C1 at the histories of the specification.  The first run records
    the interval opened on 1 February; the history is refreshed and closes
    it on 1 April; the second run reaches the closing transition, finds
    the recorded row by its start date and adds nothing: the row is left
    open and no row runs from 1 February to 1 April.  The same four
    observations in a database that has seen no run give that closed
    interval. *)
Lemma rederivation_does_not_close :
  map period_span (recession_periods (committed w_derived3))
  = [(d 2, None)]
  /\ indicator_history (committed w_stored4)
     = [(d 1, 0); (d 2, 1); (d 3, 1); (d 4, 0)]%float
  /\ process_recession_indicators clock db_up w_stored4 = (Ok tt, w_derived4)
  /\ map period_span (recession_periods (committed w_derived4))
     = [(d 2, None)]
  /\ ~ In (d 2, Some (d 4))
          (map period_span (recession_periods (committed w_derived4)))
  /\ indicator_history (committed w_fresh4)
     = indicator_history (committed w_stored4)
  /\ map period_span (recession_periods (committed (derive w_fresh4)))
     = [(d 2, Some (d 4))].
Proof.
  split; [vm_compute; reflexivity|].
  split; [vm_compute; reflexivity|].
  split; [vm_compute; reflexivity|].
  split; [vm_compute; reflexivity|].
  split; [vm_compute; intros [H|[]]; discriminate|].
  split; vm_compute; reflexivity.
Qed.

(** C2 from the empty database.  The indicator is stored on three dates
    and the first run records the interval opened on 1 February; the
    history is refreshed to five dates, where the indicator is off on
    1 April and on again on 1 May; the second run does not close the
    recorded interval and inserts a second open one: two rows have a null
    end date. *)
Lemma two_open_intervals :
  w_derived5
  = derive (store "USREC" usrec5 (derive (store "USREC" usrec3 initial_world)))
  /\ map period_span (recession_periods (committed w_derived5))
     = [(d 2, None); (d 5, None)]
  /\ count_open (committed w_derived5) = 2%nat
  /\ ~ (count_open (committed w_derived5) <= 1)%nat.
Proof.
  split; [vm_compute; reflexivity|].
  split; [vm_compute; reflexivity|].
  split; [vm_compute; reflexivity|].
  vm_compute. lia.
Qed.

(** C9, the claim as stated.  A range that ends a year before it starts,
    and one that is no date at all: each is sent to the client, and the
    call returns what the client answers. *)
Lemma inverted_range_is_fetched :
  strptime "2021-06-01" = Ok (mkDatetime 2021 6 1 0)
  /\ strptime "2020-06-01" = Ok (mkDatetime 2020 6 1 0)
  /\ dt_ltb (mkDatetime 2020 6 1 0) (mkDatetime 2021 6 1 0) = true
  /\ fetch_series_data fred_series_ok "GDP" "2021-06-01" (Some "2020-06-01")
                       initial_world
     = (Ok [(d 1, 1%float); (d 2, 2%float)],
        log_request (GetSeries "GDP" "2021-06-01" (Some "2020-06-01"))
                    initial_world)
  /\ fetch_series_data fred_series_ok "GDP" "yesterday" None initial_world
     = (Ok [(d 1, 1%float); (d 2, 2%float)],
        log_request (GetSeries "GDP" "yesterday" None) initial_world).
Proof. repeat split. Qed.

(** C8 at a start date written with slashes.  The first configured series
    is fetched and stored; building its log row fails, in the handler
    too, and the batch raises: the fetch log stays empty and the ten
    other series are never asked for. *)
Lemma fetch_and_store_all_series_aborts :
  let run := fetch_and_store_all_series clock db_up fred_series_ok
               fred_info_ok fred_series "1980/01/01" initial_world in
  fst run
  = Raise (ValueError
             "time data '1980/01/01' does not match format '%Y-%m-%d'")
  /\ data_fetch_log (committed (snd run)) = []
  /\ requests (snd run)
     = [GetSeriesInfo "DRBLACBS"; GetSeries "DRBLACBS" "1980/01/01" None]
  /\ map md_triple (market_data (committed (snd run)))
     = [(d 1, "DRBLACBS", 1%float); (d 2, "DRBLACBS", 2%float)].
Proof.
  vm_compute. split; [reflexivity|]. split; [reflexivity|].
  split; reflexivity.
Qed.

(** Outside the fetched series: a series that lists 1 January twice,
    with 1 and with 2, which no fetch returns.  The lookups of the first
    call do not see the pending rows, so it inserts both pairs; the
    second call assigns both values in turn to the first row. *)
Lemma repeated_date_not_idempotent :
  store_series_data clock db_up "GDP" "GDP" repeated initial_world
  = (Ok 2, w_repeated)
  /\ map md_triple (market_data (committed w_repeated))
     = [(d 1, "GDP", 1%float); (d 1, "GDP", 2%float)]
  /\ map md_triple
         (market_data (committed (store "GDP" repeated w_repeated)))
     = [(d 1, "GDP", 2%float); (d 1, "GDP", 2%float)]
  /\ ~ (forall t,
          In t (map md_triple
                  (market_data (committed (store "GDP" repeated w_repeated))))
          <-> In t (map md_triple (market_data (committed w_repeated)))).
Proof.
  split; [vm_compute; reflexivity|].
  split; [vm_compute; reflexivity|].
  split; [vm_compute; reflexivity|].
  intros H. specialize (H (d 1, "GDP", 1%float)).
  assert (Hin : In (d 1, "GDP", 1%float)
                   (map md_triple (market_data (committed w_repeated))))
    by (vm_compute; left; reflexivity).
  apply H in Hin. vm_compute in Hin.
  destruct Hin as [E|[E|[]]]; discriminate E.
Qed.

(** The same series stored into the empty database leaves two rows under
    the key (1 January, GDP). *)
Lemma repeated_date_shares_key :
  session_clean initial_world
  /\ natural_key_unique (committed initial_world)
  /\ map md_key (market_data (committed w_repeated))
     = [(d 1, "GDP"); (d 1, "GDP")]
  /\ ~ natural_key_unique (committed w_repeated).
Proof.
  split; [clean_session|]. split; [constructor|].
  split; [vm_compute; reflexivity|].
  unfold natural_key_unique.
  replace (map md_key (market_data (committed w_repeated)))
    with [(d 1, "GDP"); (d 1, "GDP")] by (vm_compute; reflexivity).
  intros H. inversion H as [|? ? Hnotin _]. apply Hnotin. left. reflexivity.
Qed.

(** * The further properties on the concrete runs *)

(** The series with the sentinel on its second date, stored into the
    empty database: two pairs carry a value. *)
Lemma store_series_data_returns_count_witness :
  (forall k, (k <= count_valid with_missing)%nat ->
             db_up (dbops initial_world + k)%nat = false)
  /\ exists w',
       store_series_data clock db_up "USREC" "USREC" with_missing
                         initial_world
       = (Ok 2, w').
Proof.
  assert (Hup : forall k, (k <= count_valid with_missing)%nat ->
                          db_up (dbops initial_world + k)%nat = false)
    by (intros k _; reflexivity).
  split; [exact Hup|].
  exact (store_series_data_returns_count clock db_up "USREC" "USREC"
           with_missing initial_world Hup).
Defined.

(** Another series stored beside the indicator. *)
Lemma store_series_data_frame_witness :
  session_clean w_stored3
  /\ filter (other_series "GDP")
            (market_data (committed (store "GDP" usrec3 w_stored3)))
     = filter (other_series "GDP") (market_data (committed w_stored3))
  /\ recession_periods (committed (store "GDP" usrec3 w_stored3))
     = recession_periods (committed w_stored3)
  /\ data_fetch_log (committed (store "GDP" usrec3 w_stored3))
     = data_fetch_log (committed w_stored3)
  /\ requests (store "GDP" usrec3 w_stored3) = requests w_stored3.
Proof.
  assert (Hclean : session_clean w_stored3) by clean_session.
  split; [exact Hclean|].
  apply (store_series_data_frame clock db_up "GDP" "GDP" usrec3 w_stored3
           (Ok 3) (store "GDP" usrec3 w_stored3) Hclean).
  vm_compute. reflexivity.
Defined.

(** The indicator refreshed to five dates and looked up on the fifth. *)
Lemma store_series_data_then_lookup_witness :
  session_clean w_derived3
  /\ well_formed_series usrec5
  /\ In (d 5, 1%float) usrec5
  /\ exists row,
       find (key_is (d 5) "USREC") (market_data (committed w_stored5))
       = Some row
       /\ md_date row = d 5 /\ md_series_id row = "USREC"
       /\ md_value row = 1%float.
Proof.
  assert (Hclean : session_clean w_derived3) by clean_session.
  assert (Hwf : well_formed_series usrec5) by distinct_dates.
  assert (Hin : In (d 5, 1%float) usrec5)
    by (do 4 right; left; reflexivity).
  split; [exact Hclean|]. split; [exact Hwf|]. split; [exact Hin|].
  apply (store_series_data_then_lookup clock db_up "USREC" "USREC" usrec5
           w_derived3 5 w_stored5 (d 5) 1%float Hclean Hwf);
    [vm_compute; reflexivity | exact Hin | reflexivity].
Defined.

(** The refresh to four dates: three rows are kept, one is inserted. *)
Lemma store_series_data_in_place_witness :
  session_clean w_derived3
  /\ exists kept added,
       market_data (committed w_stored4) = kept ++ added
       /\ map md_key kept = map md_key (market_data (committed w_derived3))
       /\ map md_static kept
          = map md_static (market_data (committed w_derived3))
       /\ Forall (fun r => md_series_id r = "USREC"
                           /\ md_series_name r = "USREC") added.
Proof.
  assert (Hclean : session_clean w_derived3) by clean_session.
  split; [exact Hclean|].
  apply (store_series_data_in_place clock db_up "USREC" "USREC" usrec4
           w_derived3 4 w_stored4 Hclean).
  vm_compute. reflexivity.
Defined.

(** A series of one sentinel. *)
Lemma store_series_data_nothing_to_store_witness :
  session_clean w_stored3
  /\ count_valid all_missing = 0%nat
  /\ exists w',
       store_series_data clock db_up "USREC" "USREC" all_missing w_stored3
       = (Ok 0, w')
       /\ committed w' = committed w_stored3
       /\ dbops w' = S (dbops w_stored3).
Proof.
  assert (Hclean : session_clean w_stored3) by clean_session.
  assert (Hnone : count_valid all_missing = 0%nat) by reflexivity.
  split; [exact Hclean|]. split; [exact Hnone|].
  apply (store_series_data_nothing_to_store clock db_up "USREC" "USREC"
           all_missing w_stored3 Hclean Hnone).
  reflexivity.
Defined.

(** A batch of two series from the empty database. *)
Lemma fetch_and_store_all_series_summaries_witness :
  session_clean initial_world
  /\ strptime "2020-01-01" = Ok (d 1)
  /\ exists results w' added,
       fetch_and_store_all_series clock db_up fred_series_ok fred_info_ok
         two_series "2020-01-01" initial_world
       = (Ok results, w')
       /\ data_fetch_log (committed w')
          = data_fetch_log (committed initial_world) ++ added
       /\ map log_summary added
          = batch_summaries fred_series_ok "2020-01-01"
                            (List.length (requests initial_world)) two_series
       /\ (forall key, In key (map fst results)
                       <-> In key (map fst two_series))
       /\ List.length (requests w')
          = (List.length (requests initial_world)
             + 2 * List.length two_series)%nat.
Proof.
  assert (Hclean : session_clean initial_world) by clean_session.
  assert (Hparse : strptime "2020-01-01" = Ok (d 1))
    by (vm_compute; reflexivity).
  split; [exact Hclean|]. split; [exact Hparse|].
  apply (fetch_and_store_all_series_summaries clock db_up fred_series_ok
           fred_info_ok two_series "2020-01-01" (d 1) initial_world
           Hclean Hparse).
  intros n. reflexivity.
Defined.

(** The same batch from a start date written with slashes. *)
Lemma fetch_and_store_all_series_refused_start_witness :
  session_clean initial_world
  /\ is_ascii "1980/01/01" = true
  /\ strptime "1980/01/01"
     = Raise (ValueError
                "time data '1980/01/01' does not match format '%Y-%m-%d'")
  /\ exists msg w',
       fetch_and_store_all_series clock db_up fred_series_ok fred_info_ok
         (("high_yield_spread", "BAMLH0A0HYM2")
            :: [("recession_indicator", "USREC")])
         "1980/01/01" initial_world
       = (Raise (ValueError msg), w')
       /\ data_fetch_log (committed w')
          = data_fetch_log (committed initial_world)
       /\ recession_periods (committed w')
          = recession_periods (committed initial_world)
       /\ requests w'
          = requests initial_world
            ++ [GetSeriesInfo "BAMLH0A0HYM2";
                GetSeries "BAMLH0A0HYM2" "1980/01/01" None]
       /\ session_clean w'.
Proof.
  assert (Hclean : session_clean initial_world) by clean_session.
  assert (Hascii : is_ascii "1980/01/01" = true) by reflexivity.
  assert (Hbad : strptime "1980/01/01"
                 = Raise (ValueError
                            "time data '1980/01/01' does not match format '%Y-%m-%d'"))
    by (vm_compute; reflexivity).
  split; [exact Hclean|]. split; [exact Hascii|]. split; [exact Hbad|].
  exact (fetch_and_store_all_series_refused_start clock db_up fred_series_ok
           fred_info_ok "high_yield_spread" "BAMLH0A0HYM2"
           [("recession_indicator", "USREC")] "1980/01/01" _ initial_world
           Hclean Hascii Hbad).
Defined.

(** A database that holds another series only. *)
Lemma process_recession_indicators_no_data_witness :
  usrec_records (loaded w_gdp) = []
  /\ process_recession_indicators clock db_up w_gdp
     = (Ok tt,
        mkWorld (committed w_gdp) (loaded w_gdp) (sess_new w_gdp)
                (ticks w_gdp) (S (dbops w_gdp)) (requests w_gdp)).
Proof.
  assert (Hnone : usrec_records (loaded w_gdp) = [])
    by (vm_compute; reflexivity).
  split; [exact Hnone|].
  apply (process_recession_indicators_no_data clock db_up w_gdp Hnone).
  reflexivity.
Defined.

(** The run over the history refreshed to four dates. *)
Lemma process_recession_indicators_reads_only_witness :
  session_clean w_stored4
  /\ market_data (committed w_derived4) = market_data (committed w_stored4)
  /\ data_fetch_log (committed w_derived4)
     = data_fetch_log (committed w_stored4)
  /\ requests w_derived4 = requests w_stored4
  /\ session_clean w_derived4.
Proof.
  assert (Hclean : session_clean w_stored4) by clean_session.
  split; [exact Hclean|].
  apply (process_recession_indicators_reads_only clock db_up w_stored4
           (Ok tt) w_derived4 Hclean).
  vm_compute. reflexivity.
Defined.

(** Two runs over the three-date history. *)
Lemma process_recession_indicators_idempotent_witness :
  session_clean w_stored3
  /\ committed (derive w_derived3) = committed w_derived3.
Proof.
  assert (Hclean : session_clean w_stored3) by clean_session.
  split; [exact Hclean|].
  apply (process_recession_indicators_idempotent clock db_up w_stored3
           w_derived3 (Ok tt) (derive w_derived3) Hclean);
    vm_compute; reflexivity.
Defined.

(** The run over the seven-date history. *)
Lemma process_recession_indicators_well_derived_witness :
  session_clean w_stored7
  /\ exists added,
       recession_periods (committed (derive w_stored7))
       = recession_periods (committed w_stored7) ++ added
       /\ Forall (well_derived (usrec_records (committed w_stored7))) added.
Proof.
  assert (Hclean : session_clean w_stored7) by clean_session.
  split; [exact Hclean|].
  apply (process_recession_indicators_well_derived clock db_up w_stored7
           (derive w_stored7) Hclean).
  vm_compute. reflexivity.
Defined.

(** The run over the history refreshed to five dates, which inserts a
    second interval. *)
Lemma process_recession_indicators_unique_starts_witness :
  session_clean w_stored5
  /\ natural_key_unique (committed w_stored5)
  /\ NoDup (map rp_start_date (recession_periods (committed w_stored5)))
  /\ NoDup (map rp_start_date (recession_periods (committed w_derived5))).
Proof.
  assert (Hclean : session_clean w_stored5) by clean_session.
  assert (Hkeys : natural_key_unique (committed w_stored5)).
  { unfold natural_key_unique.
    replace (map md_key (market_data (committed w_stored5)))
      with [(d 1, "USREC"); (d 2, "USREC"); (d 3, "USREC"); (d 4, "USREC");
            (d 5, "USREC")]
      by (vm_compute; reflexivity).
    distinct_dates. }
  assert (Hstarts : NoDup (map rp_start_date
                               (recession_periods (committed w_stored5)))).
  { replace (map rp_start_date (recession_periods (committed w_stored5)))
      with [d 2] by (vm_compute; reflexivity).
    distinct_dates. }
  split; [exact Hclean|]. split; [exact Hkeys|]. split; [exact Hstarts|].
  apply (process_recession_indicators_unique_starts clock db_up w_stored5
           (Ok tt) w_derived5 Hclean Hkeys Hstarts).
  vm_compute. reflexivity.
Defined.

(** The indicator is on at its first observation, 1 January. *)
Lemma process_recession_indicators_leading_one_witness :
  session_clean w_stored_on
  /\ exists p, In p (recession_periods (committed (derive w_stored_on)))
               /\ rp_start_date p = d 1.
Proof.
  assert (Hclean : session_clean w_stored_on) by clean_session.
  split; [exact Hclean|].
  apply (process_recession_indicators_leading_one clock db_up w_stored_on
           (derive w_stored_on)
           (mkMarketData 1 (d 1) "USREC" "USREC" 1%float (clock 0) (clock 1))
           [mkMarketData 2 (d 2) "USREC" "USREC" 0%float (clock 2) (clock 3)]
           Hclean);
    vm_compute; reflexivity.
Defined.

(** A start in July 1981. *)
Lemma recession_name_by_year_witness :
  _get_recession_name (mkDatetime 1981 7 1 0) = "Early 1980s Recession".
Proof.
  apply (proj1 (recession_name_by_year (mkDatetime 1981 7 1 0))).
  simpl. lia.
Defined.

(** The refresh of two series from the empty database. *)
Lemma refresh_market_data_succeeds_witness :
  strptime "2020-01-01" = Ok (d 1)
  /\ exists response w' added,
       refresh_market_data clock db_up fred_series_ok fred_info_ok
         starlette_str two_series "2020-01-01" initial_world
       = (Respond response, w')
       /\ refresh_status response = "success"
       /\ (forall key, In key (map fst (refresh_results response))
                       <-> In key (map fst two_series))
       /\ data_fetch_log (committed w')
          = data_fetch_log (committed initial_world) ++ added
       /\ map log_summary added
          = batch_summaries fred_series_ok "2020-01-01"
                            (List.length (requests initial_world)) two_series.
Proof.
  assert (Hparse : strptime "2020-01-01" = Ok (d 1))
    by (vm_compute; reflexivity).
  split; [exact Hparse|].
  apply (refresh_market_data_succeeds clock db_up fred_series_ok fred_info_ok
           starlette_str two_series "2020-01-01" (d 1) initial_world Hparse).
  intros n. reflexivity.
Defined.

(** The same refresh from a start date written with slashes. *)
Lemma refresh_market_data_refused_start_witness :
  is_ascii "1980/01/01" = true
  /\ strptime "1980/01/01"
     = Raise (ValueError
                "time data '1980/01/01' does not match format '%Y-%m-%d'")
  /\ exists detail w',
       refresh_market_data clock db_up fred_series_ok fred_info_ok
         starlette_str
         (("high_yield_spread", "BAMLH0A0HYM2")
            :: [("recession_indicator", "USREC")])
         "1980/01/01" initial_world
       = (Fail (HTTPException 500 detail), w')
       /\ data_fetch_log (committed w')
          = data_fetch_log (committed initial_world)
       /\ recession_periods (committed w')
          = recession_periods (committed initial_world)
       /\ requests w'
          = requests initial_world
            ++ [GetSeriesInfo "BAMLH0A0HYM2";
                GetSeries "BAMLH0A0HYM2" "1980/01/01" None].
Proof.
  assert (Hascii : is_ascii "1980/01/01" = true) by reflexivity.
  assert (Hbad : strptime "1980/01/01"
                 = Raise (ValueError
                            "time data '1980/01/01' does not match format '%Y-%m-%d'"))
    by (vm_compute; reflexivity).
  split; [exact Hascii|]. split; [exact Hbad|].
  exact (refresh_market_data_refused_start clock db_up fred_series_ok
           fred_info_ok starlette_str "high_yield_spread" "BAMLH0A0HYM2"
           [("recession_indicator", "USREC")] "1980/01/01" _ initial_world
           Hascii Hbad).
Defined.

(** A range that ends a month before it starts, over the indicator stored
    on five dates. *)
Lemma get_series_data_no_data_witness :
  strptime "2020-03-01" = Ok (d 3)
  /\ strptime "2020-02-01" = Ok (d 2)
  /\ (forall r, In r (market_data (committed w_stored5)) ->
                in_range "USREC" (d 3) (d 2) r = false)
  /\ fst (get_series_data clock db_up starlette_str "USREC" "2020-03-01"
                          (Some "2020-02-01") w_stored5)
     = Fail (HTTPException 500
               (starlette_str 404
                  (String.append "No data found for series " "USREC"))).
Proof.
  assert (Hstart : strptime "2020-03-01" = Ok (d 3))
    by (vm_compute; reflexivity).
  assert (Hend : strptime "2020-02-01" = Ok (d 2))
    by (vm_compute; reflexivity).
  assert (Hnone : forall r, In r (market_data (committed w_stored5)) ->
                            in_range "USREC" (d 3) (d 2) r = false).
  { assert (Hall : forallb (fun r => negb (in_range "USREC" (d 3) (d 2) r))
                           (market_data (committed w_stored5)) = true)
      by (vm_compute; reflexivity).
    intros r Hr. rewrite forallb_forall in Hall.
    apply negb_true_iff. exact (Hall r Hr). }
  split; [exact Hstart|]. split; [exact Hend|]. split; [exact Hnone|].
  apply (get_series_data_no_data clock db_up starlette_str "USREC"
           "2020-03-01" (Some "2020-02-01") (d 3) (d 2) w_stored5 Hstart);
    [exact Hend | reflexivity | exact Hnone].
Defined.

(** A thirteenth month. *)
Lemma get_series_data_bad_date_witness :
  is_ascii "2020-13-01" = true
  /\ strptime "2020-13-01"
     = Raise (ValueError
                "time data '2020-13-01' does not match format '%Y-%m-%d'")
  /\ exists msg,
       get_series_data clock db_up starlette_str "USREC" "2020-13-01"
                       None w_stored3
       = (Fail (HTTPException 400
                  (String.append "Invalid date format: " msg)),
          new_session w_stored3).
Proof.
  assert (Hascii : is_ascii "2020-13-01" = true) by reflexivity.
  assert (Hbad : strptime "2020-13-01"
                 = Raise (ValueError
                            "time data '2020-13-01' does not match format '%Y-%m-%d'"))
    by (vm_compute; reflexivity).
  split; [exact Hascii|]. split; [exact Hbad|].
  exact (get_series_data_bad_date clock db_up starlette_str "USREC"
           "2020-13-01" None _ w_stored3 (or_introl (conj Hascii Hbad))).
Defined.

(** February to March of the indicator stored on five dates. *)
Lemma get_series_data_serves_witness :
  exists start end_,
    strptime "2020-02-01" = Ok start
    /\ strptime "2020-03-01" = Ok end_
    /\ (forall pt,
          In pt (sd_data february_to_march)
          <-> exists r, In r (market_data (committed w_stored5))
                        /\ md_series_id r = "USREC"
                        /\ dt_leb start (md_date r) = true
                        /\ dt_leb (md_date r) end_ = true
                        /\ pt = point_of r)
    /\ StronglySorted point_ordered (sd_data february_to_march)
    /\ sd_total_points february_to_march
       = Z.of_nat (List.length (sd_data february_to_march))
    /\ sd_data february_to_march <> []
    /\ Forall (fun pt =>
                 dt_leb (sd_start_date february_to_march) (point_date pt)
                 = true
                 /\ dt_leb (point_date pt) (sd_end_date february_to_march)
                    = true)
              (sd_data february_to_march)
    /\ sd_series_id february_to_march = "USREC"
    /\ exists first_point other_points first_record,
         sd_data february_to_march = first_point :: other_points
         /\ sd_start_date february_to_march = point_date first_point
         /\ sd_end_date february_to_march
            = point_date (last (sd_data february_to_march) first_point)
         /\ In first_record (market_data (committed w_stored5))
         /\ md_series_id first_record = "USREC"
         /\ point_of first_record = first_point
         /\ sd_series_name february_to_march = md_series_name first_record.
Proof.
  apply (get_series_data_serves clock db_up starlette_str "USREC"
           "2020-02-01" (Some "2020-03-01") w_stored5 february_to_march
           (snd (get_series_data clock db_up starlette_str "USREC"
                   "2020-02-01" (Some "2020-03-01") w_stored5))).
  vm_compute. reflexivity.
Defined.

(** The two open intervals of the history refreshed to five dates, asked
    for from 1980. *)
Lemma get_recession_periods_serves_witness :
  (forall p, In p (recession_periods (committed w_derived5))
     <-> In p (recession_periods (committed w_derived5))
         /\ (forall s, truthy (Some "1980-01-01") = Some s ->
               exists start, strptime s = Ok start
                             /\ ends_on_or_after start p)
         /\ (forall s, truthy None = Some s ->
               exists end_, strptime s = Ok end_
                            /\ dt_leb (rp_start_date p) end_ = true))
  /\ StronglySorted start_ordered (recession_periods (committed w_derived5))
  /\ committed (new_session w_derived5) = committed w_derived5.
Proof.
  apply (get_recession_periods_serves db_up starlette_str
           (Some "1980-01-01") None w_derived5
           (snd (get_recession_periods db_up starlette_str
                   (Some "1980-01-01") None w_derived5))
           (recession_periods (committed w_derived5))).
  vm_compute. reflexivity.
Defined.

(** A start filter that is no date. *)
Lemma get_recession_periods_bad_date_witness :
  truthy (Some "yesterday") = Some "yesterday"
  /\ is_ascii "yesterday" = true
  /\ strptime "yesterday"
     = Raise (ValueError
                "time data 'yesterday' does not match format '%Y-%m-%d'")
  /\ exists msg,
       get_recession_periods db_up starlette_str (Some "yesterday") None
                             w_derived5
       = (Fail (HTTPException 400
                  (String.append "Invalid date format: " msg)),
          new_session w_derived5).
Proof.
  assert (Htruthy : truthy (Some "yesterday") = Some "yesterday")
    by reflexivity.
  assert (Hascii : is_ascii "yesterday" = true) by reflexivity.
  assert (Hbad : strptime "yesterday"
                 = Raise (ValueError
                            "time data 'yesterday' does not match format '%Y-%m-%d'"))
    by (vm_compute; reflexivity).
  split; [exact Htruthy|]. split; [exact Hascii|]. split; [exact Hbad|].
  exact (get_recession_periods_bad_date db_up starlette_str
           (Some "yesterday") None _ w_derived5
           (or_introl
              (ex_intro _ "yesterday" (conj Htruthy (conj Hascii Hbad))))).
Defined.
